(** * Black-bars overlay controller (src/main.py): model and verification

    The script polls the foreground window, and while the League of Legends
    game window is focused and not minimized it keeps a black window behind
    it and the task bar hidden.  Its state is two module-level globals
    ([black_window_hwnd], [black_bars_active]); everything else lives in the
    operating system and is reached through [win32gui], [win32api] and
    [ctypes].

    The program is embedded function by function in a state-and-exception
    monad [M] over a [World] that holds the two globals, the text printed so
    far, the part of the desktop the program acts on, and the operating
    system as it answers at the current moment ([OS]): what each query
    returns and which native calls fail.  The [OS] is replaced at every
    event of a run, so that a theorem quantified over event lists speaks of
    every behaviour of the environment. *)

From stdpp Require Import base gmap strings list pretty.

Set Warnings "-clear-no-such-hyp".

Local Open Scope Z_scope.

(** ** Constants *)

(** The values of the [win32con] names the script uses (Windows SDK). *)
Module win32con.
Definition MONITOR_DEFAULTTONEAREST : Z := 2.
Definition WM_DESTROY : Z := 2.
Definition BLACK_BRUSH : Z := 4.
Definition IDC_ARROW : Z := 32512.
Definition WS_EX_LAYERED : Z := 0x80000.
Definition WS_EX_TOOLWINDOW : Z := 0x80.
Definition WS_EX_TRANSPARENT : Z := 0x20.
Definition WS_EX_NOACTIVATE : Z := 0x8000000.
(** A signed 32-bit integer in [win32con]. *)
Definition WS_POPUP : Z := -0x80000000.
Definition WS_VISIBLE : Z := 0x10000000.
Definition LWA_ALPHA : Z := 2.
Definition SWP_NOSIZE : Z := 0x1.
Definition SWP_NOMOVE : Z := 0x2.
Definition SWP_NOZORDER : Z := 0x4.
Definition SWP_NOACTIVATE : Z := 0x10.
Definition SWP_SHOWWINDOW : Z := 0x40.
Definition SWP_HIDEWINDOW : Z := 0x80.
Definition SW_HIDE : Z := 0.
Definition SW_SHOW : Z := 5.
End win32con.

Definition LEAGUE_WINDOW_TITLE : string := "League of Legends (TM) Client".
Definition POLL_INTERVAL_MS : Z := 100.
Definition TASKBAR_CLASS : string := "Shell_TrayWnd".
Definition START_BUTTON_CLASS : string := "Button".

(** ** Data *)

(** Window handles are integers; [0] is the null handle. *)

(** [(left, top, right, bottom)]. *)
Definition Rect : Type := Z * Z * Z * Z.

(** The dictionary [win32api.GetMonitorInfo] returns. *)
Record MonitorInfo := {
  mi_Monitor : Rect;
  mi_Work : Rect;
  mi_Flags : Z;
  mi_Device : string;
}.

(** The native calls of the script, with their arguments. *)
Inductive Call :=
| CallGetForegroundWindow
| CallGetWindowText (hwnd : Z)
| CallIsIconic (hwnd : Z)
| CallMonitorFromWindow (hwnd flags : Z)
| CallGetMonitorInfo (hmonitor : Z)
| CallGetStockObject (object : Z)
| CallLoadCursor (hinstance cursor : Z)
| CallRegisterClass (class_name : string)
| CallCreateWindowEx (ex_style : Z) (class_name title : string)
                     (style x y width height : Z)
| CallSetLayeredWindowAttributes (hwnd key alpha flags : Z)
| CallSetWindowPos (hwnd insert_after x y cx cy flags : Z)
| CallShowWindow (hwnd cmd : Z)
| CallDestroyWindow (hwnd : Z)
| CallFindWindow (class_name title : option string)
| CallFindWindowEx (parent child_after : Z) (class_name title : string).

Definition call_name (c : Call) : string :=
  match c with
  | CallGetForegroundWindow => "GetForegroundWindow"
  | CallGetWindowText _ => "GetWindowText"
  | CallIsIconic _ => "IsIconic"
  | CallMonitorFromWindow _ _ => "MonitorFromWindow"
  | CallGetMonitorInfo _ => "GetMonitorInfo"
  | CallGetStockObject _ => "GetStockObject"
  | CallLoadCursor _ _ => "LoadCursor"
  | CallRegisterClass _ => "RegisterClass"
  | CallCreateWindowEx _ _ _ _ _ _ _ _ => "CreateWindowEx"
  | CallSetLayeredWindowAttributes _ _ _ _ => "SetLayeredWindowAttributes"
  | CallSetWindowPos _ _ _ _ _ _ _ => "SetWindowPos"
  | CallShowWindow _ _ => "ShowWindow"
  | CallDestroyWindow _ => "DestroyWindow"
  | CallFindWindow _ _ => "FindWindow"
  | CallFindWindowEx _ _ _ _ => "FindWindowEx"
  end.

(** The operating system as it answers at one moment: the result of every
    query, the handle the next window creation returns, and the native calls
    that fail (in [pywin32]: raise).  Nothing is assumed about it. *)
Record OS := {
  raises : Call → bool;
  foreground : Z;
  window_text : Z → string;
  iconic : Z → Z;
  monitor_from_window : Z → Z → Z;
  monitor_info : Z → MonitorInfo;
  stock_object : Z → Z;
  cursor : Z → Z → Z;
  find_window : option string → option string → Z;
  find_window_ex : Z → Z → string → string → Z;
  new_window : Z;
}.

(** A window created by this process. *)
Record Window := {
  w_class : string;
  w_title : string;
  w_ex_style : Z;
  w_style : Z;
  w_x : Z;
  w_y : Z;
  w_cx : Z;
  w_cy : Z;
  w_alpha : option Z;
}.

(** The desktop as far as the program acts on it: the windows it created,
    the stacking order of the top-level windows (front to back), the windows
    that are hidden, the window with input focus, the window classes it
    registered, and the native calls that took effect (most recent first). *)
Record Desktop := {
  windows : gmap Z Window;
  zorder : list Z;
  hidden : gset Z;
  focus : Z;
  classes : gset string;
  calls : list Call;
}.

(** The module's globals, its standard output (oldest line first), the
    desktop and the current operating-system answers. *)
Record World := {
  os : OS;
  desk : Desktop;
  black_window_hwnd : option Z;
  black_bars_active : bool;
  stdout : list string;
}.

Definition with_os (o : OS) (w : World) : World :=
  {| os := o; desk := desk w; black_window_hwnd := black_window_hwnd w;
     black_bars_active := black_bars_active w; stdout := stdout w |}.

Definition with_desk (d : Desktop) (w : World) : World :=
  {| os := os w; desk := d; black_window_hwnd := black_window_hwnd w;
     black_bars_active := black_bars_active w; stdout := stdout w |}.

Definition with_hwnd (h : option Z) (w : World) : World :=
  {| os := os w; desk := desk w; black_window_hwnd := h;
     black_bars_active := black_bars_active w; stdout := stdout w |}.

Definition with_active (b : bool) (w : World) : World :=
  {| os := os w; desk := desk w; black_window_hwnd := black_window_hwnd w;
     black_bars_active := b; stdout := stdout w |}.

Definition with_stdout (l : list string) (w : World) : World :=
  {| os := os w; desk := desk w; black_window_hwnd := black_window_hwnd w;
     black_bars_active := black_bars_active w; stdout := l |}.

(** ** The monad *)

(** Python exceptions: [Error] stands for any subclass of [Exception] (here
    always a failed native call, named by its function); [SystemExit] is
    what [sys.exit] raises and is not an [Exception]. *)
Inductive Exn :=
| Error (what : string)
| SystemExit (code : Z).

(** [Running]: the events of the run are used up and the polling loop is
    still going; it passes through every handler untouched. *)
Inductive Res (A : Type) :=
| Ok (a : A)
| Raise (e : Exn)
| Running.
Arguments Ok {A} a.
Arguments Raise {A} e.
Arguments Running {A}.

Definition M (A : Type) : Type := World → Res A * World.

#[global] Instance M_ret : MRet M := λ A a w, (Ok a, w).

#[global] Instance M_bind : MBind M := λ A B f m w,
  match m w with
  | (Ok a, w') => f a w'
  | (Raise e, w') => (Raise e, w')
  | (Running, w') => (Running, w')
  end.

Definition raise {A} (e : Exn) : M A := λ w, (Raise e, w).
Definition running {A} : M A := λ w, (Running, w).
Definition gets {A} (f : World → A) : M A := λ w, (Ok (f w), w).
Definition modify (f : World → World) : M unit := λ w, (Ok tt, f w).

(** [try: body except Exception: handler]. *)
Definition try_except {A} (body : M A) (handler : string → M A) : M A := λ w,
  match body w with
  | (Raise (Error what), w') => handler what w'
  | r => r
  end.

(** [try: body finally: final]. *)
Definition try_finally {A} (body : M A) (final : M unit) : M A := λ w,
  match body w with
  | (Ok a, w') =>
      match final w' with
      | (Ok _, w'') => (Ok a, w'')
      | (Raise e, w'') => (Raise e, w'')
      | (Running, w'') => (Running, w'')
      end
  | (Raise e, w') =>
      match final w' with
      | (Ok _, w'') => (Raise e, w'')
      | (Raise e', w'') => (Raise e', w'')
      | (Running, w'') => (Running, w'')
      end
  | (Running, w') => (Running, w')
  end.

Definition printed (line : string) (w : World) : World :=
  with_stdout (stdout w ++ [line]) w.

Definition print (line : string) : M unit := modify (printed line).

(** Bit test for flag words: [flags & bit != 0]. *)
Definition has_flag (flags bit : Z) : bool := negb (Z.land flags bit =? 0).

(** ** The native calls *)

Module Win32.

(** A native call fails when the operating system says so. *)
Definition guard (c : Call) : M unit := λ w,
  if raises (os w) c then (Raise (Error (call_name c)), w) else (Ok tt, w).

Definition fail {A} (c : Call) : M A := raise (Error (call_name c)).

Definition logged (c : Call) (d : Desktop) : Desktop :=
  {| windows := windows d; zorder := zorder d; hidden := hidden d;
     focus := focus d; classes := classes d; calls := c :: calls d |}.

(** A call that takes effect changes the desktop and is recorded. *)
Definition update (c : Call) (f : Desktop → Desktop) : M unit :=
  modify (λ w, with_desk (logged c (f (desk w))) w).

Definition GetForegroundWindow : M Z :=
  guard CallGetForegroundWindow;;
  gets (λ w, foreground (os w)).

Definition GetWindowText (hwnd : Z) : M string :=
  guard (CallGetWindowText hwnd);;
  gets (λ w, window_text (os w) hwnd).

Definition IsIconic (hwnd : Z) : M Z :=
  guard (CallIsIconic hwnd);;
  gets (λ w, iconic (os w) hwnd).

Definition MonitorFromWindow (hwnd flags : Z) : M Z :=
  guard (CallMonitorFromWindow hwnd flags);;
  gets (λ w, monitor_from_window (os w) hwnd flags).

Definition GetMonitorInfo (hmonitor : Z) : M MonitorInfo :=
  guard (CallGetMonitorInfo hmonitor);;
  gets (λ w, monitor_info (os w) hmonitor).

Definition GetStockObject (object : Z) : M Z :=
  guard (CallGetStockObject object);;
  gets (λ w, stock_object (os w) object).

Definition LoadCursor (hinstance id : Z) : M Z :=
  guard (CallLoadCursor hinstance id);;
  gets (λ w, cursor (os w) hinstance id).

Definition FindWindow (class_name title : option string) : M Z :=
  guard (CallFindWindow class_name title);;
  gets (λ w, find_window (os w) class_name title).

Definition FindWindowEx (parent child_after : Z) (class_name title : string)
  : M Z :=
  guard (CallFindWindowEx parent child_after class_name title);;
  gets (λ w, find_window_ex (os w) parent child_after class_name title).

(** Registering a class twice fails. *)
Definition RegisterClass (class_name : string) : M unit :=
  let c := CallRegisterClass class_name in
  guard c;;
  known ← gets (λ w, bool_decide (class_name ∈ classes (desk w)));
  if known : bool then fail c
  else update c (λ d,
    {| windows := windows d; zorder := zorder d; hidden := hidden d;
       focus := focus d; classes := {[class_name]} ∪ classes d;
       calls := calls d |}).

(** The new window gets the handle the operating system chooses (a null
    handle is a failure), goes to the front of the stacking order, and is
    shown only when its style has [WS_VISIBLE]. *)
Definition CreateWindowEx (ex_style : Z) (class_name title : string)
    (style x y width height : Z) : M Z :=
  let c := CallCreateWindowEx ex_style class_name title style x y width height in
  guard c;;
  hwnd ← gets (λ w, new_window (os w));
  if hwnd =? 0 then fail c
  else
    update c (λ d,
      {| windows :=
           <[hwnd := {| w_class := class_name; w_title := title;
                        w_ex_style := ex_style; w_style := style;
                        w_x := x; w_y := y; w_cx := width; w_cy := height;
                        w_alpha := None |}]> (windows d);
         zorder := hwnd :: zorder d;
         hidden := if has_flag style win32con.WS_VISIBLE
                   then hidden d ∖ {[hwnd]} else {[hwnd]} ∪ hidden d;
         focus := focus d; classes := classes d; calls := calls d |});;
    mret hwnd.

Definition set_alpha (alpha : Z) (win : Window) : Window :=
  {| w_class := w_class win; w_title := w_title win;
     w_ex_style := w_ex_style win; w_style := w_style win;
     w_x := w_x win; w_y := w_y win; w_cx := w_cx win; w_cy := w_cy win;
     w_alpha := Some alpha |}.

(** Called through [ctypes], which returns the BOOL and never raises. *)
Definition SetLayeredWindowAttributes (hwnd key alpha flags : Z) : M Z :=
  known ← gets (λ w, bool_decide (is_Some (windows (desk w) !! hwnd)));
  if known : bool then
    update (CallSetLayeredWindowAttributes hwnd key alpha flags) (λ d,
      {| windows := if has_flag flags win32con.LWA_ALPHA
                    then alter (set_alpha alpha) hwnd (windows d)
                    else windows d;
         zorder := zorder d; hidden := hidden d; focus := focus d;
         classes := classes d; calls := calls d |});;
    mret 1
  else mret 0.

Definition place (x y cx cy flags : Z) (win : Window) : Window :=
  let moved := negb (has_flag flags win32con.SWP_NOMOVE) in
  let sized := negb (has_flag flags win32con.SWP_NOSIZE) in
  {| w_class := w_class win; w_title := w_title win;
     w_ex_style := w_ex_style win; w_style := w_style win;
     w_x := if moved then x else w_x win;
     w_y := if moved then y else w_y win;
     w_cx := if sized then cx else w_cx win;
     w_cy := if sized then cy else w_cy win;
     w_alpha := w_alpha win |}.

(** [insert_behind h after l]: [h] right behind the first [after] of [l]. *)
Fixpoint insert_behind (h after : Z) (l : list Z) : list Z :=
  match l with
  | [] => []
  | k :: l' => if k =? after then k :: h :: l' else k :: insert_behind h after l'
  end.

(** [hwnd] leaves its place in the stacking order and goes right behind
    [insert_after]. *)
Definition restack (hwnd insert_after : Z) (l : list Z) : list Z :=
  insert_behind hwnd insert_after (filter (λ k, k ≠ hwnd) l).

(** Both handles must be windows of the desktop, otherwise the call fails.
    Unless the matching flag forbids it, the window is moved, resized,
    restacked behind [insert_after] and activated; the show and hide flags
    set its visibility. *)
Definition SetWindowPos (hwnd insert_after x y cx cy flags : Z) : M unit :=
  let c := CallSetWindowPos hwnd insert_after x y cx cy flags in
  let ordered := negb (has_flag flags win32con.SWP_NOZORDER) in
  guard c;;
  valid ← gets (λ w,
    bool_decide (hwnd ∈ zorder (desk w)) &&
    (negb ordered ||
     (bool_decide (insert_after ∈ zorder (desk w)) &&
      negb (insert_after =? hwnd))));
  if valid : bool then
    update c (λ d,
      {| windows := alter (place x y cx cy flags) hwnd (windows d);
         zorder := if ordered then restack hwnd insert_after (zorder d)
                   else zorder d;
         hidden := if has_flag flags win32con.SWP_SHOWWINDOW
                   then hidden d ∖ {[hwnd]}
                   else if has_flag flags win32con.SWP_HIDEWINDOW
                        then {[hwnd]} ∪ hidden d else hidden d;
         focus := if has_flag flags win32con.SWP_NOACTIVATE
                  then focus d else hwnd;
         classes := classes d; calls := calls d |})
  else fail c.

(** Only the visibility is modelled; the result is the previous one. *)
Definition ShowWindow (hwnd cmd : Z) : M Z :=
  let c := CallShowWindow hwnd cmd in
  guard c;;
  was_hidden ← gets (λ w, bool_decide (hwnd ∈ hidden (desk w)));
  update c (λ d,
    {| windows := windows d; zorder := zorder d;
       hidden := if cmd =? win32con.SW_HIDE
                 then {[hwnd]} ∪ hidden d else hidden d ∖ {[hwnd]};
       focus := focus d; classes := classes d; calls := calls d |});;
  mret (if was_hidden : bool then 0 else 1).

(** A process destroys only windows it created. *)
Definition DestroyWindow (hwnd : Z) : M unit :=
  let c := CallDestroyWindow hwnd in
  guard c;;
  own ← gets (λ w, bool_decide (is_Some (windows (desk w) !! hwnd)));
  if own : bool then
    update c (λ d,
      {| windows := delete hwnd (windows d);
         zorder := filter (λ k, k ≠ hwnd) (zorder d);
         hidden := hidden d ∖ {[hwnd]};
         focus := focus d; classes := classes d; calls := calls d |})
  else fail c.

End Win32.

(** ** The program *)

(** Python truth value of [int | None]: [None] and [0] are false. *)
Definition truthy (h : option Z) : bool :=
  match h with
  | Some k => negb (k =? 0)
  | None => false
  end.

(** [if h: body(h)] for [h] of type [int | None]. *)
Definition if_truthy (h : option Z) (body : Z → M unit) : M unit :=
  match h with
  | Some k => if truthy h then body k else mret tt
  | None => mret tt
  end.

(** [x or None] for an integer [x]. *)
Definition or_None (x : Z) : option Z := if x =? 0 then None else Some x.

(** [repr] of a tuple of four integers, as an f-string prints it. *)
Definition repr_rect (r : Rect) : string :=
  let '(left_, top, right_, bottom) := r in
  "(" +:+ pretty left_ +:+ ", " +:+ pretty top +:+ ", " +:+ pretty right_
      +:+ ", " +:+ pretty bottom +:+ ")".

(** *** Window detection *)

Definition get_foreground_window : M Z := Win32.GetForegroundWindow.

Definition get_window_title (hwnd : Z) : M string :=
  try_except (Win32.GetWindowText hwnd) (λ _, mret ""%string).

Definition is_window_minimized (hwnd : Z) : M bool :=
  try_except (r ← Win32.IsIconic hwnd; mret (negb (r =? 0)))
             (λ _, mret false).

Definition is_league_game_window (hwnd : Z) : M bool :=
  title ← get_window_title hwnd;
  mret (String.eqb title LEAGUE_WINDOW_TITLE).

Definition find_league_window : M (option Z) :=
  r ← Win32.FindWindow None (Some LEAGUE_WINDOW_TITLE);
  mret (or_None r).

(** *** Monitor detection *)

Definition get_monitor_info (hwnd : Z) : M (option MonitorInfo) :=
  try_except
    (monitor ← Win32.MonitorFromWindow hwnd win32con.MONITOR_DEFAULTTONEAREST;
     monitor_info ← Win32.GetMonitorInfo monitor;
     mret (Some monitor_info))
    (λ _, mret None).

(** The dictionary, when there is one, has its four keys and is true. *)
Definition get_monitor_rect (hwnd : Z) : M (option Rect) :=
  monitor_info ← get_monitor_info hwnd;
  match monitor_info with
  | Some info => mret (Some (mi_Monitor info))
  | None => mret None
  end.

(** *** Black background window *)

(** The window procedure of the class is never run by this script, which
    has no message loop; only the class name matters here. *)
Definition create_window_class : M string :=
  let class_name := "LeagueBlackBarsWindow"%string in
  Win32.GetStockObject win32con.BLACK_BRUSH;;
  Win32.LoadCursor 0 win32con.IDC_ARROW;;
  try_except (Win32.RegisterClass class_name) (λ _, mret tt);;
  mret class_name.

Definition create_black_window (monitor_rect : Rect) : M Z :=
  class_name ← create_window_class;
  let '(left_, top, right_, bottom) := monitor_rect in
  let width := right_ - left_ in
  let height := bottom - top in
  let ex_style :=
    Z.lor (Z.lor (Z.lor win32con.WS_EX_LAYERED win32con.WS_EX_TOOLWINDOW)
                 win32con.WS_EX_TRANSPARENT)
          win32con.WS_EX_NOACTIVATE in
  let style := win32con.WS_POPUP in
  hwnd ← Win32.CreateWindowEx ex_style class_name "Black Background" style
                              left_ top width height;
  Win32.SetLayeredWindowAttributes hwnd 0 255 win32con.LWA_ALPHA;;
  mret hwnd.

Definition show_black_window (hwnd league_hwnd : Z) : M unit :=
  Win32.SetWindowPos hwnd league_hwnd 0 0 0 0
    (Z.lor (Z.lor (Z.lor win32con.SWP_NOMOVE win32con.SWP_NOSIZE)
                  win32con.SWP_NOACTIVATE)
           win32con.SWP_SHOWWINDOW).

Definition hide_black_window (hwnd : Z) : M unit :=
  try_except (Win32.ShowWindow hwnd win32con.SW_HIDE;; mret tt)
             (λ _, mret tt).

Definition destroy_black_window (hwnd : Z) : M unit :=
  try_except (Win32.DestroyWindow hwnd) (λ _, mret tt).

(** *** Taskbar management *)

Definition find_taskbar : M (option Z) :=
  r ← Win32.FindWindow (Some TASKBAR_CLASS) None;
  mret (or_None r).

Definition find_start_button : M (option Z) :=
  taskbar ← find_taskbar;
  if truthy taskbar then
    start ← Win32.FindWindowEx 0 0 START_BUTTON_CLASS "Start";
    mret (or_None start)
  else mret None.

Definition hide_taskbar : M unit :=
  taskbar ← find_taskbar;
  if_truthy taskbar (λ h, Win32.ShowWindow h win32con.SW_HIDE;; mret tt);;
  start ← find_start_button;
  if_truthy start (λ h, Win32.ShowWindow h win32con.SW_HIDE;; mret tt).

Definition show_taskbar : M unit :=
  taskbar ← find_taskbar;
  if_truthy taskbar (λ h, Win32.ShowWindow h win32con.SW_SHOW;; mret tt);;
  start ← find_start_button;
  if_truthy start (λ h, Win32.ShowWindow h win32con.SW_SHOW;; mret tt).

(** *** Main logic *)

Definition WARNING : string :=
  "Warning: Could not determine monitor for League window".

Definition activate_black_bars (league_hwnd : Z) : M unit :=
  monitor_rect ← get_monitor_rect league_hwnd;
  match monitor_rect with
  | None => print WARNING
  | Some rect =>
      current ← gets black_window_hwnd;
      hwnd ← match current with
             | None =>
                 created ← create_black_window rect;
                 modify (with_hwnd (Some created));;
                 mret created
             | Some existing => mret existing
             end;
      show_black_window hwnd league_hwnd;;
      hide_taskbar;;
      modify (with_active true);;
      print ("Black bars activated on monitor: " +:+ repr_rect rect)%string
  end.

Definition deactivate_black_bars : M unit :=
  hwnd ← gets black_window_hwnd;
  if_truthy hwnd hide_black_window;;
  show_taskbar;;
  modify (with_active false);;
  print "Black bars deactivated".

Definition LF : Ascii.ascii := Ascii.ascii_of_nat 10.

(** The line feed that opens the first message is part of the line. *)
Definition CLEANING_UP : string := String LF "Cleaning up...".

Definition cleanup : M unit :=
  print CLEANING_UP;;
  show_taskbar;;
  hwnd ← gets black_window_hwnd;
  if_truthy hwnd (λ h,
    destroy_black_window h;;
    modify (with_hwnd None));;
  print "Cleanup complete".

Definition sys_exit {A} (code : Z) : M A := raise (SystemExit code).

(** The two signals [main] installs [signal_handler] for. *)
Inductive Signum :=
| SIGINT
| SIGTERM.

Definition signal_handler (signum : Signum) : M unit :=
  cleanup;;
  sys_exit 0.

(** ** The polling loop *)

(** What happens to the process: the loop body runs once more, or one of the
    two handled signals arrives while the loop sleeps (a signal that
    interrupts the body of the loop half-way is not an event of this
    model).  Each event comes with the operating system of its moment. *)
Inductive Event :=
| Tick (o : OS)
| Signal (signum : Signum) (o : OS).

Definition sleep (seconds_times_1000 : Z) : M unit := mret tt.

(** The body of [while True], up to the sleep. *)
Definition tick : M unit :=
  foreground_hwnd ← get_foreground_window;
  is_league ← is_league_game_window foreground_hwnd;
  minimized ← (if is_league : bool then is_window_minimized foreground_hwnd
               else mret false);
  active ← gets black_bars_active;
  if is_league && negb minimized then
    if negb active then activate_black_bars foreground_hwnd else mret tt
  else
    if active : bool then deactivate_black_bars else mret tt.

(** [while True] over the events of a run. *)
Fixpoint poll (events : list Event) : M unit :=
  match events with
  | [] => running
  | Tick o :: rest =>
      modify (with_os o);;
      tick;;
      sleep POLL_INTERVAL_MS;;
      poll rest
  | Signal signum o :: rest =>
      modify (with_os o);;
      signal_handler signum;;
      poll rest
  end.

Definition banner : list string :=
  [ "League of Legends Black Bars Script";
    "========================================";
    "Monitoring for window: '" +:+ LEAGUE_WINDOW_TITLE +:+ "'";
    "Poll interval: " +:+ pretty POLL_INTERVAL_MS +:+ "ms";
    "Press Ctrl+C to exit";
    "========================================" ]%string.

Definition main (events : list Event) : M unit :=
  mapM print banner;;
  try_finally
    (try_except (poll events) (λ e, print ("Error: " +:+ e)))
    cleanup.

(** The exit status of the interpreter after [main()]: [0] when it returns,
    the code of a [SystemExit], [1] for any other exception; none while the
    loop is running. *)
Definition exit_code (r : Res unit) : option Z :=
  match r with
  | Ok _ => Some 0
  | Raise (SystemExit code) => Some code
  | Raise (Error _) => Some 1
  | Running => None
  end.

(** The process at start: nothing created, not active, nothing printed. *)
Definition start (o : OS) (d : Desktop) : World :=
  {| os := o; desk := d; black_window_hwnd := None;
     black_bars_active := false; stdout := [] |}.

(** * Vocabulary of the specification *)

(** ** What a sample of the operating system tells the loop *)

(** The values the guarded queries of the script compute from an [OS]: a
    failing query yields the default of its [except] branch. *)
Definition title_of (o : OS) (hwnd : Z) : string :=
  if raises o (CallGetWindowText hwnd) then ""%string else window_text o hwnd.

Definition minimized_of (o : OS) (hwnd : Z) : bool :=
  if raises o (CallIsIconic hwnd) then false else negb (iconic o hwnd =? 0).

Definition monitor_rect_of (o : OS) (hwnd : Z) : option Rect :=
  let flags := win32con.MONITOR_DEFAULTTONEAREST in
  if raises o (CallMonitorFromWindow hwnd flags) then None
  else
    let monitor := monitor_from_window o hwnd flags in
    if raises o (CallGetMonitorInfo monitor) then None
    else Some (mi_Monitor (monitor_info o monitor)).

(** The per-tick sample [(is_target, is_minimized)] and the monitor of the
    foreground window. *)
Definition is_target (o : OS) : bool :=
  String.eqb (title_of o (foreground o)) LEAGUE_WINDOW_TITLE.

Definition is_minimized (o : OS) : bool := minimized_of o (foreground o).

Definition wanted (o : OS) : bool := is_target o && negb (is_minimized o).

Definition sample_rect (o : OS) : option Rect :=
  monitor_rect_of o (foreground o).

(** The task bar and the Start button as the lookups of the script find
    them, and whether one of the native calls of [hide_taskbar] ([cmd] is
    [SW_HIDE]) or [show_taskbar] ([SW_SHOW]) fails. *)
Definition taskbar_of (o : OS) : option Z :=
  or_None (find_window o (Some TASKBAR_CLASS) None).

Definition start_of (o : OS) : option Z :=
  match taskbar_of o with
  | Some _ => or_None (find_window_ex o 0 0 START_BUTTON_CLASS "Start")
  | None => None
  end.

Definition chrome (o : OS) : list Z :=
  option_list (taskbar_of o) ++ option_list (start_of o).

Definition lookups_ok (o : OS) : bool :=
  negb (raises o (CallFindWindow (Some TASKBAR_CLASS) None)) &&
  match taskbar_of o with
  | Some _ => negb (raises o (CallFindWindowEx 0 0 START_BUTTON_CLASS "Start"))
  | None => true
  end.

Definition chrome_ok (o : OS) (cmd : Z) : bool :=
  lookups_ok o && forallb (λ h, negb (raises o (CallShowWindow h cmd))) (chrome o).

(** ** The task bar *)

(** The desktop after [ShowWindow(hwnd, cmd)] took effect. *)
Definition show_window_desk (cmd : Z) (d : Desktop) (hwnd : Z) : Desktop :=
  {| windows := windows d; zorder := zorder d;
     hidden := if cmd =? win32con.SW_HIDE
               then {[hwnd]} ∪ hidden d else hidden d ∖ {[hwnd]};
     focus := focus d; classes := classes d;
     calls := CallShowWindow hwnd cmd :: calls d |}.

(** The common shape of [hide_taskbar] and [show_taskbar]. *)
Definition toggle_taskbar (cmd : Z) : M unit :=
  taskbar ← find_taskbar;
  if_truthy taskbar (λ h, Win32.ShowWindow h cmd;; mret tt);;
  start ← find_start_button;
  if_truthy start (λ h, Win32.ShowWindow h cmd;; mret tt).

Definition toggled (cmd : Z) (done : list Z) (w : World) : World :=
  with_desk (foldl (show_window_desk cmd) (desk w) done) w.

(** ** The overlay window *)

(** The flag word of [show_black_window]. *)
Definition SHOW_FLAGS : Z :=
  Z.lor (Z.lor (Z.lor win32con.SWP_NOMOVE win32con.SWP_NOSIZE)
               win32con.SWP_NOACTIVATE)
        win32con.SWP_SHOWWINDOW.

(** The desktop after [show_black_window] took effect. *)
Definition shown_behind (hwnd league_hwnd : Z) (d : Desktop) : Desktop :=
  {| windows := windows d;
     zorder := Win32.restack hwnd league_hwnd (zorder d);
     hidden := hidden d ∖ {[hwnd]};
     focus := focus d; classes := classes d;
     calls := CallSetWindowPos hwnd league_hwnd 0 0 0 0 SHOW_FLAGS :: calls d |}.

(** The desktop after [DestroyWindow(hwnd)] took effect. *)
Definition destroyed (hwnd : Z) (d : Desktop) : Desktop :=
  {| windows := delete hwnd (windows d);
     zorder := filter (λ k, k ≠ hwnd) (zorder d);
     hidden := hidden d ∖ {[hwnd]};
     focus := focus d; classes := classes d;
     calls := CallDestroyWindow hwnd :: calls d |}.

(** The class of the overlay is registered unless the call fails, which
    [create_window_class] ignores. *)
Definition OVERLAY_CLASS : string := "LeagueBlackBarsWindow".

Definition registered (o : OS) (d : Desktop) : Desktop :=
  if raises o (CallRegisterClass OVERLAY_CLASS) ||
     bool_decide (OVERLAY_CLASS ∈ classes d)
  then d
  else {| windows := windows d; zorder := zorder d; hidden := hidden d;
          focus := focus d; classes := {[OVERLAY_CLASS]} ∪ classes d;
          calls := CallRegisterClass OVERLAY_CLASS :: calls d |}.

Definition OVERLAY_EX_STYLE : Z :=
  Z.lor (Z.lor (Z.lor win32con.WS_EX_LAYERED win32con.WS_EX_TOOLWINDOW)
               win32con.WS_EX_TRANSPARENT)
        win32con.WS_EX_NOACTIVATE.

(** The overlay as [CreateWindowEx] makes it, before its alpha is set. *)
Definition bare_window (rect : Rect) : Window :=
  let '(left_, top, right_, bottom) := rect in
  {| w_class := OVERLAY_CLASS; w_title := "Black Background";
     w_ex_style := OVERLAY_EX_STYLE; w_style := win32con.WS_POPUP;
     w_x := left_; w_y := top; w_cx := right_ - left_; w_cy := bottom - top;
     w_alpha := None |}.

(** The overlay as [create_black_window] leaves it. *)
Definition overlay_window (rect : Rect) : Window :=
  let '(left_, top, right_, bottom) := rect in
  {| w_class := OVERLAY_CLASS; w_title := "Black Background";
     w_ex_style := OVERLAY_EX_STYLE; w_style := win32con.WS_POPUP;
     w_x := left_; w_y := top; w_cx := right_ - left_; w_cy := bottom - top;
     w_alpha := Some 255 |}.

Definition create_call (rect : Rect) : Call :=
  let '(left_, top, right_, bottom) := rect in
  CallCreateWindowEx OVERLAY_EX_STYLE OVERLAY_CLASS "Black Background"
    win32con.WS_POPUP left_ top (right_ - left_) (bottom - top).

(** The desktop after [create_black_window] created window [hwnd]. *)
Definition with_overlay (rect : Rect) (hwnd : Z) (d : Desktop) : Desktop :=
  {| windows := <[hwnd := overlay_window rect]> (windows d);
     zorder := hwnd :: zorder d;
     hidden := {[hwnd]} ∪ hidden d;
     focus := focus d; classes := classes d;
     calls := CallSetLayeredWindowAttributes hwnd 0 255 win32con.LWA_ALPHA
              :: create_call rect :: calls d |}.

(** ** Deactivation and cleanup *)

(** The world after the guarded hide of [deactivate_black_bars]. *)
Definition overlay_hidden (w : World) : World :=
  match black_window_hwnd w with
  | Some h =>
      if (h =? 0) || raises (os w) (CallShowWindow h win32con.SW_HIDE) then w
      else with_desk (show_window_desk win32con.SW_HIDE (desk w) h) w
  | None => w
  end.

(** The world after the guarded destruction of [cleanup]. *)
Definition overlay_destroyed (w : World) : World :=
  match black_window_hwnd w with
  | Some h =>
      if h =? 0 then w
      else with_hwnd None
             (if raises (os w) (CallDestroyWindow h) then w
              else if bool_decide (is_Some (windows (desk w) !! h))
                   then with_desk (destroyed h (desk w)) w else w)
  | None => w
  end.

(** What can be seen of a world: the windows, their order and visibility,
    the focus, and the two globals; not the output nor the record of the
    calls made. *)
Definition observable (w : World) :
    gmap Z Window * list Z * gset Z * Z * option Z * bool :=
  (windows (desk w), zorder (desk w), hidden (desk w), focus (desk w),
   black_window_hwnd w, black_bars_active w).

(** [back] is right behind [front] in a stacking order. *)
Definition behind (front back : Z) (l : list Z) : Prop :=
  ∃ l1 l2, l = l1 ++ front :: back :: l2.

(** ** Activation *)

(** The world after the creation step of [activate_black_bars], when it
    succeeds: an existing overlay is kept, otherwise one is created for
    [rect] and its handle stored. *)
Definition ensured (rect : Rect) (w : World) : World :=
  match black_window_hwnd w with
  | Some _ => w
  | None =>
      with_hwnd (Some (new_window (os w)))
        (with_desk (with_overlay rect (new_window (os w))
                      (registered (os w) (desk w))) w)
  end.

Definition ACTIVATED (rect : Rect) : string :=
  "Black bars activated on monitor: " +:+ repr_rect rect.

(** The world after a successful [activate_black_bars] for the overlay
    [hwnd]. *)
Definition activated (hwnd league_hwnd : Z) (rect : Rect) (w : World) : World :=
  let w1 := ensured rect w in
  printed (ACTIVATED rect)
    (with_active true
       (toggled win32con.SW_HIDE (chrome (os w))
          (with_desk (shown_behind hwnd league_hwnd (desk w1)) w1))).

(** The number of windows created so far. *)
Definition is_create (c : Call) : bool :=
  match c with
  | CallCreateWindowEx _ _ _ _ _ _ _ _ => true
  | _ => false
  end.

Definition creations (d : Desktop) : nat :=
  length (filter (λ c, is_create c = true) (calls d)).

(** A result of the script proper: it returned or raised an [Exception]. *)
Definition tame {A} (r : Res A) : Prop :=
  match r with
  | Ok _ | Raise (Error _) => True
  | Raise (SystemExit _) | Running => False
  end.

(** The overlay handle and the creations so far agree: no handle and
    [n] creations, or the handle of a window of the process, not null, and
    one creation more. *)
Definition created_once (n : nat) (w : World) : Prop :=
  match black_window_hwnd w with
  | None => creations (desk w) = n
  | Some h =>
      h ≠ 0 ∧ creations (desk w) = S n ∧ is_Some (windows (desk w) !! h)
  end.

(** The process when the polling loop starts: the banner is printed. *)
Definition booted (o : OS) (d : Desktop) : World :=
  with_stdout banner (start o d).

(** C1 as the specification states it: after each tick of a run of the
    process, the flag equals [is_target ∧ ¬is_minimized] of that tick's
    sample. *)
Definition flag_follows_sample : Prop :=
  ∀ (samples : list OS) (o o0 : OS) (d : Desktop) (w' : World),
    poll (Tick <$> (samples ++ [o])) (booted o0 d) = (Running, w') →
    black_bars_active w' = is_target o && negb (is_minimized o).


(** ** The desktop and the flag *)

(** [win] covers the rectangle [rect]. *)
Definition sized_to (rect : Rect) (win : Window) : Prop :=
  let '(left_, top, right_, bottom) := rect in
  w_x win = left_ ∧ w_y win = top ∧
  w_cx win = right_ - left_ ∧ w_cy win = bottom - top.

(** C2 as the specification states it, for the world [w] after a tick with
    sample [o]: an inactive program has its overlay, if any, hidden and the
    task bar shown; an active one has the overlay shown, right behind the
    target window, sized to the monitor of that window, and the task bar
    hidden. *)
Definition spec_invariant (o : OS) (w : World) : Prop :=
  if black_bars_active w then
    ∃ h win rect,
      black_window_hwnd w = Some h ∧
      (h ∉ hidden (desk w)) ∧
      behind (foreground o) h (zorder (desk w)) ∧
      windows (desk w) !! h = Some win ∧
      sample_rect o = Some rect ∧
      sized_to rect win ∧
      ∀ t, t ∈ chrome o → t ∈ hidden (desk w)
  else
    (∀ h, black_window_hwnd w = Some h → h ∈ hidden (desk w)) ∧
    (∀ t, t ∈ chrome o → t ∉ hidden (desk w)).

(** An operating system whose task bar and Start button are the windows
    [C], which does not hand out one of them as a new window, and where
    hiding any other window does not fail. *)
Definition steady (C : list Z) (o : OS) : Prop :=
  chrome o = C ∧
  (new_window o ∉ C) ∧
  ∀ h, h ∉ C → raises o (CallShowWindow h win32con.SW_HIDE) = false.

(** What the program maintains, for the task bar windows [C]: the overlay
    handle is never null nor one of [C]; an inactive program has its
    overlay, if any, hidden and [C] shown; an active one has an overlay,
    shown, and [C] hidden. *)
Definition desktop_matches (C : list Z) (w : World) : Prop :=
  (∀ h, black_window_hwnd w = Some h → h ≠ 0 ∧ h ∉ C) ∧
  if black_bars_active w then
    (∃ h, black_window_hwnd w = Some h ∧ h ∉ hidden (desk w)) ∧
    (∀ t, t ∈ C → t ∈ hidden (desk w))
  else
    (∀ h, black_window_hwnd w = Some h → h ∈ hidden (desk w)) ∧
    (∀ t, t ∈ C → t ∉ hidden (desk w)).

(** ** A desktop to run the program on *)

(** The game window [LEAGUE] and an editor [NOTEPAD], the task bar and the
    Start button, two monitors side by side; window creation returns
    [OVERLAY]. *)
Module Scenario.

Definition LEAGUE : Z := 100.
Definition NOTEPAD : Z := 200.
Definition TASKBAR : Z := 300.
Definition START : Z := 301.
Definition OVERLAY : Z := 900.

Definition monitor1 : MonitorInfo :=
  {| mi_Monitor := (0, 0, 1920, 1080); mi_Work := (0, 0, 1920, 1040);
     mi_Flags := 1; mi_Device := "DISPLAY1" |}.

Definition monitor2 : MonitorInfo :=
  {| mi_Monitor := (1920, 0, 4480, 1440); mi_Work := (1920, 0, 4480, 1400);
     mi_Flags := 0; mi_Device := "DISPLAY2" |}.

(** The operating system with window [fg] in front, minimized or not, the
    game on monitor [mon], and the calls [failing] failing. *)
Definition system (fg : Z) (minimized : bool) (mon : MonitorInfo)
    (failing : Call → bool) : OS :=
  {| raises := failing;
     foreground := fg;
     window_text := λ h, if h =? LEAGUE then LEAGUE_WINDOW_TITLE
                         else if h =? NOTEPAD then "Notepad"%string
                         else ""%string;
     iconic := λ h, if minimized && (h =? fg) then 1 else 0;
     monitor_from_window := λ _ _, 65537;
     monitor_info := λ _, mon;
     stock_object := λ _, 1;
     cursor := λ _ _, 65539;
     find_window := λ c _, if bool_decide (c = Some TASKBAR_CLASS)
                           then TASKBAR else 0;
     find_window_ex := λ _ _ _ _, START;
     new_window := OVERLAY |}.

Definition no_failure (c : Call) : bool := false.

Definition monitor_failure (c : Call) : bool :=
  match c with
  | CallGetMonitorInfo _ => true
  | _ => false
  end.

(** The same system with no task bar to be found. *)
Definition bare_system (fg : Z) : OS :=
  {| raises := no_failure;
     foreground := fg;
     window_text := window_text (system fg false monitor1 no_failure);
     iconic := λ _, 0;
     monitor_from_window := λ _ _, 65537;
     monitor_info := λ _, monitor1;
     stock_object := λ _, 1;
     cursor := λ _ _, 65539;
     find_window := λ _ _, 0;
     find_window_ex := λ _ _ _ _, 0;
     new_window := OVERLAY |}.

Definition game : OS := system LEAGUE false monitor1 no_failure.
Definition game_minimized : OS := system LEAGUE true monitor1 no_failure.
Definition game_moved : OS := system LEAGUE false monitor2 no_failure.
Definition game_unplaced : OS := system LEAGUE false monitor1 monitor_failure.
Definition editor : OS := system NOTEPAD false monitor1 no_failure.

Definition desktop : Desktop :=
  {| windows := ∅; zorder := [LEAGUE; NOTEPAD; TASKBAR; START];
     hidden := ∅; focus := LEAGUE; classes := ∅; calls := [] |}.

Definition boot : World := booted editor desktop.

End Scenario.

Module Examples.
Import Scenario.

(** The game is in front, the program not yet active, and the monitor of
    the game cannot be determined. *)
Definition unplaced : World := with_os game_unplaced boot.

(** The same with an overlay left from an earlier activation. *)
Definition unplaced_again : World :=
  with_hwnd (Some OVERLAY) (with_os game_unplaced boot).

(** A desktop where the overlay exists, hidden, in front of the game. *)
Definition stacked : World :=
  with_desk
    {| windows := {[OVERLAY := overlay_window (0, 0, 1920, 1080)]};
       zorder := [OVERLAY; NOTEPAD; LEAGUE; TASKBAR; START];
       hidden := {[OVERLAY]}; focus := LEAGUE; classes := {[OVERLAY_CLASS]};
       calls := [] |}
    (with_hwnd (Some OVERLAY) (with_os game boot)).

(** A desktop without task bar. *)
Definition bare : World := start (bare_system LEAGUE) desktop.

(** The program active after one tick with the game in front. *)
Definition playing : World := (poll [Tick game] boot).2.

End Examples.

(** * Vocabulary of the further properties *)

(** The operating system an event of a run comes with. *)
Definition event_os (e : Event) : OS :=
  match e with
  | Tick o => o
  | Signal _ o => o
  end.

(** The handle [h] is not in use on the desktop [d]. *)
Definition fresh (h : Z) (d : Desktop) : Prop :=
  windows d !! h = None ∧ (h ∉ zorder d) ∧ (h ∉ hidden d).

(** More operating systems and worlds to run the program on. *)
Module Cases.
Import Scenario.

Definition title_failure (c : Call) : bool :=
  match c with
  | CallGetWindowText _ => true
  | _ => false
  end.

Definition iconic_failure (c : Call) : bool :=
  match c with
  | CallIsIconic _ => true
  | _ => false
  end.

Definition start_failure (c : Call) : bool :=
  match c with
  | CallShowWindow h _ => h =? START
  | _ => false
  end.

Definition creation_failure (c : Call) : bool :=
  match c with
  | CallCreateWindowEx _ _ _ _ _ _ _ _ => true
  | _ => false
  end.

Definition taskbar_failure (c : Call) : bool :=
  match c with
  | CallShowWindow h _ => h =? TASKBAR
  | _ => false
  end.

Definition overlay_failure (c : Call) : bool :=
  match c with
  | CallShowWindow h _ => h =? OVERLAY
  | CallDestroyWindow h => h =? OVERLAY
  | _ => false
  end.

(** The game in front, its title unreadable. *)
Definition game_unreadable : OS := system LEAGUE false monitor1 title_failure.

(** The game in front, minimized, the test for it failing. *)
Definition game_untested : OS := system LEAGUE true monitor1 iconic_failure.

(** The game in front, the Start button refusing to be shown or hidden. *)
Definition game_stubborn : OS := system LEAGUE false monitor1 start_failure.

(** The game in front, no window can be created. *)
Definition game_uncreated : OS := system LEAGUE false monitor1 creation_failure.

(** The editor in front, the task bar refusing to be shown or hidden. *)
Definition editor_stuck : OS := system NOTEPAD false monitor1 taskbar_failure.

(** The editor in front, the overlay refusing to be hidden or destroyed. *)
Definition editor_haunted : OS := system NOTEPAD false monitor1 overlay_failure.

(** The process at start with the game in front. *)
Definition fresh_start : World := with_os game boot.

Definition lookup_failure (c : Call) : bool :=
  match c with
  | CallFindWindow _ _ => true
  | _ => false
  end.

(** The game in front, the search for the task bar failing. *)
Definition game_lost : OS := system LEAGUE false monitor1 lookup_failure.

(** The game in front, a task bar and no Start button. *)
Definition game_without_start : OS :=
  {| raises := no_failure;
     foreground := LEAGUE;
     window_text := window_text game;
     iconic := iconic game;
     monitor_from_window := monitor_from_window game;
     monitor_info := monitor_info game;
     stock_object := stock_object game;
     cursor := cursor game;
     find_window := find_window game;
     find_window_ex := λ _ _ _ _, 0;
     new_window := OVERLAY |}.


End Cases.

(** ** The lines of the output *)

(** The two messages that report a change of the flag, and how many lines
    of an output satisfy a test. *)
Definition is_activation (line : string) : bool :=
  String.prefix "Black bars activated on monitor: " line.

Definition is_deactivation (line : string) : bool :=
  String.eqb line "Black bars deactivated".

Definition count_lines (test : string → bool) (out : list string) : nat :=
  length (filter (λ line, test line = true) out).

(** ** The desktop the process started on *)

(** What the process maintains with respect to the desktop [d] it started
    on, for task bar windows among [C]: apart from the overlay and [C], no
    window has changed visibility; without an overlay the windows and their
    order are those of [d]; with an overlay [h], that handle was not in use
    on [d], the window is the process's, and taking it away gives back the
    windows and the order of [d]. *)
Definition untouched (C : list Z) (d : Desktop) (w : World) : Prop :=
  (∀ k, k ∉ C → black_window_hwnd w ≠ Some k →
        k ∈ hidden (desk w) ↔ k ∈ hidden d) ∧
  match black_window_hwnd w with
  | None => windows (desk w) = windows d ∧ zorder (desk w) = zorder d
  | Some h =>
      h ≠ 0 ∧ fresh h d ∧
      is_Some (windows (desk w) !! h) ∧
      delete h (windows (desk w)) = windows d ∧
      filter (λ k, k ≠ h) (zorder (desk w)) = zorder d
  end.

(** ** Two claims as the specification states them *)


(** C9 as the specification states it: whenever the task bar cannot be
    located, that is the lookup does not return a handle, hiding and showing
    the task bar return normally and do nothing. *)
Definition taskbar_best_effort : Prop :=
  ∀ w : World,
    (∀ h w', find_taskbar w ≠ (Ok (Some h), w')) →
    hide_taskbar w = (Ok tt, w) ∧ show_taskbar w = (Ok tt, w).

(** * Verification *)

(** ** The monad, step by step *)

Lemma bind_run {A B} (m : M A) (k : A → M B) (w : World) :
  (m ≫= k) w =
  match m w with
  | (Ok a, w') => k a w'
  | (Raise e, w') => (Raise e, w')
  | (Running, w') => (Running, w')
  end.
Proof. reflexivity. Qed.

Lemma bind_ok {A B} (m : M A) (k : A → M B) (w w' : World) (a : A) :
  m w = (Ok a, w') → (m ≫= k) w = k a w'.
Proof. intros H. rewrite bind_run, H. reflexivity. Qed.

Lemma with_desk_same (w : World) : with_desk (desk w) w = w.
Proof. by destruct w. Qed.

(** ** The queries compute the sample *)

Ltac run :=
  cbv beta iota zeta delta
    [mbind M_bind mret M_ret try_except Win32.guard Win32.fail Win32.update
     gets modify raise print].

Ltac raise_cases :=
  repeat match goal with
         | |- context [raises ?o ?c] =>
             destruct (raises o c) eqn:?; cbv beta iota zeta
         end.

Lemma get_foreground_window_run (w : World) :
  get_foreground_window w =
  if raises (os w) CallGetForegroundWindow
  then (Raise (Error "GetForegroundWindow"), w)
  else (Ok (foreground (os w)), w).
Proof.
  unfold get_foreground_window, Win32.GetForegroundWindow. run.
  destruct (raises _ _); reflexivity.
Qed.

Lemma get_window_title_run (hwnd : Z) (w : World) :
  get_window_title hwnd w = (Ok (title_of (os w) hwnd), w).
Proof.
  unfold get_window_title, Win32.GetWindowText, title_of. run.
  destruct (raises _ _); reflexivity.
Qed.

Lemma is_window_minimized_run (hwnd : Z) (w : World) :
  is_window_minimized hwnd w = (Ok (minimized_of (os w) hwnd), w).
Proof.
  unfold is_window_minimized, Win32.IsIconic, minimized_of. run.
  destruct (raises _ _); reflexivity.
Qed.

Lemma is_league_game_window_run (hwnd : Z) (w : World) :
  is_league_game_window hwnd w =
  (Ok (String.eqb (title_of (os w) hwnd) LEAGUE_WINDOW_TITLE), w).
Proof.
  unfold is_league_game_window.
  rewrite (bind_ok _ _ _ _ _ (get_window_title_run hwnd w)). reflexivity.
Qed.

Lemma get_monitor_rect_run (hwnd : Z) (w : World) :
  get_monitor_rect hwnd w = (Ok (monitor_rect_of (os w) hwnd), w).
Proof.
  unfold get_monitor_rect, get_monitor_info, Win32.MonitorFromWindow,
    Win32.GetMonitorInfo, monitor_rect_of.
  run. raise_cases; reflexivity.
Qed.

(** ** The task bar *)

Lemma ShowWindow_run (hwnd cmd : Z) (w : World) :
  Win32.ShowWindow hwnd cmd w =
  if raises (os w) (CallShowWindow hwnd cmd)
  then (Raise (Error "ShowWindow"), w)
  else (Ok (if bool_decide (hwnd ∈ hidden (desk w)) then 0 else 1),
        with_desk (show_window_desk cmd (desk w) hwnd) w).
Proof.
  unfold Win32.ShowWindow. run. destruct (raises _ _); reflexivity.
Qed.

Lemma hide_taskbar_toggle : hide_taskbar = toggle_taskbar win32con.SW_HIDE.
Proof. reflexivity. Qed.

Lemma show_taskbar_toggle : show_taskbar = toggle_taskbar win32con.SW_SHOW.
Proof. reflexivity. Qed.

(** Every run of the two operations: the windows found are shown or hidden
    in order, up to the first call that fails. *)
Lemma toggle_taskbar_run (cmd : Z) (w : World) :
  ∃ done,
    done `prefix_of` chrome (os w) ∧
    ((chrome_ok (os w) cmd = true ∧ done = chrome (os w) ∧
      toggle_taskbar cmd w = (Ok tt, toggled cmd done w)) ∨
     (chrome_ok (os w) cmd = false ∧
      ∃ what, toggle_taskbar cmd w = (Raise (Error what), toggled cmd done w))).
Proof.
  unfold toggle_taskbar, find_start_button, find_taskbar, Win32.FindWindow,
    Win32.FindWindowEx, chrome_ok, lookups_ok, chrome, start_of, taskbar_of,
    toggled.
  destruct w as [o d hw act out]; cbn [os desk].
  run. cbn [os desk].
  destruct (raises o (CallFindWindow _ _)) eqn:Hfind; cbn.
  { exists []. split; [apply prefix_nil|]. right. split; [done|]. by eexists. }
  unfold or_None.
  destruct (find_window o _ _ =? 0) eqn:Htb; cbn.
  { rewrite Hfind. cbn. rewrite Htb. cbn.
    exists []. split; [done|]. left. done. }
  rewrite Htb. cbn. rewrite ShowWindow_run. cbn [os desk].
  destruct (raises o (CallShowWindow _ _)) eqn:Hshow; cbn.
  { exists []. split; [apply prefix_nil|]. right.
    split; [by rewrite !andb_false_r|]. by eexists. }
  rewrite Hfind. cbn. rewrite Htb. cbn. rewrite Htb. cbn.
  destruct (raises o (CallFindWindowEx _ _ _ _)) eqn:Hex; cbn.
  { eexists [_]. split; [by apply prefix_cons, prefix_nil|]. right.
    split; [done|]. by eexists. }
  destruct (find_window_ex o _ _ _ _ =? 0) eqn:Hsb; cbn.
  { eexists [_]. split; [done|]. left. done. }
  rewrite Hsb. cbn. rewrite ShowWindow_run. cbn [os desk].
  destruct (raises o (CallShowWindow (find_window_ex _ _ _ _ _) _)) eqn:Hshow2;
    cbn; rewrite ?Hshow2; cbn.
  { eexists [_]. split; [by apply prefix_cons, prefix_nil|]. right.
    split; [done|]. by eexists. }
  eexists [_; _]. split; [done|]. left. done.
Qed.

Lemma toggle_taskbar_ok (cmd : Z) (w : World) :
  chrome_ok (os w) cmd = true →
  toggle_taskbar cmd w = (Ok tt, toggled cmd (chrome (os w)) w).
Proof.
  intros Hok.
  destruct (toggle_taskbar_run cmd w)
    as (done & _ & [(_ & -> & Hrun) | (Hko & _)]); congruence.
Qed.

Lemma toggle_taskbar_fail (cmd : Z) (w : World) :
  chrome_ok (os w) cmd = false →
  ∃ seen what,
    seen `prefix_of` chrome (os w) ∧
    toggle_taskbar cmd w = (Raise (Error what), toggled cmd seen w).
Proof.
  intros Hko.
  destruct (toggle_taskbar_run cmd w)
    as (seen & Hpre & [(Hok & _) | (_ & what & Hrun)]); [congruence | eauto].
Qed.

Lemma toggle_taskbar_any (cmd : Z) (w w' : World) (r : Res unit) :
  toggle_taskbar cmd w = (r, w') →
  tame r ∧ ∃ seen, seen `prefix_of` chrome (os w) ∧ w' = toggled cmd seen w.
Proof.
  destruct (toggle_taskbar_run cmd w)
    as (seen & Hpre & [(_ & _ & ->) | (_ & what & ->)]);
    intros [= <- <-]; (split; [done|eauto]).
Qed.

Lemma prefix_elem_of (seen l : list Z) (t : Z) :
  seen `prefix_of` l → t ∈ seen → t ∈ l.
Proof. intros [k ->] Ht. set_solver. Qed.

Lemma toggled_nil (cmd : Z) (w : World) : toggled cmd [] w = w.
Proof. apply with_desk_same. Qed.

Lemma toggled_os cmd done w : os (toggled cmd done w) = os w.
Proof. reflexivity. Qed.

Lemma toggled_hwnd cmd done w :
  black_window_hwnd (toggled cmd done w) = black_window_hwnd w.
Proof. reflexivity. Qed.

Lemma toggled_windows cmd done w :
  windows (desk (toggled cmd done w)) = windows (desk w).
Proof.
  unfold toggled. cbn. generalize (desk w).
  induction done as [|h done IH]; intros d; cbn; [done|]. by rewrite IH.
Qed.

Lemma toggled_zorder cmd done w :
  zorder (desk (toggled cmd done w)) = zorder (desk w).
Proof.
  unfold toggled. cbn. generalize (desk w).
  induction done as [|h done IH]; intros d; cbn; [done|]. by rewrite IH.
Qed.

Lemma toggled_focus cmd done w :
  focus (desk (toggled cmd done w)) = focus (desk w).
Proof.
  unfold toggled. cbn. generalize (desk w).
  induction done as [|h done IH]; intros d; cbn; [done|]. by rewrite IH.
Qed.

Lemma toggled_calls cmd done w :
  calls (desk (toggled cmd done w)) =
  reverse ((λ h, CallShowWindow h cmd) <$> done) ++ calls (desk w).
Proof.
  unfold toggled. cbn [desk with_desk]. generalize (desk w).
  induction done as [|h done IH]; intros d; [done|].
  cbn [foldl]. rewrite IH. cbn [calls show_window_desk].
  rewrite fmap_cons, reverse_cons, <- app_assoc. done.
Qed.

Lemma toggled_hidden_show done w :
  hidden (desk (toggled win32con.SW_SHOW done w)) =
  hidden (desk w) ∖ list_to_set done.
Proof.
  unfold toggled. cbn. generalize (desk w).
  induction done as [|h done IH]; intros d; cbn.
  - set_solver.
  - rewrite IH. cbn. set_solver.
Qed.

Lemma toggled_hidden_hide done w :
  hidden (desk (toggled win32con.SW_HIDE done w)) =
  list_to_set done ∪ hidden (desk w).
Proof.
  unfold toggled. cbn. generalize (desk w).
  induction done as [|h done IH]; intros d; cbn.
  - set_solver.
  - rewrite IH. cbn. set_solver.
Qed.

(** ** The overlay window *)

Lemma place_SHOW_FLAGS (x y cx cy : Z) (win : Window) :
  Win32.place x y cx cy SHOW_FLAGS win = win.
Proof. by destruct win. Qed.

Lemma show_black_window_run (hwnd league_hwnd : Z) (w : World) :
  show_black_window hwnd league_hwnd w =
  if raises (os w) (CallSetWindowPos hwnd league_hwnd 0 0 0 0 SHOW_FLAGS)
  then (Raise (Error "SetWindowPos"), w)
  else if bool_decide (hwnd ∈ zorder (desk w)) &&
          (bool_decide (league_hwnd ∈ zorder (desk w)) &&
           negb (league_hwnd =? hwnd))
       then (Ok tt, with_desk (shown_behind hwnd league_hwnd (desk w)) w)
       else (Raise (Error "SetWindowPos"), w).
Proof.
  unfold show_black_window, Win32.SetWindowPos. fold SHOW_FLAGS. run.
  destruct (raises _ _); [reflexivity|].
  change (has_flag SHOW_FLAGS win32con.SWP_NOZORDER) with false.
  change (has_flag SHOW_FLAGS win32con.SWP_SHOWWINDOW) with true.
  change (has_flag SHOW_FLAGS win32con.SWP_NOACTIVATE) with true.
  cbn [negb orb].
  destruct (_ && _); [|reflexivity].
  unfold shown_behind, with_desk. cbn [desk windows zorder hidden focus classes calls].
  rewrite alter_id; [reflexivity|].
  intros win _. apply place_SHOW_FLAGS.
Qed.

Lemma hide_black_window_run (hwnd : Z) (w : World) :
  hide_black_window hwnd w =
  (Ok tt,
   if raises (os w) (CallShowWindow hwnd win32con.SW_HIDE) then w
   else with_desk (show_window_desk win32con.SW_HIDE (desk w) hwnd) w).
Proof.
  unfold hide_black_window. run. rewrite ShowWindow_run.
  destruct (raises _ _); reflexivity.
Qed.

Lemma destroy_black_window_run (hwnd : Z) (w : World) :
  destroy_black_window hwnd w =
  (Ok tt,
   if raises (os w) (CallDestroyWindow hwnd) then w
   else if bool_decide (is_Some (windows (desk w) !! hwnd))
        then with_desk (destroyed hwnd (desk w)) w else w).
Proof.
  unfold destroy_black_window, Win32.DestroyWindow. run.
  destruct (raises _ _); [reflexivity|].
  destruct (bool_decide _); reflexivity.
Qed.

Lemma register_class_run (w : World) :
  try_except (Win32.RegisterClass OVERLAY_CLASS) (λ _, mret tt) w =
  (Ok tt, with_desk (registered (os w) (desk w)) w).
Proof.
  unfold Win32.RegisterClass, registered. run.
  destruct (raises _ _); cbn [orb]; [by destruct w|].
  destruct (bool_decide _); [by destruct w|]. reflexivity.
Qed.

Lemma CreateWindowEx_run (rect : Rect) (w : World) :
  let '(left_, top, right_, bottom) := rect in
  Win32.CreateWindowEx OVERLAY_EX_STYLE OVERLAY_CLASS "Black Background"
    win32con.WS_POPUP left_ top (right_ - left_) (bottom - top) w =
  if raises (os w) (create_call rect) || (new_window (os w) =? 0)
  then (Raise (Error "CreateWindowEx"), w)
  else (Ok (new_window (os w)),
        with_desk
          (Win32.logged (create_call rect)
             {| windows := <[new_window (os w) := bare_window rect]>
                             (windows (desk w));
                zorder := new_window (os w) :: zorder (desk w);
                hidden := {[new_window (os w)]} ∪ hidden (desk w);
                focus := focus (desk w); classes := classes (desk w);
                calls := calls (desk w) |}) w).
Proof.
  destruct rect as [[[l t] r] b].
  unfold Win32.CreateWindowEx, create_call. run.
  destruct (raises _ _); cbn [orb]; [reflexivity|].
  destruct (new_window (os w) =? 0); reflexivity.
Qed.

Lemma create_black_window_run (rect : Rect) (w : World) :
  create_black_window rect w =
  if raises (os w) (CallGetStockObject win32con.BLACK_BRUSH)
  then (Raise (Error "GetStockObject"), w)
  else if raises (os w) (CallLoadCursor 0 win32con.IDC_ARROW)
  then (Raise (Error "LoadCursor"), w)
  else
    let d := registered (os w) (desk w) in
    if raises (os w) (create_call rect) || (new_window (os w) =? 0)
    then (Raise (Error "CreateWindowEx"), with_desk d w)
    else (Ok (new_window (os w)),
          with_desk (with_overlay rect (new_window (os w)) d) w).
Proof.
  pose proof (CreateWindowEx_run rect) as Hcreate.
  destruct rect as [[[l t] r] b].
  unfold create_black_window, create_window_class, Win32.GetStockObject,
    Win32.LoadCursor.
  fold OVERLAY_CLASS OVERLAY_EX_STYLE.
  rewrite !bind_run.
  unfold Win32.guard at 1.
  destruct (raises (os w) (CallGetStockObject _)); [reflexivity|].
  cbv beta iota delta [gets]. rewrite !bind_run. unfold Win32.guard at 1.
  destruct (raises (os w) (CallLoadCursor _ _)); [reflexivity|].
  cbv beta iota delta [gets]. rewrite !bind_run, register_class_run.
  cbv beta iota delta [mret M_ret].
  rewrite !bind_run, Hcreate. cbn [os with_desk].
  destruct (_ || _); [reflexivity|]. cbv beta iota.
  unfold Win32.SetLayeredWindowAttributes. run.
  cbn [desk with_desk windows Win32.logged].
  rewrite bool_decide_eq_true_2 by (rewrite lookup_insert_eq; eauto).
  cbn [os desk with_desk black_window_hwnd black_bars_active stdout windows
       zorder hidden focus classes calls Win32.logged].
  change (has_flag win32con.LWA_ALPHA win32con.LWA_ALPHA) with true. cbv iota.
  rewrite alter_insert_eq. reflexivity.
Qed.

Lemma insert_behind_split (h after : Z) (l : list Z) :
  after ∈ l →
  ∃ l1 l2, l = l1 ++ after :: l2 ∧
           Win32.insert_behind h after l = l1 ++ after :: h :: l2.
Proof.
  induction l as [|k l IH]; [by intros ?%elem_of_nil|].
  intros Hin. cbn [Win32.insert_behind].
  destruct (Z.eqb_spec k after) as [->|Hne].
  - by exists [], l.
  - apply elem_of_cons in Hin as [->|Hin]; [done|].
    destruct (IH Hin) as (l1 & l2 & -> & ->). by exists (k :: l1), l2.
Qed.

Lemma restack_behind (h after : Z) (l : list Z) :
  after ∈ l → after ≠ h → behind after h (Win32.restack h after l).
Proof.
  intros Hin Hne. unfold Win32.restack, behind.
  destruct (insert_behind_split h after (filter (λ k, k ≠ h) l))
    as (l1 & l2 & _ & ->); [|eauto].
  by apply list_elem_of_filter.
Qed.

Lemma restack_others (h after : Z) (l : list Z) :
  after ∈ l → after ≠ h →
  filter (λ k, k ≠ h) (Win32.restack h after l) = filter (λ k, k ≠ h) l.
Proof.
  intros Hin Hne. unfold Win32.restack.
  destruct (insert_behind_split h after (filter (λ k, k ≠ h) l))
    as (l1 & l2 & Hl & ->); [by apply list_elem_of_filter|].
  rewrite <- (list_filter_filter_l (λ k, k ≠ h) (λ k, k ≠ h) l) by done.
  rewrite Hl, !filter_app, !filter_cons.
  rewrite (decide_False (P := h ≠ h)) by auto. done.
Qed.

(** ** Deactivation and cleanup *)

Lemma hide_overlay_run (w : World) :
  if_truthy (black_window_hwnd w) hide_black_window w = (Ok tt, overlay_hidden w).
Proof.
  unfold if_truthy, overlay_hidden, truthy.
  destruct (black_window_hwnd w) as [h|]; [|reflexivity].
  destruct (h =? 0); cbn [negb orb]; [reflexivity|].
  rewrite hide_black_window_run. by destruct (raises _ _).
Qed.

Lemma destroy_overlay_run (w : World) :
  if_truthy (black_window_hwnd w)
    (λ h, destroy_black_window h;; modify (with_hwnd None)) w =
  (Ok tt, overlay_destroyed w).
Proof.
  unfold if_truthy, overlay_destroyed, truthy.
  destruct (black_window_hwnd w) as [h|]; [|reflexivity].
  destruct (h =? 0); cbn [negb]; [reflexivity|].
  rewrite bind_run, destroy_black_window_run. reflexivity.
Qed.

Lemma overlay_hidden_os (w : World) : os (overlay_hidden w) = os w.
Proof.
  unfold overlay_hidden. destruct (black_window_hwnd w); [|done].
  by destruct (_ || _).
Qed.

Lemma overlay_hidden_hwnd (w : World) :
  black_window_hwnd (overlay_hidden w) = black_window_hwnd w.
Proof.
  unfold overlay_hidden. destruct (black_window_hwnd w) eqn:E; [|done].
  by destruct (_ || _).
Qed.

Lemma overlay_hidden_windows (w : World) :
  windows (desk (overlay_hidden w)) = windows (desk w).
Proof.
  unfold overlay_hidden. destruct (black_window_hwnd w); [|done].
  by destruct (_ || _).
Qed.

Lemma overlay_hidden_zorder (w : World) :
  zorder (desk (overlay_hidden w)) = zorder (desk w).
Proof.
  unfold overlay_hidden. destruct (black_window_hwnd w); [|done].
  by destruct (_ || _).
Qed.

Lemma overlay_hidden_focus (w : World) :
  focus (desk (overlay_hidden w)) = focus (desk w).
Proof.
  unfold overlay_hidden. destruct (black_window_hwnd w); [|done].
  by destruct (_ || _).
Qed.

Lemma overlay_hidden_hidden (w : World) :
  hidden (desk (overlay_hidden w)) =
  match black_window_hwnd w with
  | Some h =>
      if (h =? 0) || raises (os w) (CallShowWindow h win32con.SW_HIDE)
      then hidden (desk w) else {[h]} ∪ hidden (desk w)
  | None => hidden (desk w)
  end.
Proof.
  unfold overlay_hidden. destruct (black_window_hwnd w); [|done].
  by destruct (_ || _).
Qed.

Lemma overlay_destroyed_os (w : World) : os (overlay_destroyed w) = os w.
Proof.
  unfold overlay_destroyed. destruct (black_window_hwnd w) as [h|]; [|done].
  destruct (h =? 0); [done|].
  destruct (raises _ _); [done|]. by destruct (bool_decide _).
Qed.

Lemma overlay_destroyed_hwnd (w : World) :
  truthy (black_window_hwnd (overlay_destroyed w)) = false.
Proof.
  unfold overlay_destroyed. destruct (black_window_hwnd w) as [h|] eqn:E;
    [|by rewrite E].
  destruct (h =? 0) eqn:Hh; [by rewrite E; cbn; rewrite Hh|]. done.
Qed.


Lemma overlay_destroyed_hidden (w : World) :
  hidden (desk (overlay_destroyed w)) ⊆ hidden (desk w).
Proof.
  unfold overlay_destroyed. destruct (black_window_hwnd w) as [h|]; [|done].
  destruct (h =? 0); [done|].
  destruct (raises _ _); [done|]. destruct (bool_decide _); [|done].
  cbn. set_solver.
Qed.

Lemma deactivate_black_bars_ok (w : World) :
  chrome_ok (os w) win32con.SW_SHOW = true →
  deactivate_black_bars w =
  (Ok tt,
   printed "Black bars deactivated"
     (with_active false
        (toggled win32con.SW_SHOW (chrome (os w)) (overlay_hidden w)))).
Proof.
  intros Hok. unfold deactivate_black_bars.
  rewrite bind_run. cbv beta iota delta [gets].
  rewrite bind_run, hide_overlay_run, bind_run, show_taskbar_toggle.
  assert (Hos : os (overlay_hidden w) = os w).
  { unfold overlay_hidden. destruct (black_window_hwnd w); [|done].
    by destruct (_ || _). }
  rewrite toggle_taskbar_ok by (by rewrite Hos).
  rewrite Hos. reflexivity.
Qed.

Lemma deactivate_black_bars_fail (w : World) :
  chrome_ok (os w) win32con.SW_SHOW = false →
  ∃ seen what,
    seen `prefix_of` chrome (os w) ∧
    deactivate_black_bars w =
    (Raise (Error what), toggled win32con.SW_SHOW seen (overlay_hidden w)).
Proof.
  intros Hko. unfold deactivate_black_bars.
  rewrite bind_run. cbv beta iota delta [gets].
  rewrite bind_run, hide_overlay_run, bind_run, show_taskbar_toggle.
  assert (Hos : os (overlay_hidden w) = os w).
  { unfold overlay_hidden. destruct (black_window_hwnd w); [|done].
    by destruct (_ || _). }
  destruct (toggle_taskbar_fail win32con.SW_SHOW (overlay_hidden w))
    as (seen & what & Hpre & Hrun); [by rewrite Hos|].
  rewrite Hrun. rewrite Hos in Hpre. eauto.
Qed.

Lemma deactivate_black_bars_inv (w w' : World) :
  deactivate_black_bars w = (Ok tt, w') →
  chrome_ok (os w) win32con.SW_SHOW = true ∧
  w' = printed "Black bars deactivated"
         (with_active false
            (toggled win32con.SW_SHOW (chrome (os w)) (overlay_hidden w))).
Proof.
  destruct (chrome_ok (os w) win32con.SW_SHOW) eqn:Hok.
  - rewrite deactivate_black_bars_ok by done. by intros [= <-].
  - destruct (deactivate_black_bars_fail w Hok) as (seen & what & _ & ->).
    done.
Qed.

Lemma cleanup_ok (w : World) :
  chrome_ok (os w) win32con.SW_SHOW = true →
  cleanup w =
  (Ok tt,
   printed "Cleanup complete"
     (overlay_destroyed
        (toggled win32con.SW_SHOW (chrome (os w)) (printed CLEANING_UP w)))).
Proof.
  intros Hok. unfold cleanup.
  rewrite bind_run. cbv beta iota delta [print modify].
  rewrite bind_run, show_taskbar_toggle, toggle_taskbar_ok by done.
  cbn [os printed with_stdout].
  rewrite bind_run. cbv beta iota delta [gets].
  rewrite bind_run, destroy_overlay_run. reflexivity.
Qed.

Lemma cleanup_fail (w : World) :
  chrome_ok (os w) win32con.SW_SHOW = false →
  ∃ seen what,
    seen `prefix_of` chrome (os w) ∧
    cleanup w =
    (Raise (Error what), toggled win32con.SW_SHOW seen (printed CLEANING_UP w)).
Proof.
  intros Hko. unfold cleanup.
  rewrite bind_run. cbv beta iota delta [print modify].
  rewrite bind_run, show_taskbar_toggle.
  destruct (toggle_taskbar_fail win32con.SW_SHOW (printed CLEANING_UP w))
    as (seen & what & Hpre & Hrun); [done|].
  rewrite Hrun. eauto.
Qed.

(** ** Activation *)

Lemma activate_black_bars_no_rect (league_hwnd : Z) (w : World) :
  monitor_rect_of (os w) league_hwnd = None →
  activate_black_bars league_hwnd w =
  (Ok tt, printed WARNING w).
Proof.
  intros Hrect. unfold activate_black_bars.
  rewrite bind_run, get_monitor_rect_run, Hrect. reflexivity.
Qed.

Lemma activate_tail_inv (h league_hwnd : Z) (rect : Rect) (w w' : World) :
  (show_black_window h league_hwnd;;
   hide_taskbar;;
   modify (with_active true);;
   print ("Black bars activated on monitor: " +:+ repr_rect rect)) w =
  (Ok tt, w') →
  h ∈ zorder (desk w) ∧
  league_hwnd ∈ zorder (desk w) ∧
  league_hwnd ≠ h ∧
  chrome_ok (os w) win32con.SW_HIDE = true ∧
  w' = printed (ACTIVATED rect)
         (with_active true
            (toggled win32con.SW_HIDE (chrome (os w))
               (with_desk (shown_behind h league_hwnd (desk w)) w))).
Proof.
  rewrite bind_run, show_black_window_run.
  destruct (raises _ _); [done|].
  destruct (bool_decide (h ∈ _)) eqn:Hh; [|done].
  destruct (bool_decide (league_hwnd ∈ _)) eqn:Hl; [|done].
  destruct (Z.eqb_spec league_hwnd h) as [|Hne]; [done|].
  cbn [andb negb]. apply bool_decide_eq_true in Hh, Hl.
  rewrite bind_run, hide_taskbar_toggle.
  destruct (chrome_ok (os w) win32con.SW_HIDE) eqn:Hok.
  - rewrite toggle_taskbar_ok by done. cbn [os with_desk].
    intros [= <-]. done.
  - destruct (toggle_taskbar_fail win32con.SW_HIDE
                (with_desk (shown_behind h league_hwnd (desk w)) w))
      as (seen & what & _ & ->); done.
Qed.

Lemma activate_black_bars_inv (league_hwnd : Z) (rect : Rect) (w w' : World) :
  monitor_rect_of (os w) league_hwnd = Some rect →
  activate_black_bars league_hwnd w = (Ok tt, w') →
  ∃ h,
    black_window_hwnd (ensured rect w) = Some h ∧
    (black_window_hwnd w = None → h = new_window (os w) ∧ h ≠ 0) ∧
    h ∈ zorder (desk (ensured rect w)) ∧
    league_hwnd ∈ zorder (desk (ensured rect w)) ∧
    league_hwnd ≠ h ∧
    chrome_ok (os w) win32con.SW_HIDE = true ∧
    w' = activated h league_hwnd rect w.
Proof.
  intros Hrect. unfold activate_black_bars, activated, ensured.
  rewrite bind_run, get_monitor_rect_run, Hrect.
  rewrite bind_run. cbv beta iota delta [gets].
  destruct (black_window_hwnd w) as [h|] eqn:Hhw.
  - rewrite bind_run. cbv beta iota delta [mret M_ret].
    intros (? & ? & ? & ? & ->)%activate_tail_inv.
    exists h. by rewrite Hhw.
  - rewrite !bind_run, create_black_window_run.
    destruct (raises _ (CallGetStockObject _)); [done|].
    destruct (raises _ (CallLoadCursor _ _)); [done|].
    cbv zeta.
    destruct (raises _ (create_call _)); [done|]. cbn [orb].
    destruct (Z.eqb_spec (new_window (os w)) 0) as [|Hnew]; [done|].
    rewrite bind_run. cbv beta iota delta [modify mret M_ret].
    intros (? & ? & ? & ? & ->)%activate_tail_inv.
    exists (new_window (os w)). done.
Qed.

Lemma activated_hidden (h league_hwnd : Z) (rect : Rect) (w : World) :
  hidden (desk (activated h league_hwnd rect w)) =
  list_to_set (chrome (os w)) ∪ (hidden (desk (ensured rect w)) ∖ {[h]}).
Proof.
  unfold activated. cbn [printed with_stdout with_active desk].
  by rewrite toggled_hidden_hide.
Qed.

Lemma activated_zorder (h league_hwnd : Z) (rect : Rect) (w : World) :
  zorder (desk (activated h league_hwnd rect w)) =
  Win32.restack h league_hwnd (zorder (desk (ensured rect w))).
Proof.
  unfold activated. cbn [printed with_stdout with_active desk].
  by rewrite toggled_zorder.
Qed.

Lemma activated_windows (h league_hwnd : Z) (rect : Rect) (w : World) :
  windows (desk (activated h league_hwnd rect w)) =
  windows (desk (ensured rect w)).
Proof.
  unfold activated. cbn [printed with_stdout with_active desk].
  by rewrite toggled_windows.
Qed.

Lemma activated_hwnd (h league_hwnd : Z) (rect : Rect) (w : World) :
  black_window_hwnd (activated h league_hwnd rect w) =
  black_window_hwnd (ensured rect w).
Proof. reflexivity. Qed.

Lemma ensured_existing (rect : Rect) (h : Z) (w : World) :
  black_window_hwnd w = Some h → ensured rect w = w.
Proof. unfold ensured. by intros ->. Qed.

(** ** One tick *)

Lemma tick_run (w : World) :
  tick w =
  if raises (os w) CallGetForegroundWindow
  then (Raise (Error "GetForegroundWindow"), w)
  else if wanted (os w)
       then if black_bars_active w then (Ok tt, w)
            else activate_black_bars (foreground (os w)) w
       else if black_bars_active w then deactivate_black_bars w
            else (Ok tt, w).
Proof.
  unfold tick, wanted, is_target, is_minimized.
  rewrite bind_run, get_foreground_window_run.
  destruct (raises _ _); [reflexivity|].
  rewrite bind_run, is_league_game_window_run.
  destruct (String.eqb _ _); rewrite bind_run.
  - rewrite is_window_minimized_run. cbn [andb]. run.
    destruct (minimized_of _ _); destruct (black_bars_active w); reflexivity.
  - run. destruct (black_bars_active w); reflexivity.
Qed.

(** The flag after a tick that returns. *)
Lemma tick_active (w w' : World) :
  tick w = (Ok tt, w') →
  black_bars_active w' =
  wanted (os w) &&
  (black_bars_active w || bool_decide (is_Some (sample_rect (os w)))).
Proof.
  rewrite tick_run. destruct (raises _ _); [done|].
  destruct (wanted (os w)), (black_bars_active w) eqn:Hact; cbn [andb orb].
  - by intros [= <-].
  - unfold sample_rect.
    destruct (monitor_rect_of (os w) (foreground (os w))) as [rect|] eqn:Hrect.
    + intros (h & _ & _ & _ & _ & _ & _ & ->)%(activate_black_bars_inv _ rect);
        done.
    + rewrite activate_black_bars_no_rect by done. by intros [= <-].
  - by intros [_ ->]%deactivate_black_bars_inv.
  - by intros [= <-].
Qed.


(** A tick that returns keeps the desktop in step with the flag. *)
Lemma tick_matches (C : list Z) (w w' : World) :
  steady C (os w) →
  desktop_matches C w →
  tick w = (Ok tt, w') →
  desktop_matches C w'.
Proof.
  intros (HC & Hnew & Hhide) (Hh & Hm). rewrite tick_run.
  destruct (raises _ _); [done|].
  unfold desktop_matches.
  destruct (wanted (os w)), (black_bars_active w) eqn:Hact.
  - intros [= <-]. by rewrite Hact.
  - destruct Hm as [Hov Htb].
    destruct (monitor_rect_of (os w) (foreground (os w))) as [rect|] eqn:Hrect.
    + intros (h & Hhw & Hcreated & _ & _ & _ & _ & ->)
        %(activate_black_bars_inv _ rect); [|done].
      rewrite activated_hwnd, Hhw, activated_hidden, HC.
      assert (Hok : h ≠ 0 ∧ h ∉ C).
      { destruct (black_window_hwnd w) as [h0|] eqn:Hhw0.
        - rewrite (ensured_existing rect h0) in Hhw by done.
          apply Hh. congruence.
        - destruct Hcreated as [-> ?]; done. }
      split; [by intros ? [= <-]|].
      change (black_bars_active (activated h (foreground (os w)) rect w))
        with true. cbv iota.
      destruct Hok as [_ HhC].
      split; [exists h; split; [done|]|]; set_solver.
    + rewrite activate_black_bars_no_rect by done. intros [= <-].
      cbn [printed with_stdout black_window_hwnd black_bars_active desk].
      by rewrite Hact.
  - destruct Hm as [(h & Hhw & Hshown) Htb].
    intros [_ ->]%deactivate_black_bars_inv.
    cbn [printed with_stdout with_active black_window_hwnd black_bars_active
         desk].
    rewrite toggled_hwnd, overlay_hidden_hwnd, toggled_hidden_show,
      overlay_hidden_hidden, Hhw, HC.
    destruct (Hh h Hhw) as [Hh0%Z.eqb_neq HhC].
    rewrite Hh0, Hhide by done. cbn [orb].
    apply Z.eqb_neq in Hh0.
    split; [by intros ? [= <-]|]. split; [intros ? [= <-]|]; set_solver.
  - intros [= <-]. by rewrite Hact.
Qed.

(** The tick that activates puts the overlay right behind the foreground
    window, and the overlay it creates covers the monitor of that window. *)
Lemma tick_places (w w' : World) :
  tick w = (Ok tt, w') →
  black_bars_active w = false →
  black_bars_active w' = true →
  ∃ h rect,
    sample_rect (os w) = Some rect ∧
    black_window_hwnd w' = Some h ∧
    behind (foreground (os w)) h (zorder (desk w')) ∧
    (black_window_hwnd w = None →
     windows (desk w') !! h = Some (overlay_window rect)).
Proof.
  rewrite tick_run. destruct (raises _ _); [done|]. intros Htick Hact.
  rewrite Hact in Htick. unfold sample_rect.
  destruct (wanted (os w)); [|by injection Htick as <-; rewrite Hact].
  destruct (monitor_rect_of (os w) (foreground (os w))) as [rect|] eqn:Hrect.
  - destruct (activate_black_bars_inv _ rect _ _ Hrect Htick)
      as (h & Hhw & _ & _ & Hl & Hne & _ & ->).
    intros _. exists h, rect.
    rewrite activated_hwnd, activated_zorder, activated_windows.
    repeat split; [done| by apply restack_behind |].
    intros Hnone. unfold ensured in Hhw |- *. rewrite Hnone in Hhw |- *.
    injection Hhw as <-. destruct rect as [[[? ?] ?] ?].
    apply lookup_insert_eq.
  - rewrite activate_black_bars_no_rect in Htick by done.
    injection Htick as <-. cbn. by rewrite Hact.
Qed.

(** Once created, the overlay is never moved or resized by a tick. *)
Lemma tick_keeps_windows (w w' : World) (h : Z) :
  tick w = (Ok tt, w') →
  black_window_hwnd w = Some h →
  windows (desk w') = windows (desk w).
Proof.
  rewrite tick_run. destruct (raises _ _); [done|]. intros Htick Hhw.
  destruct (wanted (os w)), (black_bars_active w).
  - by injection Htick as <-.
  - destruct (monitor_rect_of (os w) (foreground (os w))) as [rect|] eqn:Hrect.
    + destruct (activate_black_bars_inv _ rect _ _ Hrect Htick)
        as (h' & _ & _ & _ & _ & _ & _ & ->).
      by rewrite activated_windows, (ensured_existing rect h w Hhw).
    + rewrite activate_black_bars_no_rect in Htick by done.
      by injection Htick as <-.
  - apply deactivate_black_bars_inv in Htick as [_ ->].
    cbn [printed with_stdout with_active desk].
    by rewrite toggled_windows, overlay_hidden_windows.
  - by injection Htick as <-.
Qed.

(** A tick that leaves the flag as it was leaves the desktop as it was. *)
Lemma tick_idle (w w' : World) :
  tick w = (Ok tt, w') →
  black_bars_active w' = black_bars_active w →
  desk w' = desk w.
Proof.
  rewrite tick_run. destruct (raises _ _); [done|]. intros Htick.
  destruct (wanted (os w)), (black_bars_active w) eqn:Hact.
  - by injection Htick as <-.
  - destruct (monitor_rect_of (os w) (foreground (os w))) as [rect|] eqn:Hrect.
    + destruct (activate_black_bars_inv _ rect _ _ Hrect Htick)
        as (h' & _ & _ & _ & _ & _ & _ & ->). done.
    + rewrite activate_black_bars_no_rect in Htick by done.
      by injection Htick as <-.
  - by apply deactivate_black_bars_inv in Htick as [_ ->].
  - by injection Htick as <-.
Qed.

(** ** What every outcome preserves *)

Lemma creations_toggled (cmd : Z) (seen : list Z) (w : World) :
  creations (desk (toggled cmd seen w)) = creations (desk w).
Proof.
  unfold creations. rewrite toggled_calls, filter_app, length_app.
  rewrite filter_reverse, length_reverse.
  induction seen as [|h seen IH]; [done|].
  rewrite fmap_cons, filter_cons_False by done. apply IH.
Qed.

Lemma creations_registered (o : OS) (d : Desktop) :
  creations (registered o d) = creations d.
Proof. unfold registered. by destruct (_ || _). Qed.

Lemma creations_with_overlay (rect : Rect) (h : Z) (d : Desktop) :
  creations (with_overlay rect h d) = S (creations d).
Proof. by destruct rect as [[[l t] r] b]. Qed.

Lemma creations_overlay_hidden (w : World) :
  creations (desk (overlay_hidden w)) = creations (desk w).
Proof.
  unfold overlay_hidden. destruct (black_window_hwnd w); [|done].
  by destruct (_ || _).
Qed.

Lemma creations_overlay_destroyed (w : World) :
  creations (desk (overlay_destroyed w)) = creations (desk w).
Proof.
  unfold overlay_destroyed. destruct (black_window_hwnd w); [|done].
  destruct (_ =? _); [done|]. destruct (raises _ _); [done|].
  by destruct (bool_decide _).
Qed.

Lemma activate_tail_any (h league_hwnd : Z) (rect : Rect) (w w' : World)
    (r : Res unit) :
  (show_black_window h league_hwnd;;
   hide_taskbar;;
   modify (with_active true);;
   print ("Black bars activated on monitor: " +:+ repr_rect rect)) w =
  (r, w') →
  tame r ∧ os w' = os w ∧
  black_window_hwnd w' = black_window_hwnd w ∧
  creations (desk w') = creations (desk w) ∧
  windows (desk w') = windows (desk w).
Proof.
  rewrite bind_run, show_black_window_run.
  destruct (raises _ _); [by intros [= <- <-]|].
  destruct (_ && _); [|by intros [= <- <-]].
  rewrite bind_run, hide_taskbar_toggle.
  destruct (toggle_taskbar _ _) as [r1 w1] eqn:Htoggle.
  apply toggle_taskbar_any in Htoggle as (Htame & seen & _ & ->).
  assert (Hc : creations (desk (toggled win32con.SW_HIDE seen
                  (with_desk (shown_behind h league_hwnd (desk w)) w))) =
               creations (desk w)).
  { rewrite creations_toggled. reflexivity. }
  assert (Hw : windows (desk (toggled win32con.SW_HIDE seen
                  (with_desk (shown_behind h league_hwnd (desk w)) w))) =
               windows (desk w)).
  { rewrite toggled_windows. reflexivity. }
  destruct r1 as [[]|e|]; intros [= <- <-]; done.
Qed.

Lemma activate_black_bars_any (league_hwnd : Z) (w w' : World)
    (r : Res unit) :
  activate_black_bars league_hwnd w = (r, w') →
  tame r ∧ os w' = os w ∧
  (∀ h, black_window_hwnd w = Some h → black_window_hwnd w' = Some h) ∧
  ∀ n, created_once n w → created_once n w'.
Proof.
  unfold activate_black_bars.
  rewrite bind_run, get_monitor_rect_run.
  destruct (monitor_rect_of _ _) as [rect|]; [|by intros [= <- <-]].
  rewrite bind_run. cbv beta iota delta [gets].
  unfold created_once in *.
  destruct (black_window_hwnd w) as [h|] eqn:Hhw.
  - rewrite bind_run. cbv beta iota delta [mret M_ret].
    intros (? & ? & Hhw' & Hc & Hw)%activate_tail_any.
    by rewrite Hhw', Hhw, Hc, Hw.
  - rewrite !bind_run, create_black_window_run.
    destruct (raises _ (CallGetStockObject _));
      [by intros [= <- <-]; rewrite Hhw|].
    destruct (raises _ (CallLoadCursor _ _));
      [by intros [= <- <-]; rewrite Hhw|].
    cbv zeta.
    destruct (raises _ (create_call _)); cbn [orb].
    { intros [= <- <-]. cbn [desk with_desk black_window_hwnd os].
      by rewrite Hhw, creations_registered. }
    destruct (Z.eqb_spec (new_window (os w)) 0) as [|Hnew].
    { intros [= <- <-]. cbn [desk with_desk black_window_hwnd os].
      by rewrite Hhw, creations_registered. }
    rewrite bind_run. cbv beta iota delta [modify mret M_ret].
    intros (? & ? & Hhw' & Hc & Hw)%activate_tail_any.
    rewrite Hhw', Hc, Hw.
    cbn [desk with_desk with_hwnd black_window_hwnd os].
    split; [done|]. split; [done|]. split; [done|]. intros n Hn.
    rewrite creations_with_overlay, creations_registered, Hn.
    destruct rect as [[[? ?] ?] ?]. cbn [windows with_overlay].
    by rewrite lookup_insert_eq.
Qed.

Lemma deactivate_black_bars_any (w w' : World) (r : Res unit) :
  deactivate_black_bars w = (r, w') →
  tame r ∧ os w' = os w ∧
  black_window_hwnd w' = black_window_hwnd w ∧
  creations (desk w') = creations (desk w) ∧
  windows (desk w') = windows (desk w).
Proof.
  destruct (chrome_ok (os w) win32con.SW_SHOW) eqn:Hok.
  - rewrite deactivate_black_bars_ok by done. intros [= <- <-].
    cbn [desk printed with_stdout with_active os black_window_hwnd].
    by rewrite creations_toggled, toggled_os, toggled_hwnd, toggled_windows,
      overlay_hidden_os, overlay_hidden_hwnd, creations_overlay_hidden,
      overlay_hidden_windows.
  - destruct (deactivate_black_bars_fail w Hok) as (seen & what & _ & ->).
    intros [= <- <-].
    by rewrite creations_toggled, toggled_os, toggled_hwnd, toggled_windows,
      overlay_hidden_os, overlay_hidden_hwnd, creations_overlay_hidden,
      overlay_hidden_windows.
Qed.

Lemma tick_any (w w' : World) (r : Res unit) :
  tick w = (r, w') →
  tame r ∧ os w' = os w ∧
  (∀ h, black_window_hwnd w = Some h → black_window_hwnd w' = Some h) ∧
  ∀ n, created_once n w → created_once n w'.
Proof.
  rewrite tick_run. destruct (raises _ _); [by intros [= <- <-]|].
  destruct (wanted (os w)), (black_bars_active w).
  - by intros [= <- <-].
  - by apply activate_black_bars_any.
  - intros (? & ? & Hhw & Hc & Hw)%deactivate_black_bars_any.
    unfold created_once in *. by rewrite Hhw, Hc, Hw.
  - by intros [= <- <-].
Qed.

Lemma cleanup_any (w w' : World) (r : Res unit) :
  cleanup w = (r, w') →
  tame r ∧ os w' = os w ∧
  creations (desk w') = creations (desk w) ∧
  (r = Ok tt → truthy (black_window_hwnd w') = false).
Proof.
  destruct (chrome_ok (os w) win32con.SW_SHOW) eqn:Hok.
  - rewrite cleanup_ok by done. intros [= <- <-].
    cbn [desk printed with_stdout os black_window_hwnd].
    rewrite overlay_destroyed_os, creations_overlay_destroyed,
      creations_toggled, overlay_destroyed_hwnd. done.
  - destruct (cleanup_fail w Hok) as (seen & what & _ & ->).
    intros [= <- <-]. by rewrite creations_toggled.
Qed.

Lemma cleanup_nonnull (w w' : World) (r : Res unit) :
  black_window_hwnd w ≠ Some 0 →
  cleanup w = (r, w') →
  black_window_hwnd w' ≠ Some 0.
Proof.
  intros Hnn.
  destruct (chrome_ok (os w) win32con.SW_SHOW) eqn:Hok.
  - rewrite cleanup_ok by done. intros [= <- <-].
    cbn [printed with_stdout black_window_hwnd]. unfold overlay_destroyed.
    set (w0 := toggled _ _ _).
    assert (Hhw0 : black_window_hwnd w0 = black_window_hwnd w) by done.
    rewrite Hhw0.
    destruct (black_window_hwnd w) as [h|] eqn:Hhw; [|by rewrite Hhw0].
    destruct (Z.eqb_spec h 0) as [->|]; done.
  - destruct (cleanup_fail w Hok) as (seen & what & _ & ->).
    by intros [= <- <-].
Qed.


Lemma created_once_nonnull (n : nat) (w : World) :
  created_once n w → black_window_hwnd w ≠ Some 0.
Proof.
  unfold created_once. destruct (black_window_hwnd w); [|done].
  intros [? _] [= ->]. done.
Qed.



Lemma cleanup_shows (w w' : World) :
  black_window_hwnd w ≠ Some 0 →
  cleanup w = (Ok tt, w') →
  (∀ t, t ∈ chrome (os w') → t ∉ hidden (desk w')) ∧
  black_window_hwnd w' = None.
Proof.
  intros Hnn Hcleanup.
  pose proof (cleanup_nonnull _ _ _ Hnn Hcleanup) as Hnn'.
  apply cleanup_any in Hcleanup as Hany.
  destruct Hany as (_ & Hos & _ & Htruthy). specialize (Htruthy eq_refl).
  split.
  - rewrite Hos.
    destruct (chrome_ok (os w) win32con.SW_SHOW) eqn:Hok;
      [|by destruct (cleanup_fail w Hok) as (seen & what & _ & Hc);
           rewrite Hc in Hcleanup].
    rewrite cleanup_ok in Hcleanup by done. injection Hcleanup as <-.
    cbn [printed with_stdout desk].
    pose proof (overlay_destroyed_hidden
      (toggled win32con.SW_SHOW (chrome (os w)) (printed CLEANING_UP w))) as Hsub.
    rewrite toggled_hidden_show in Hsub. intros t Ht. set_solver.
  - unfold truthy in Htruthy. destruct (black_window_hwnd w') as [h|]; [|done].
    apply negb_false_iff, Z.eqb_eq in Htruthy as ->. done.
Qed.

(** ** Runs of the polling loop *)

Lemma signal_handler_run (signum : Signum) (w : World) :
  signal_handler signum w =
  match cleanup w with
  | (Ok _, w') => (Raise (SystemExit 0), w')
  | r => r
  end.
Proof.
  unfold signal_handler. rewrite bind_run.
  destruct (cleanup w) as [[[]|e|] w1]; reflexivity.
Qed.

Lemma poll_cons_tick (o : OS) (rest : list Event) (w : World) :
  poll (Tick o :: rest) w =
  match tick (with_os o w) with
  | (Ok _, w1) => poll rest w1
  | r => r
  end.
Proof.
  cbn [poll]. rewrite (bind_run (modify _)). cbv beta iota delta [modify].
  rewrite (bind_run tick).
  destruct (tick _) as [[[]|e|] w1]; reflexivity.
Qed.

Lemma poll_cons_signal (signum : Signum) (o : OS) (rest : list Event)
    (w : World) :
  poll (Signal signum o :: rest) w =
  match cleanup (with_os o w) with
  | (Ok _, w1) => (Raise (SystemExit 0), w1)
  | r => r
  end.
Proof.
  cbn [poll]. rewrite (bind_run (modify _)). cbv beta iota delta [modify].
  rewrite (bind_run (signal_handler _)), signal_handler_run.
  destruct (cleanup _) as [[[]|e|] w1] eqn:Hcleanup; try reflexivity.
Qed.

Lemma poll_tick (o : OS) (w : World) :
  poll [Tick o] w =
  match tick (with_os o w) with
  | (Ok _, w') => (Running, w')
  | r => r
  end.
Proof.
  cbn [poll]. rewrite (bind_run (modify _)). cbv beta iota delta [modify].
  rewrite (bind_run tick).
  destruct (tick _) as [[[]|e|] w1]; reflexivity.
Qed.

Lemma poll_app (l1 l2 : list Event) (w : World) :
  poll (l1 ++ l2) w =
  match poll l1 w with
  | (Running, w1) => poll l2 w1
  | r => r
  end.
Proof.
  revert w.
  induction l1 as [|[o|signum o] l1 IH]; intros w; [reflexivity| |].
  - cbn [app poll]. rewrite !(bind_run (modify _)).
    cbv beta iota delta [modify]. rewrite !(bind_run tick).
    destruct (tick _) as [[[]|e|] w1] eqn:Htick; [|reflexivity|].
    + rewrite !(bind_run (sleep _)). cbv beta iota delta [sleep mret M_ret].
      apply IH.
    + by apply tick_any in Htick as [? _].
  - cbn [app poll]. rewrite !(bind_run (modify _)).
    cbv beta iota delta [modify]. rewrite !(bind_run (signal_handler _)).
    rewrite signal_handler_run.
    destruct (cleanup _) as [[[]|e|] w1] eqn:Hcleanup; [reflexivity..|].
    by apply cleanup_any in Hcleanup as [? _].
Qed.

(** A run of ticks that leaves the loop going: every tick returned. *)
Lemma poll_ticks_snoc (samples : list OS) (o : OS) (w w' : World) :
  poll (Tick <$> (samples ++ [o])) w = (Running, w') →
  ∃ w1, poll (Tick <$> samples) w = (Running, w1) ∧
        tick (with_os o w1) = (Ok tt, w').
Proof.
  rewrite fmap_app, poll_app.
  destruct (poll (Tick <$> samples) w) as [[[]|e|] w1]; [done..|].
  cbn [fmap list_fmap]. rewrite poll_tick.
  destruct (tick _) as [[[]|e|] w2] eqn:Htick;
    [|done|by apply tick_any in Htick as [? _]].
  intros [= <-]. eauto.
Qed.


Lemma poll_nonnull (n : nat) (events : list Event) (w w' : World)
    (r : Res unit) :
  created_once n w →
  poll events w = (r, w') →
  black_window_hwnd w' ≠ Some 0.
Proof.
  revert w. induction events as [|[o|signum o] rest IH]; intros w Hn.
  - intros [= <- <-]. by eapply created_once_nonnull.
  - rewrite poll_cons_tick.
    destruct (tick _) as [r1 w1] eqn:Htick.
    apply tick_any in Htick as (_ & _ & _ & Hn1).
    specialize (Hn1 n Hn).
    destruct r1 as [[]|e|]; [by apply IH|intros [= <- <-]..];
      by eapply created_once_nonnull.
  - rewrite poll_cons_signal.
    destruct (cleanup _) as [r1 w1] eqn:Hcleanup.
    apply cleanup_nonnull in Hcleanup; [|by eapply created_once_nonnull].
    destruct r1 as [[]|e|]; by intros [= <- <-].
Qed.


Lemma poll_ticks_matches (C : list Z) (samples : list OS) (w w' : World) :
  Forall (steady C) samples →
  desktop_matches C w →
  poll (Tick <$> samples) w = (Running, w') →
  desktop_matches C w'.
Proof.
  intros Hsteady. revert w.
  induction Hsteady as [|o samples Ho _ IH]; intros w Hm.
  - by intros [= <-].
  - rewrite fmap_cons, poll_cons_tick.
    destruct (tick _) as [[[]|e|] w1] eqn:Htick;
      [|done|by apply tick_any in Htick as [? _]].
    apply IH. by apply (tick_matches C (with_os o w)).
Qed.

Lemma main_run (events : list Event) (o : OS) (d : Desktop) :
  main events (start o d) =
  match poll events (booted o d) with
  | (Ok _, w1) =>
      match cleanup w1 with
      | (Ok _, w2) => (Ok tt, w2)
      | r => r
      end
  | (Raise (Error e), w1) =>
      match cleanup (printed ("Error: " +:+ e) w1) with
      | (Ok _, w2) => (Ok tt, w2)
      | r => r
      end
  | (Raise (SystemExit code), w1) =>
      match cleanup w1 with
      | (Ok _, w2) => (Raise (SystemExit code), w2)
      | r => r
      end
  | (Running, w1) => (Running, w1)
  end.
Proof.
  unfold main. rewrite bind_run.
  change (mapM print banner (start o d))
    with (Ok ((λ _, tt) <$> banner), booted o d).
  cbv beta iota. unfold try_finally, try_except.
  destruct (poll events (booted o d)) as [[[]|[e|code]|] w1]; cbv beta iota.
  - by destruct (cleanup w1) as [[[]|?|] ?].
  - unfold print, modify.
    by destruct (cleanup (printed _ w1)) as [[[]|?|] ?].
  - by destruct (cleanup w1) as [[[]|?|] ?].
  - done.
Qed.

(** A process that ends with status 0 leaves the task bar shown and holds
    no overlay. *)
Lemma main_exit (events : list Event) (o : OS) (d : Desktop) (w : World)
    (r : Res unit) :
  main events (start o d) = (r, w) →
  exit_code r = Some 0 →
  (∀ t, t ∈ chrome (os w) → t ∉ hidden (desk w)) ∧
  black_window_hwnd w = None.
Proof.
  rewrite main_run.
  assert (Hstart : created_once (creations d) (booted o d)) by done.
  destruct (poll events (booted o d)) as [r1 w1] eqn:Hpoll.
  apply (poll_nonnull _ _ _ _ _ Hstart) in Hpoll as Hnn.
  destruct r1 as [[]|[e|code]|].
  - destruct (cleanup w1) as [r2 w2] eqn:Hcleanup.
    apply cleanup_any in Hcleanup as Hany. destruct Hany as (Htame & _).
    destruct r2 as [[]|[?|?]|]; try done; intros [= <- <-]; try done.
    intros _. by apply (cleanup_shows w1).
  - destruct (cleanup _) as [r2 w2] eqn:Hcleanup.
    apply cleanup_any in Hcleanup as Hany. destruct Hany as (Htame & _).
    destruct r2 as [[]|[?|?]|]; try done; intros [= <- <-]; try done.
    intros _. by apply (cleanup_shows (printed ("Error: " +:+ e) w1)).
  - destruct (cleanup w1) as [r2 w2] eqn:Hcleanup.
    apply cleanup_any in Hcleanup as Hany. destruct Hany as (Htame & _).
    destruct r2 as [[]|[?|?]|]; try done; intros [= <- <-]; try done.
    intros _. by apply (cleanup_shows w1).
  - by intros [= <- <-].
Qed.

(** * The claims *)

(** ** C1: the flag and the sample *)

(** C1 fails.  The game window is in front and not minimized, but the
    monitor of the window cannot be determined: the first tick of the
    process returns and the flag is still false. *)
Lemma flag_follows_sample_fails :
  let o := Scenario.game_unplaced in
  let w' := printed WARNING (with_os o Scenario.boot) in
  poll [Tick o] Scenario.boot = (Running, w') ∧
  is_target o = true ∧
  is_minimized o = false ∧
  black_bars_active w' = false ∧
  ¬ flag_follows_sample.
Proof.
  repeat split; try reflexivity.
  intros H.
  specialize (H [] Scenario.game_unplaced Scenario.editor Scenario.desktop
                (printed WARNING (with_os Scenario.game_unplaced Scenario.boot))
                eq_refl).
  discriminate H.
Qed.

(** C1, amended.  After each tick of a run that returns: a flag that is
    true comes with a sample that has [is_target ∧ ¬is_minimized]; and the
    flag equals [is_target ∧ ¬is_minimized] of that tick's sample whenever
    the monitor rectangle of the foreground window could be determined on
    that tick. *)
Theorem flag_follows_placed_sample
    (samples : list OS) (o : OS) (w w' : World) :
  poll (Tick <$> (samples ++ [o])) w = (Running, w') →
  (black_bars_active w' = true →
   is_target o && negb (is_minimized o) = true) ∧
  (is_Some (sample_rect o) →
   black_bars_active w' = is_target o && negb (is_minimized o)).
Proof.
  intros (w1 & _ & Htick)%poll_ticks_snoc.
  apply tick_active in Htick. rewrite Htick. cbn [os with_os].
  fold (wanted o). split.
  - by intros [? _]%andb_true_iff.
  - intros Hrect. rewrite bool_decide_eq_true_2 by done.
    by rewrite orb_true_r, andb_true_r.
Qed.

(** The editor is in front, then the game on a monitor that is found: the
    program is active. *)
Lemma flag_follows_placed_sample_witness :
  black_bars_active
    (poll (Tick <$> [Scenario.editor; Scenario.game]) Scenario.boot).2 =
  is_target Scenario.game && negb (is_minimized Scenario.game).
Proof.
  refine (proj2 (flag_follows_placed_sample [Scenario.editor] Scenario.game
                   Scenario.boot _ _) _).
  - vm_compute. reflexivity.
  - vm_compute. eexists. reflexivity.
Defined.

(** ** C2: the desktop and the flag *)

(** C2 fails.  The game is activated on the first monitor, loses the focus
    to the editor, and is activated again after it moved to the second
    monitor: the program is active and the overlay still covers the first
    monitor, not the monitor of the game window. *)
Lemma spec_invariant_fails :
  let o := Scenario.game_moved in
  let run :=
    poll (Tick <$> [Scenario.game; Scenario.editor; o]) Scenario.boot in
  run.1 = Running ∧
  black_bars_active run.2 = true ∧
  black_window_hwnd run.2 = Some Scenario.OVERLAY ∧
  windows (desk run.2) !! Scenario.OVERLAY =
    Some (overlay_window (0, 0, 1920, 1080)) ∧
  sample_rect o = Some (1920, 0, 4480, 1440) ∧
  ¬ spec_invariant o run.2.
Proof.
  cbv zeta.
  set (run := poll _ _).
  assert (H1 : run.1 = Running) by (vm_compute; reflexivity).
  assert (H2 : black_bars_active run.2 = true) by (vm_compute; reflexivity).
  assert (H3 : black_window_hwnd run.2 = Some Scenario.OVERLAY)
    by (vm_compute; reflexivity).
  assert (H4 : windows (desk run.2) !! Scenario.OVERLAY =
               Some (overlay_window (0, 0, 1920, 1080)))
    by (vm_compute; reflexivity).
  assert (H5 : sample_rect Scenario.game_moved = Some (1920, 0, 4480, 1440))
    by (vm_compute; reflexivity).
  repeat (split; [assumption|]).
  unfold spec_invariant. rewrite H2.
  intros (h & win & rect & Hh & _ & _ & Hwin & Hrect & Hsized & _).
  rewrite H3 in Hh. injection Hh as <-.
  rewrite H4 in Hwin. injection Hwin as <-.
  rewrite H5 in Hrect. injection Hrect as <-.
  by destruct Hsized as [? _].
Qed.

(** C2, amended.  Let the task bar and the Start button be the same
    windows [C] at every tick, shown when the process starts, never handed
    out as the new window, and let hiding a window other than these not
    fail.  Then after every tick of a run that leaves the loop going: an
    inactive program has its overlay, if any, hidden and [C] shown; an
    active one has its overlay shown and [C] hidden.  The tick that
    activates puts the overlay right behind the foreground window, and when
    it creates the overlay, the overlay covers the monitor of that window; a
    tick never moves or resizes an existing overlay, and a tick that leaves
    the flag as it was leaves the desktop as it was.  And whenever the
    process ends with status 0, after whatever events, the task bar and the
    Start button found last are shown and the program holds no overlay. *)
Theorem desktop_follows_flag (C : list Z) (o0 : OS) (d : Desktop) :
  (∀ t, t ∈ C → t ∉ hidden d) →
  (∀ samples w,
     Forall (steady C) samples →
     poll (Tick <$> samples) (booted o0 d) = (Running, w) →
     desktop_matches C w ∧
     ∀ o w',
       tick (with_os o w) = (Ok tt, w') →
       (steady C o → desktop_matches C w') ∧
       (black_bars_active w = false → black_bars_active w' = true →
        ∃ h rect,
          sample_rect o = Some rect ∧
          black_window_hwnd w' = Some h ∧
          behind (foreground o) h (zorder (desk w')) ∧
          (black_window_hwnd w = None →
           windows (desk w') !! h = Some (overlay_window rect))) ∧
       (∀ h, black_window_hwnd w = Some h →
             windows (desk w') = windows (desk w)) ∧
       (black_bars_active w' = black_bars_active w → desk w' = desk w)) ∧
  (∀ events r w,
     main events (start o0 d) = (r, w) →
     exit_code r = Some 0 →
     (∀ t, t ∈ chrome (os w) → t ∉ hidden (desk w)) ∧
     black_window_hwnd w = None).
Proof.
  intros Hshown. split.
  - intros samples w Hsteady Hpoll.
    assert (Hm : desktop_matches C w).
    { apply (poll_ticks_matches C samples (booted o0 d)); [done| |done].
      split; [done|]. cbn. split; [done|]. exact Hshown. }
    split; [done|]. intros o w' Htick. split; [|split; [|split]].
    + intros Ho. by apply (tick_matches C (with_os o w)).
    + by apply (tick_places (with_os o w)).
    + intros h Hh. by apply (tick_keeps_windows (with_os o w) w' h).
    + by apply (tick_idle (with_os o w)).
  - intros events r w. apply main_exit.
Qed.

(** After one tick with the game in front, the overlay is shown and the task
    bar and the Start button are hidden. *)
Lemma desktop_follows_flag_witness :
  desktop_matches [Scenario.TASKBAR; Scenario.START]
    (poll (Tick <$> [Scenario.game]) Scenario.boot).2.
Proof.
  assert (Hshown : ∀ t, t ∈ [Scenario.TASKBAR; Scenario.START] →
                        t ∉ hidden Scenario.desktop).
  { intros t _. apply not_elem_of_empty. }
  destruct (desktop_follows_flag [Scenario.TASKBAR; Scenario.START]
              Scenario.editor Scenario.desktop Hshown) as [Hrun _].
  refine (proj1 (Hrun [Scenario.game] _ _ _)).
  - constructor; [|constructor]. split; [reflexivity|]. split.
    + vm_compute. intros H. inversion H as [|? ? ? H']; subst.
      inversion H' as [|? ? ? H'']; subst. inversion H''.
    + intros h _. reflexivity.
  - vm_compute. reflexivity.
Defined.

(** ** C3: one overlay *)



(** ** C4: failed monitor lookup *)

(** C4.  When the foreground window is the target, not minimized, and the
    lookup of its monitor rectangle yields nothing, the tick of an inactive
    program completes and changes nothing but the output, which gets the
    warning: the flag stays false, the desktop is untouched (no window is
    created, the task bar is not hidden).  The next tick that finds the
    target in front calls [activate_black_bars] again. *)
Theorem tick_without_monitor (w : World) :
  raises (os w) CallGetForegroundWindow = false →
  wanted (os w) = true →
  sample_rect (os w) = None →
  black_bars_active w = false →
  let w' := printed WARNING w in
  tick w = (Ok tt, w') ∧
  black_bars_active w' = false ∧
  black_window_hwnd w' = black_window_hwnd w ∧
  desk w' = desk w ∧
  ∀ o : OS,
    raises o CallGetForegroundWindow = false →
    wanted o = true →
    tick (with_os o w') = activate_black_bars (foreground o) (with_os o w').
Proof.
  intros Hfg Hwanted Hrect Hactive w'. repeat split; try done.
  - rewrite tick_run, Hfg, Hwanted, Hactive.
    by apply activate_black_bars_no_rect.
  - intros o Hfg' Hwanted'. rewrite tick_run. cbn [os with_os].
    rewrite Hfg', Hwanted'. cbn. by rewrite Hactive.
Qed.

(** The tick of the process whose game window has no monitor. *)
Lemma tick_without_monitor_witness :
  tick Examples.unplaced = (Ok tt, printed WARNING Examples.unplaced).
Proof.
  refine (proj1 (tick_without_monitor Examples.unplaced _ _ _ _));
    reflexivity.
Defined.

(** ** C5: termination *)




(** ** C6: deactivating twice *)

(** C6.  Deactivating twice in a row ends like deactivating once: the same
    result, and the same windows, stacking order, visibility, focus and
    globals.  When it returns, the flag is false, the task bar and the Start
    button that were found are shown, and the overlay, if there is one, is
    hidden (unless hiding it failed, which is ignored, or its handle is one
    of the task bar's). *)
Theorem deactivate_idempotent (w : World) :
  let once := deactivate_black_bars w in
  let twice := (deactivate_black_bars;; deactivate_black_bars) w in
  twice.1 = once.1 ∧
  observable twice.2 = observable once.2 ∧
  (once.1 = Ok tt →
   black_bars_active once.2 = false ∧
   (∀ t, t ∈ chrome (os w) → t ∉ hidden (desk once.2)) ∧
   (∀ h, black_window_hwnd w = Some h → h ≠ 0 → h ∉ chrome (os w) →
         raises (os w) (CallShowWindow h win32con.SW_HIDE) = false →
         h ∈ hidden (desk once.2))).
Proof.
  cbv zeta. rewrite bind_run.
  destruct (chrome_ok (os w) win32con.SW_SHOW) eqn:Hok.
  - rewrite (deactivate_black_bars_ok w Hok).
    set (w1 := printed _ _).
    assert (Hos : os w1 = os w) by apply overlay_hidden_os.
    rewrite deactivate_black_bars_ok by (by rewrite Hos).
    rewrite Hos. cbn [fst snd]. split; [done|].
    assert (Hhid1 : hidden (desk w1) =
              hidden (desk (overlay_hidden w)) ∖ list_to_set (chrome (os w))).
    { subst w1. cbn [printed with_stdout with_active desk].
      apply toggled_hidden_show. }
    split; [|split; [done|split]].
    + unfold observable. cbn [printed with_stdout with_active desk
        black_window_hwnd black_bars_active].
      rewrite !toggled_windows, !toggled_zorder, !toggled_focus,
        !toggled_hidden_show, !toggled_hwnd.
      rewrite !overlay_hidden_windows, !overlay_hidden_zorder,
        !overlay_hidden_focus, !overlay_hidden_hwnd.
      assert (Hhw : black_window_hwnd w1 = black_window_hwnd w)
        by apply overlay_hidden_hwnd.
      rewrite Hhw.
      assert (Hsame : hidden (desk (overlay_hidden w1))
                        ∖ list_to_set (chrome (os w)) =
                      hidden (desk (overlay_hidden w))
                        ∖ list_to_set (chrome (os w))).
      { rewrite (overlay_hidden_hidden w1), Hhid1, Hos, Hhw.
        rewrite (overlay_hidden_hidden w).
        destruct (black_window_hwnd w) as [h|]; [|set_solver].
        destruct (_ || _); set_solver. }
      rewrite Hsame, <- Hhid1. reflexivity.
    + intros t Ht. rewrite Hhid1. set_solver.
    + intros h Hh Hh0 Hhc Hraise. rewrite Hhid1, overlay_hidden_hidden, Hh.
      rewrite Hraise. apply Z.eqb_neq in Hh0. rewrite Hh0. cbn [orb].
      set_solver.
  - destruct (deactivate_black_bars_fail w Hok) as (seen & what & _ & Hrun).
    rewrite Hrun. cbn [fst snd]. done.
Qed.

(** Deactivating the active program when the editor has come to the
    front. *)
Lemma deactivate_idempotent_witness :
  observable ((deactivate_black_bars;; deactivate_black_bars)
                (with_os Scenario.editor Examples.playing)).2 =
  observable (deactivate_black_bars
                (with_os Scenario.editor Examples.playing)).2 ∧
  black_bars_active
    (deactivate_black_bars (with_os Scenario.editor Examples.playing)).2 =
  false.
Proof.
  destruct (deactivate_idempotent (with_os Scenario.editor Examples.playing))
    as (_ & Hsame & Hreturned).
  split; [exact Hsame|].
  refine (proj1 (Hreturned _)). vm_compute. reflexivity.
Defined.

(** ** C7: cleaning up twice *)



(** ** C8: restacking *)

(** C8.  Given two windows of the desktop, [show_black_window] puts the
    first right behind the second in the stacking order and makes it
    visible; the other windows keep their order, no window changes position
    or size, and the input focus stays where it was. *)
Theorem show_black_window_restacks (hwnd league_hwnd : Z) (w : World) :
  raises (os w) (CallSetWindowPos hwnd league_hwnd 0 0 0 0 SHOW_FLAGS) = false →
  hwnd ∈ zorder (desk w) →
  league_hwnd ∈ zorder (desk w) →
  league_hwnd ≠ hwnd →
  ∃ w',
    show_black_window hwnd league_hwnd w = (Ok tt, w') ∧
    behind league_hwnd hwnd (zorder (desk w')) ∧
    filter (λ k, k ≠ hwnd) (zorder (desk w')) =
      filter (λ k, k ≠ hwnd) (zorder (desk w)) ∧
    (hwnd ∉ hidden (desk w')) ∧
    (∀ k, k ≠ hwnd → (k ∈ hidden (desk w') ↔ k ∈ hidden (desk w))) ∧
    windows (desk w') = windows (desk w) ∧
    focus (desk w') = focus (desk w).
Proof.
  intros Hraise Hh Hl Hne. rewrite show_black_window_run, Hraise.
  rewrite !bool_decide_eq_true_2 by done.
  apply Z.eqb_neq in Hne as Hne'. rewrite Hne'. cbn [andb negb].
  eexists. split; [done|]. cbn [desk with_desk shown_behind zorder hidden
    windows focus].
  repeat split.
  - by apply restack_behind.
  - by apply restack_others.
  - set_solver.
  - set_solver.
  - set_solver.
Qed.

(** The overlay, in front of the editor and the game, goes right behind the
    game. *)
Lemma show_black_window_restacks_witness :
  ∃ w',
    show_black_window Scenario.OVERLAY Scenario.LEAGUE Examples.stacked =
      (Ok tt, w') ∧
    behind Scenario.LEAGUE Scenario.OVERLAY (zorder (desk w')) ∧
    windows (desk w') = windows (desk Examples.stacked) ∧
    focus (desk w') = focus (desk Examples.stacked).
Proof.
  destruct (show_black_window_restacks Scenario.OVERLAY Scenario.LEAGUE
              Examples.stacked)
    as (w' & Hrun & Hbehind & _ & _ & _ & Hwin & Hfocus).
  - reflexivity.
  - apply list_elem_of_here.
  - do 2 apply list_elem_of_further. apply list_elem_of_here.
  - discriminate.
  - exists w'. split; [exact Hrun|]. split; [exact Hbehind|].
    split; [exact Hwin|exact Hfocus].
Defined.

(** ** C9: the task bar that cannot be found *)

(** C9 fails.  The search for the task bar itself fails: the lookup returns
    no handle, [hide_taskbar] and [show_taskbar] raise the error, and the
    pass of the loop that activates is left by it. *)
Lemma taskbar_best_effort_fails :
  let o := Cases.game_lost in
  let w := with_os o Scenario.boot in
  find_taskbar w = (Raise (Error "FindWindow"), w) ∧
  hide_taskbar w = (Raise (Error "FindWindow"), w) ∧
  show_taskbar w = (Raise (Error "FindWindow"), w) ∧
  (poll [Tick o] Scenario.boot).1 = Raise (Error "FindWindow") ∧
  ¬ taskbar_best_effort.
Proof.
  cbv zeta.
  set (w := with_os Cases.game_lost Scenario.boot).
  assert (H1 : find_taskbar w = (Raise (Error "FindWindow"), w))
    by reflexivity.
  assert (H2 : hide_taskbar w = (Raise (Error "FindWindow"), w))
    by reflexivity.
  assert (H3 : show_taskbar w = (Raise (Error "FindWindow"), w))
    by reflexivity.
  assert (H4 : (poll [Tick Cases.game_lost] Scenario.boot).1 =
               Raise (Error "FindWindow")) by (vm_compute; reflexivity).
  repeat (split; [assumption|]).
  intros H. destruct (H w) as [Hhide _].
  - intros h w' Hfind. rewrite H1 in Hfind. discriminate Hfind.
  - rewrite H2 in Hhide. discriminate Hhide.
Qed.

(** C9, amended.  When the search for the task bar raises, [hide_taskbar]
    and [show_taskbar] raise the error and nothing has changed.  When it
    does not raise: if it finds nothing, both return normally and leave the
    world as it is (the Start button is then not even looked for); if the
    task bar is found, the search for the Start button does not raise and
    finds nothing, and the call on the task bar does not raise, they act on
    the task bar alone; and when no native call raises, showing a task bar
    that is already visible returns normally and changes nothing that can be
    seen. *)
Theorem taskbar_absent_is_skipped (w : World) :
  (raises (os w) (CallFindWindow (Some TASKBAR_CLASS) None) = true →
   ∃ what,
     hide_taskbar w = (Raise (Error what), w) ∧
     show_taskbar w = (Raise (Error what), w)) ∧
  (raises (os w) (CallFindWindow (Some TASKBAR_CLASS) None) = false →
   (taskbar_of (os w) = None →
    hide_taskbar w = (Ok tt, w) ∧ show_taskbar w = (Ok tt, w)) ∧
   (∀ t, taskbar_of (os w) = Some t →
         raises (os w) (CallFindWindowEx 0 0 START_BUTTON_CLASS "Start") =
           false →
         find_window_ex (os w) 0 0 START_BUTTON_CLASS "Start" = 0 →
         (raises (os w) (CallShowWindow t win32con.SW_HIDE) = false →
          hide_taskbar w =
          (Ok tt, with_desk (show_window_desk win32con.SW_HIDE (desk w) t) w)) ∧
         (raises (os w) (CallShowWindow t win32con.SW_SHOW) = false →
          show_taskbar w =
          (Ok tt, with_desk (show_window_desk win32con.SW_SHOW (desk w) t) w))) ∧
   (chrome_ok (os w) win32con.SW_SHOW = true →
    (∀ t, t ∈ chrome (os w) → t ∉ hidden (desk w)) →
    ∃ w', show_taskbar w = (Ok tt, w') ∧ observable w' = observable w)).
Proof.
  split.
  { intros Hfind. exists "FindWindow"%string.
    unfold hide_taskbar, show_taskbar, find_taskbar, Win32.FindWindow.
    run. by rewrite Hfind. }
  intros Hfind. split; [|split].
  - intros Hnone.
    assert (Hchrome : chrome (os w) = []).
    { unfold chrome, start_of. by rewrite Hnone. }
    assert (Hok : ∀ cmd, chrome_ok (os w) cmd = true).
    { intros cmd. unfold chrome_ok, lookups_ok.
      by rewrite Hfind, Hnone, Hchrome. }
    rewrite hide_taskbar_toggle, show_taskbar_toggle.
    rewrite !toggle_taskbar_ok, Hchrome, !toggled_nil by done. done.
  - intros t Ht Hex Hstart.
    assert (Hchrome : chrome (os w) = [t]).
    { unfold chrome, start_of. rewrite Ht, Hstart. reflexivity. }
    assert (Hok : ∀ cmd, raises (os w) (CallShowWindow t cmd) = false →
                         chrome_ok (os w) cmd = true).
    { intros cmd Hshow. unfold chrome_ok, lookups_ok.
      rewrite Hfind, Ht, Hex, Hchrome. cbn. by rewrite Hshow. }
    rewrite hide_taskbar_toggle, show_taskbar_toggle.
    split; intros Hshow; rewrite toggle_taskbar_ok, Hchrome by auto; done.
  - intros Hok Hvisible. rewrite show_taskbar_toggle, toggle_taskbar_ok by done.
    eexists. split; [done|]. unfold observable.
    rewrite toggled_windows, toggled_zorder, toggled_focus, toggled_hidden_show.
    cbn [toggled with_desk black_window_hwnd black_bars_active].
    replace (hidden (desk w) ∖ list_to_set (chrome (os w)))
      with (hidden (desk w)); [done|].
    apply set_eq. intros t. rewrite elem_of_difference, elem_of_list_to_set.
    naive_solver.
Qed.

(** The search for the task bar fails: both operations raise.  On a desktop
    without task bar both do nothing.  With a task bar and no Start button,
    hiding hides the task bar alone. *)
Lemma taskbar_absent_is_skipped_witness :
  let lost := with_os Cases.game_lost Scenario.boot in
  let partial := with_os Cases.game_without_start Scenario.boot in
  (∃ what,
     hide_taskbar lost = (Raise (Error what), lost) ∧
     show_taskbar lost = (Raise (Error what), lost)) ∧
  (hide_taskbar Examples.bare = (Ok tt, Examples.bare) ∧
   show_taskbar Examples.bare = (Ok tt, Examples.bare)) ∧
  hide_taskbar partial =
  (Ok tt,
   with_desk (show_window_desk win32con.SW_HIDE (desk partial)
                Scenario.TASKBAR) partial).
Proof.
  cbv zeta. split; [|split].
  - refine (proj1 (taskbar_absent_is_skipped
                     (with_os Cases.game_lost Scenario.boot)) _).
    reflexivity.
  - refine (proj1 (proj2 (taskbar_absent_is_skipped Examples.bare) _) _);
      reflexivity.
  - refine (proj1 (proj1 (proj2 (proj2 (taskbar_absent_is_skipped
              (with_os Cases.game_without_start Scenario.boot)) _))
              Scenario.TASKBAR _ _ _) _); reflexivity.
Defined.

(** ** C10: failed monitor lookup with an overlay *)

(** C10.  With an overlay already created, [activate_black_bars] still
    gives up when the monitor rectangle cannot be found: it returns
    normally, and nothing but the output has changed (the overlay is not
    shown, the task bar is not hidden, the flag is not set).  Yet a
    rectangle that is found is not used on that overlay: no window is moved
    or resized by the activation. *)
Theorem activate_existing_without_monitor (league_hwnd h : Z) (w : World) :
  black_window_hwnd w = Some h →
  (monitor_rect_of (os w) league_hwnd = None →
   let w' := printed WARNING w in
   activate_black_bars league_hwnd w = (Ok tt, w') ∧
   desk w' = desk w ∧
   black_window_hwnd w' = Some h ∧
   black_bars_active w' = black_bars_active w) ∧
  (∀ rect w',
     monitor_rect_of (os w) league_hwnd = Some rect →
     activate_black_bars league_hwnd w = (Ok tt, w') →
     black_window_hwnd w' = Some h ∧
     windows (desk w') = windows (desk w)).
Proof.
  intros Hh. split.
  - intros Hrect w'. split; [by apply activate_black_bars_no_rect|done].
  - intros rect w' Hrect Hrun.
    destruct (activate_black_bars_inv _ rect _ _ Hrect Hrun)
      as (h' & _ & _ & _ & _ & _ & _ & ->).
    by rewrite activated_hwnd, activated_windows, (ensured_existing rect h w Hh).
Qed.

(** The overlay exists and the monitor of the game cannot be determined. *)
Lemma activate_existing_without_monitor_witness :
  activate_black_bars Scenario.LEAGUE Examples.unplaced_again =
  (Ok tt, printed WARNING Examples.unplaced_again).
Proof.
  refine (proj1 (proj1 (activate_existing_without_monitor Scenario.LEAGUE
                          Scenario.OVERLAY Examples.unplaced_again _) _));
    reflexivity.
Defined.

(** * The scenarios of the specification *)

(** A: the game comes to the front. *)
Example scenario_A :
  let run := poll [Tick Scenario.game] Scenario.boot in
  run.1 = Running ∧
  black_bars_active run.2 = true ∧
  black_window_hwnd run.2 = Some Scenario.OVERLAY ∧
  windows (desk run.2) =
    {[Scenario.OVERLAY := overlay_window (0, 0, 1920, 1080)]} ∧
  zorder (desk run.2) =
    [Scenario.LEAGUE; Scenario.OVERLAY; Scenario.NOTEPAD; Scenario.TASKBAR;
     Scenario.START] ∧
  hidden (desk run.2) = {[Scenario.TASKBAR; Scenario.START]} ∧
  focus (desk run.2) = Scenario.LEAGUE ∧
  last (stdout run.2) =
    Some "Black bars activated on monitor: (0, 0, 1920, 1080)"%string.
Proof. vm_compute. repeat split; reflexivity. Qed.

(** B: the game is then minimized; the overlay is hidden, not destroyed. *)
Example scenario_B :
  let run :=
    poll [Tick Scenario.game; Tick Scenario.game_minimized] Scenario.boot in
  run.1 = Running ∧
  black_bars_active run.2 = false ∧
  black_window_hwnd run.2 = Some Scenario.OVERLAY ∧
  windows (desk run.2) =
    {[Scenario.OVERLAY := overlay_window (0, 0, 1920, 1080)]} ∧
  hidden (desk run.2) = {[Scenario.OVERLAY]} ∧
  last (stdout run.2) = Some "Black bars deactivated"%string.
Proof. vm_compute. repeat split; reflexivity. Qed.

(** C: the focus goes to the editor instead; the same transition. *)
Example scenario_C :
  observable (poll [Tick Scenario.game; Tick Scenario.editor] Scenario.boot).2 =
  observable
    (poll [Tick Scenario.game; Tick Scenario.game_minimized] Scenario.boot).2.
Proof. vm_compute. reflexivity. Qed.

(** D: the terminate signal arrives while the program is active. *)
Example scenario_D :
  let run :=
    main [Tick Scenario.game; Signal SIGTERM Scenario.game]
      (start Scenario.editor Scenario.desktop) in
  exit_code run.1 = Some 0 ∧
  black_window_hwnd run.2 = None ∧
  windows (desk run.2) = ∅ ∧
  zorder (desk run.2) =
    [Scenario.LEAGUE; Scenario.NOTEPAD; Scenario.TASKBAR; Scenario.START] ∧
  hidden (desk run.2) = ∅.
Proof. vm_compute. repeat split; reflexivity. Qed.

(** E: the monitor of the game cannot be determined. *)
Example scenario_E :
  let run := poll [Tick Scenario.game_unplaced] Scenario.boot in
  run.1 = Running ∧
  black_bars_active run.2 = false ∧
  black_window_hwnd run.2 = None ∧
  desk run.2 = Scenario.desktop ∧
  last (stdout run.2) = Some WARNING.
Proof. vm_compute. repeat split; reflexivity. Qed.

(** * Further properties of the program *)

(** ** Window and monitor detection *)

(** [is_league_game_window] never raises and changes nothing; it answers
    true exactly when the title of the window can be read and is the title
    of the game, character for character. *)
Theorem is_league_game_window_exact (hwnd : Z) (w : World) :
  ∃ b : bool,
    is_league_game_window hwnd w = (Ok b, w) ∧
    (b = true ↔
     raises (os w) (CallGetWindowText hwnd) = false ∧
     window_text (os w) hwnd = LEAGUE_WINDOW_TITLE).
Proof.
  rewrite is_league_game_window_run. eexists. split; [reflexivity|].
  unfold title_of. destruct (raises _ _).
  - split; [done|]. by intros [? _].
  - rewrite String.eqb_eq. tauto.
Qed.

(** The game window of the scenario is recognised. *)
Lemma is_league_game_window_exact_witness :
  is_league_game_window Scenario.LEAGUE Cases.fresh_start =
  (Ok true, Cases.fresh_start).
Proof.
  destruct (is_league_game_window_exact Scenario.LEAGUE Cases.fresh_start)
    as (b & Hrun & Hb).
  rewrite Hrun. by rewrite (proj2 Hb (conj eq_refl eq_refl)).
Defined.

(** A query that fails is answered by its default.  When the title of the
    foreground window cannot be read, the tick takes the window for another
    one: an active program deactivates.  When the title is the game's and
    the test for a minimized window fails, the tick takes the window for
    not minimized: an inactive program activates. *)
Theorem tick_query_failures (w : World) :
  raises (os w) CallGetForegroundWindow = false →
  (raises (os w) (CallGetWindowText (foreground (os w))) = true →
   tick w = if black_bars_active w then deactivate_black_bars w
            else (Ok tt, w)) ∧
  (raises (os w) (CallGetWindowText (foreground (os w))) = false →
   window_text (os w) (foreground (os w)) = LEAGUE_WINDOW_TITLE →
   raises (os w) (CallIsIconic (foreground (os w))) = true →
   tick w = if black_bars_active w then (Ok tt, w)
            else activate_black_bars (foreground (os w)) w).
Proof.
  intros Hfg. rewrite tick_run, Hfg.
  unfold wanted, is_target, is_minimized, title_of, minimized_of.
  split.
  - intros ->. reflexivity.
  - intros -> -> ->. reflexivity.
Qed.

(** The program is active and the title of the game window becomes
    unreadable: the tick deactivates. *)
Lemma tick_query_failures_witness :
  tick (with_os Cases.game_unreadable Examples.playing) =
  deactivate_black_bars (with_os Cases.game_unreadable Examples.playing).
Proof.
  refine (eq_trans
    (proj1 (tick_query_failures
              (with_os Cases.game_unreadable Examples.playing) _) _) _);
    reflexivity.
Defined.

(** [get_monitor_rect] never raises and changes nothing.  It returns [None]
    exactly when looking up the monitor or reading its information fails,
    and otherwise the full rectangle of the monitor nearest to the window
    (the entry [Monitor] of the information, not the work area). *)
Theorem get_monitor_rect_total (hwnd : Z) (w : World) :
  let nearest := win32con.MONITOR_DEFAULTTONEAREST in
  let monitor := monitor_from_window (os w) hwnd nearest in
  ∃ r : option Rect,
    get_monitor_rect hwnd w = (Ok r, w) ∧
    (r = None ↔
     raises (os w) (CallMonitorFromWindow hwnd nearest) = true ∨
     raises (os w) (CallGetMonitorInfo monitor) = true) ∧
    (is_Some r → r = Some (mi_Monitor (monitor_info (os w) monitor))).
Proof.
  cbv zeta. rewrite get_monitor_rect_run. eexists. split; [reflexivity|].
  unfold monitor_rect_of.
  destruct (raises _ (CallMonitorFromWindow _ _)).
  { split; [by split; [left|]|]. by intros [? [=]]. }
  destruct (raises _ (CallGetMonitorInfo _)).
  { split; [by split; [right|]|]. by intros [? [=]]. }
  split; [|done]. split; [done|]. by intros [|].
Qed.

(** The rectangle of the game window on the first monitor, and none when
    the information of the monitor cannot be read. *)
Lemma get_monitor_rect_total_witness :
  get_monitor_rect Scenario.LEAGUE Cases.fresh_start =
    (Ok (Some (0, 0, 1920, 1080)), Cases.fresh_start) ∧
  get_monitor_rect Scenario.LEAGUE Examples.unplaced =
    (Ok None, Examples.unplaced).
Proof.
  split.
  - destruct (get_monitor_rect_total Scenario.LEAGUE Cases.fresh_start)
      as (r & Hrun & Hnone & Hsome).
    destruct r as [rect|].
    + rewrite Hrun. by rewrite (Hsome (mk_is_Some _ _ eq_refl)).
    + by destruct (proj1 Hnone eq_refl).
  - destruct (get_monitor_rect_total Scenario.LEAGUE Examples.unplaced)
      as (r & Hrun & Hnone & _).
    rewrite Hrun. by rewrite (proj2 Hnone (or_intror eq_refl)).
Defined.

(** ** The window class *)

Lemma create_window_class_run (w : World) :
  create_window_class w =
  if raises (os w) (CallGetStockObject win32con.BLACK_BRUSH)
  then (Raise (Error "GetStockObject"), w)
  else if raises (os w) (CallLoadCursor 0 win32con.IDC_ARROW)
  then (Raise (Error "LoadCursor"), w)
  else (Ok OVERLAY_CLASS, with_desk (registered (os w) (desk w)) w).
Proof.
  unfold create_window_class, Win32.GetStockObject, Win32.LoadCursor.
  fold OVERLAY_CLASS. rewrite !bind_run. unfold Win32.guard at 1.
  destruct (raises (os w) (CallGetStockObject _)); [reflexivity|].
  cbv beta iota delta [gets]. rewrite !bind_run. unfold Win32.guard at 1.
  destruct (raises (os w) (CallLoadCursor _ _)); [reflexivity|].
  cbv beta iota delta [gets]. rewrite !bind_run, register_class_run.
  reflexivity.
Qed.

Lemma registered_again (o : OS) (d : Desktop) :
  registered o (registered o d) = registered o d.
Proof.
  unfold registered at 2 3.
  destruct (raises o (CallRegisterClass OVERLAY_CLASS)) eqn:Hraise; cbn [orb].
  { unfold registered. by rewrite Hraise. }
  destruct (bool_decide (OVERLAY_CLASS ∈ classes d)) eqn:Hknown.
  { unfold registered. by rewrite Hraise, Hknown. }
  unfold registered. rewrite Hraise. cbn [orb classes].
  rewrite bool_decide_eq_true_2 by set_solver. reflexivity.
Qed.

(** [create_window_class] fails only when the stock brush or the cursor
    cannot be had, and then nothing has changed.  Otherwise it returns the
    name of the class whether or not the registration succeeds: the class
    is registered afterwards unless the registration is refused for a class
    not yet known, no window is touched, and a second call changes nothing
    any more. *)
Theorem create_window_class_once (w : World) :
  let brush := CallGetStockObject win32con.BLACK_BRUSH in
  let arrow := CallLoadCursor 0 win32con.IDC_ARROW in
  (raises (os w) brush || raises (os w) arrow = true →
   ∃ what, create_window_class w = (Raise (Error what), w)) ∧
  (raises (os w) brush || raises (os w) arrow = false →
   ∃ w',
     create_window_class w = (Ok "LeagueBlackBarsWindow"%string, w') ∧
     observable w' = observable w ∧
     stdout w' = stdout w ∧
     classes (desk w') ⊆ {[OVERLAY_CLASS]} ∪ classes (desk w) ∧
     classes (desk w) ⊆ classes (desk w') ∧
     (raises (os w) (CallRegisterClass OVERLAY_CLASS) = false →
      OVERLAY_CLASS ∈ classes (desk w')) ∧
     create_window_class w' = (Ok "LeagueBlackBarsWindow"%string, w')).
Proof.
  cbv zeta. split.
  - rewrite create_window_class_run.
    destruct (raises _ (CallGetStockObject _)); [by eexists|].
    destruct (raises _ (CallLoadCursor _ _)); [by eexists|done].
  - intros [Hb Ha]%orb_false_elim.
    exists (with_desk (registered (os w) (desk w)) w).
    rewrite !create_window_class_run. cbn [os with_desk desk].
    rewrite Hb, Ha, registered_again.
    split; [done|]. split; [|split; [done|]].
    { unfold registered. by destruct (_ || _). }
    split; [|split; [|split; [|done]]]; unfold registered.
    + destruct (_ || _); cbn; set_solver.
    + destruct (_ || _); cbn; set_solver.
    + intros ->. cbn [orb].
      destruct (bool_decide (OVERLAY_CLASS ∈ classes (desk w))) eqn:Hknown.
      * by apply bool_decide_eq_true in Hknown.
      * cbn. set_solver.
Qed.

(** The first call registers the class of the overlay, the second finds it
    registered. *)
Lemma create_window_class_once_witness :
  ∃ w',
    create_window_class Cases.fresh_start =
      (Ok "LeagueBlackBarsWindow"%string, w') ∧
    OVERLAY_CLASS ∈ classes (desk w') ∧
    create_window_class w' = (Ok "LeagueBlackBarsWindow"%string, w').
Proof.
  destruct (proj2 (create_window_class_once Cases.fresh_start) eq_refl)
    as (w' & Hrun & _ & _ & _ & _ & Hreg & Hagain).
  exists w'. split; [exact Hrun|]. split; [exact (Hreg eq_refl)|exact Hagain].
Defined.

(** ** The life of the overlay window *)

(** When the brush, the cursor and the creation do not fail,
    [create_black_window] returns the handle of a new window that covers
    the rectangle exactly (its corner at [left, top], its far corner at
    [right, bottom]), borderless, layered and fully opaque, kept out of the
    task bar, transparent to clicks and never activated.  The window is
    created hidden, in front of the stacking order; the other windows, the
    focus and the globals of the script are left alone. *)
Theorem create_black_window_covers (rect : Rect) (w : World) :
  raises (os w) (CallGetStockObject win32con.BLACK_BRUSH) = false →
  raises (os w) (CallLoadCursor 0 win32con.IDC_ARROW) = false →
  raises (os w) (create_call rect) = false →
  new_window (os w) ≠ 0 →
  let '(left_, top, right_, bottom) := rect in
  let hwnd := new_window (os w) in
  ∃ w' win,
    create_black_window rect w = (Ok hwnd, w') ∧
    windows (desk w') = <[hwnd := win]> (windows (desk w)) ∧
    (w_x win = left_ ∧ w_y win = top ∧
     w_x win + w_cx win = right_ ∧ w_y win + w_cy win = bottom) ∧
    (w_class win = "LeagueBlackBarsWindow"%string ∧
     w_title win = "Black Background"%string ∧
     w_style win = win32con.WS_POPUP ∧ w_alpha win = Some 255 ∧
     has_flag (w_ex_style win) win32con.WS_EX_LAYERED = true ∧
     has_flag (w_ex_style win) win32con.WS_EX_TOOLWINDOW = true ∧
     has_flag (w_ex_style win) win32con.WS_EX_TRANSPARENT = true ∧
     has_flag (w_ex_style win) win32con.WS_EX_NOACTIVATE = true) ∧
    zorder (desk w') = hwnd :: zorder (desk w) ∧
    hidden (desk w') = {[hwnd]} ∪ hidden (desk w) ∧
    focus (desk w') = focus (desk w) ∧
    black_window_hwnd w' = black_window_hwnd w ∧
    black_bars_active w' = black_bars_active w ∧
    stdout w' = stdout w.
Proof.
  intros Hb Ha Hc Hnew. destruct rect as [[[l t] r] b]. cbv zeta.
  eexists _, (overlay_window (l, t, r, b)).
  rewrite create_black_window_run, Hb, Ha, Hc.
  apply Z.eqb_neq in Hnew. rewrite Hnew. cbn [orb]. cbv zeta.
  split; [reflexivity|].
  assert (windows (registered (os w) (desk w)) = windows (desk w) ∧
          zorder (registered (os w) (desk w)) = zorder (desk w) ∧
          hidden (registered (os w) (desk w)) = hidden (desk w) ∧
          focus (registered (os w) (desk w)) = focus (desk w))
    as (Hw & Hz & Hh & Hf).
  { unfold registered. by destruct (_ || _). }
  cbn [desk with_desk with_overlay windows zorder hidden focus
       black_window_hwnd black_bars_active stdout].
  rewrite Hw, Hz, Hh, Hf.
  split; [done|]. split; [cbn; lia|]. done.
Qed.

(** The overlay for the first monitor. *)
Lemma create_black_window_covers_witness :
  ∃ w' win,
    create_black_window (0, 0, 1920, 1080) Cases.fresh_start =
      (Ok Scenario.OVERLAY, w') ∧
    windows (desk w') !! Scenario.OVERLAY = Some win ∧
    w_x win + w_cx win = 1920 ∧ w_y win + w_cy win = 1080.
Proof.
  destruct (create_black_window_covers (0, 0, 1920, 1080) Cases.fresh_start
              eq_refl eq_refl eq_refl)
    as (w' & win & Hrun & Hwin & (_ & _ & Hx & Hy) & _); [done|].
  exists w', win. split; [exact Hrun|]. split; [|by split].
  rewrite Hwin. apply lookup_insert_eq.
Defined.

(** [hide_black_window] never raises.  It puts the window among the hidden
    ones unless the native call fails, in which case nothing changes; in
    both cases no other window changes visibility, and the windows, their
    order, the focus and the globals stay as they are.  Hiding again
    changes nothing that can be seen. *)
Theorem hide_black_window_quiet (hwnd : Z) (w : World) :
  ∃ w',
    hide_black_window hwnd w = (Ok tt, w') ∧
    hidden (desk w') =
      (if raises (os w) (CallShowWindow hwnd win32con.SW_HIDE)
       then hidden (desk w) else {[hwnd]} ∪ hidden (desk w)) ∧
    windows (desk w') = windows (desk w) ∧
    zorder (desk w') = zorder (desk w) ∧
    focus (desk w') = focus (desk w) ∧
    black_window_hwnd w' = black_window_hwnd w ∧
    black_bars_active w' = black_bars_active w ∧
    stdout w' = stdout w ∧
    observable (hide_black_window hwnd w').2 = observable w'.
Proof.
  eexists. rewrite !hide_black_window_run. split; [reflexivity|].
  destruct (raises (os w) _) eqn:Hraise.
  - rewrite Hraise. done.
  - cbn [os with_desk]. rewrite Hraise.
    repeat (split; [reflexivity|]).
    unfold observable. cbn. f_equal. f_equal. f_equal. f_equal. set_solver.
Qed.

(** Hiding the overlay of the active program, twice. *)
Lemma hide_black_window_quiet_witness :
  ∃ w',
    hide_black_window Scenario.OVERLAY Examples.playing = (Ok tt, w') ∧
    Scenario.OVERLAY ∈ hidden (desk w') ∧
    observable (hide_black_window Scenario.OVERLAY w').2 = observable w'.
Proof.
  destruct (hide_black_window_quiet Scenario.OVERLAY Examples.playing)
    as (w' & Hrun & Hhid & _ & _ & _ & _ & _ & _ & Hagain).
  exists w'. split; [exact Hrun|]. split; [|exact Hagain].
  rewrite Hhid. apply elem_of_union_l, elem_of_singleton. reflexivity.
Defined.

(** [destroy_black_window] never raises.  When the native call does not
    fail and the window is one of the process, the window is gone from the
    windows, from the stacking order and from the hidden ones, and nothing
    else has changed; otherwise nothing has changed at all.  The globals
    are not touched (the caller clears the handle), and destroying again
    changes nothing. *)
Theorem destroy_black_window_quiet (hwnd : Z) (w : World) :
  ∃ w',
    destroy_black_window hwnd w = (Ok tt, w') ∧
    (raises (os w) (CallDestroyWindow hwnd) = false →
     windows (desk w') = delete hwnd (windows (desk w)) ∧
     (is_Some (windows (desk w) !! hwnd) →
      zorder (desk w') = filter (λ k, k ≠ hwnd) (zorder (desk w)) ∧
      hidden (desk w') = hidden (desk w) ∖ {[hwnd]})) ∧
    (raises (os w) (CallDestroyWindow hwnd) = true ∨
     windows (desk w) !! hwnd = None → w' = w) ∧
    focus (desk w') = focus (desk w) ∧
    black_window_hwnd w' = black_window_hwnd w ∧
    black_bars_active w' = black_bars_active w ∧
    stdout w' = stdout w ∧
    destroy_black_window hwnd w' = (Ok tt, w').
Proof.
  eexists. rewrite !destroy_black_window_run. split; [reflexivity|].
  destruct (raises (os w) _) eqn:Hraise.
  { rewrite Hraise. repeat split; done. }
  destruct (bool_decide (is_Some (windows (desk w) !! hwnd))) eqn:Hown.
  - apply bool_decide_eq_true in Hown.
    cbn [os with_desk desk destroyed windows]. rewrite Hraise.
    rewrite bool_decide_eq_false_2
      by (rewrite lookup_delete_eq; by intros [? [=]]).
    split; [done|]. split; [|done].
    intros [[=]|Hnone]. rewrite Hnone in Hown. by destruct Hown.
  - apply bool_decide_eq_false in Hown. rewrite Hraise.
    rewrite bool_decide_eq_false_2 by done.
    assert (windows (desk w) !! hwnd = None) as Hnone.
    { destruct (windows (desk w) !! hwnd) eqn:E; [|done].
      destruct Hown. eauto. }
    split; [|done]. intros _. split; [|by intros ?].
    symmetry. by apply delete_id.
Qed.

(** Destroying the overlay of the active program, and a window that is
    not the process's. *)
Lemma destroy_black_window_quiet_witness :
  ∃ w',
    destroy_black_window Scenario.OVERLAY Examples.playing = (Ok tt, w') ∧
    windows (desk w') !! Scenario.OVERLAY = None ∧
    destroy_black_window Scenario.NOTEPAD Examples.playing =
      (Ok tt, Examples.playing).
Proof.
  destruct (destroy_black_window_quiet Scenario.OVERLAY Examples.playing)
    as (w' & Hrun & Hgone & _).
  destruct (destroy_black_window_quiet Scenario.NOTEPAD Examples.playing)
    as (w2 & Hrun2 & _ & Hsame & _).
  exists w'. split; [exact Hrun|]. split.
  - rewrite (proj1 (Hgone eq_refl)). apply lookup_delete_eq.
  - rewrite Hrun2. f_equal. apply Hsame. right. reflexivity.
Defined.

(** ** The task bar *)

Lemma or_None_Some (x h : Z) : or_None x = Some h → x = h ∧ h ≠ 0.
Proof.
  unfold or_None. destruct (Z.eqb_spec x 0); [done|]. by intros [= <-].
Qed.

Lemma toggle_taskbar_both (cmd t s : Z) (w : World) :
  raises (os w) (CallFindWindow (Some TASKBAR_CLASS) None) = false →
  raises (os w) (CallFindWindowEx 0 0 START_BUTTON_CLASS "Start") = false →
  taskbar_of (os w) = Some t →
  start_of (os w) = Some s →
  toggle_taskbar cmd w =
  if raises (os w) (CallShowWindow t cmd)
  then (Raise (Error "ShowWindow"), w)
  else if raises (os w) (CallShowWindow s cmd)
  then (Raise (Error "ShowWindow"),
        with_desk (show_window_desk cmd (desk w) t) w)
  else (Ok tt, toggled cmd [t; s] w).
Proof.
  intros Hfind Hex Ht Hs. unfold start_of in Hs. rewrite Ht in Hs.
  unfold taskbar_of in Ht.
  apply or_None_Some in Ht as [Ht Ht0], Hs as [Hs Hs0].
  apply Z.eqb_neq in Ht0, Hs0.
  unfold toggle_taskbar, find_start_button, find_taskbar, Win32.FindWindow,
    Win32.FindWindowEx, toggled.
  destruct w as [o d hw act out]; cbn [os desk] in *.
  run. cbn [os desk]. rewrite Hfind. cbn. unfold or_None.
  rewrite Ht, Ht0. cbn. rewrite Ht0. cbn. rewrite ShowWindow_run. cbn [os desk].
  destruct (raises o (CallShowWindow t cmd)) eqn:Hshow; cbn; [done|].
  rewrite Hfind. cbn. rewrite Ht, Ht0. cbn. rewrite Ht0. cbn.
  rewrite Hex. cbn. rewrite Hs, Hs0. cbn. rewrite Hs0. cbn.
  rewrite ShowWindow_run. cbn [os desk].
  destruct (raises o (CallShowWindow s cmd)) eqn:Hshow2; cbn;
    rewrite ?Hshow2; cbn; done.
Qed.

(** [hide_taskbar] stops at the first native call that fails.  With the
    task bar and the Start button both found: when hiding the task bar
    fails, the error is raised and nothing has changed, the Start button is
    not reached; when hiding the Start button fails, the error is raised
    and the task bar is hidden already.  [show_taskbar] stops likewise. *)
Theorem taskbar_toggle_stops (t s : Z) (w : World) :
  raises (os w) (CallFindWindow (Some TASKBAR_CLASS) None) = false →
  raises (os w) (CallFindWindowEx 0 0 START_BUTTON_CLASS "Start") = false →
  taskbar_of (os w) = Some t →
  start_of (os w) = Some s →
  (raises (os w) (CallShowWindow t win32con.SW_HIDE) = true →
   ∃ what, hide_taskbar w = (Raise (Error what), w)) ∧
  (raises (os w) (CallShowWindow t win32con.SW_HIDE) = false →
   raises (os w) (CallShowWindow s win32con.SW_HIDE) = true →
   ∃ what w',
     hide_taskbar w = (Raise (Error what), w') ∧
     hidden (desk w') = {[t]} ∪ hidden (desk w)) ∧
  (raises (os w) (CallShowWindow t win32con.SW_SHOW) = true →
   ∃ what, show_taskbar w = (Raise (Error what), w)) ∧
  (raises (os w) (CallShowWindow t win32con.SW_SHOW) = false →
   raises (os w) (CallShowWindow s win32con.SW_SHOW) = true →
   ∃ what w',
     show_taskbar w = (Raise (Error what), w') ∧
     hidden (desk w') = hidden (desk w) ∖ {[t]}).
Proof.
  intros Hfind Hex Ht Hs.
  rewrite hide_taskbar_toggle, show_taskbar_toggle.
  rewrite !(toggle_taskbar_both _ t s) by done.
  split; [|split; [|split]].
  - intros ->. by eexists.
  - intros -> ->. by eexists _, _.
  - intros ->. by eexists.
  - intros -> ->. by eexists _, _.
Qed.

(** The Start button refuses to be hidden: the task bar is hidden, the
    button is not, and the error is raised. *)
Lemma taskbar_toggle_stops_witness :
  ∃ what w',
    hide_taskbar (with_os Cases.game_stubborn Scenario.boot) =
      (Raise (Error what), w') ∧
    hidden (desk w') = {[Scenario.TASKBAR]} ∪ hidden (desk Scenario.boot).
Proof.
  exact (proj1 (proj2 (taskbar_toggle_stops Scenario.TASKBAR Scenario.START
    (with_os Cases.game_stubborn Scenario.boot) eq_refl eq_refl eq_refl
    eq_refl)) eq_refl eq_refl).
Defined.

(** Hiding and then showing the task bar: when no native call fails, the
    task bar and the Start button are hidden in between and shown at the
    end, no other window changes visibility, and if both were shown to
    begin with, everything that can be seen is as before. *)
Theorem taskbar_round_trip (w : World) :
  chrome_ok (os w) win32con.SW_HIDE = true →
  chrome_ok (os w) win32con.SW_SHOW = true →
  ∃ w1 w2,
    hide_taskbar w = (Ok tt, w1) ∧
    show_taskbar w1 = (Ok tt, w2) ∧
    hidden (desk w1) = list_to_set (chrome (os w)) ∪ hidden (desk w) ∧
    hidden (desk w2) = hidden (desk w) ∖ list_to_set (chrome (os w)) ∧
    ((∀ t, t ∈ chrome (os w) → t ∉ hidden (desk w)) →
     observable w2 = observable w).
Proof.
  intros Hhide Hshow.
  rewrite hide_taskbar_toggle, show_taskbar_toggle.
  rewrite toggle_taskbar_ok by done.
  eexists _, _. split; [reflexivity|].
  rewrite toggle_taskbar_ok by (by rewrite toggled_os).
  split; [reflexivity|]. rewrite toggled_os.
  set (w1 := toggled win32con.SW_HIDE (chrome (os w)) w).
  assert (H1 : hidden (desk w1) = list_to_set (chrome (os w)) ∪ hidden (desk w))
    by apply toggled_hidden_hide.
  assert (H2 : hidden (desk (toggled win32con.SW_SHOW (chrome (os w)) w1)) =
               hidden (desk w) ∖ list_to_set (chrome (os w))).
  { rewrite toggled_hidden_show, H1. set_solver. }
  split; [done|]. split; [done|]. intros Hshown.
  unfold observable.
  rewrite H2, !toggled_windows, !toggled_zorder, !toggled_focus, !toggled_hwnd.
  replace (hidden (desk w) ∖ list_to_set (chrome (os w))) with (hidden (desk w))
    by set_solver.
  subst w1. by rewrite !toggled_windows, !toggled_zorder, !toggled_focus.
Qed.

(** The task bar of the scenario, hidden and shown again. *)
Lemma taskbar_round_trip_witness :
  ∃ w1 w2,
    hide_taskbar Cases.fresh_start = (Ok tt, w1) ∧
    show_taskbar w1 = (Ok tt, w2) ∧
    observable w2 = observable Cases.fresh_start.
Proof.
  destruct (taskbar_round_trip Cases.fresh_start eq_refl eq_refl)
    as (w1 & w2 & Hhide & Hshow & _ & _ & Hsame).
  exists w1, w2. split; [exact Hhide|]. split; [exact Hshow|].
  apply Hsame. intros t _. apply not_elem_of_empty.
Defined.

(** ** Activation *)

(** The steps of [activate_black_bars] after the overlay is there. *)
Lemma activate_tail_run (h league_hwnd : Z) (rect : Rect) (w : World) :
  (show_black_window h league_hwnd;;
   hide_taskbar;;
   modify (with_active true);;
   print ("Black bars activated on monitor: " +:+ repr_rect rect)) w =
  if raises (os w) (CallSetWindowPos h league_hwnd 0 0 0 0 SHOW_FLAGS)
  then (Raise (Error "SetWindowPos"), w)
  else if bool_decide (h ∈ zorder (desk w)) &&
          (bool_decide (league_hwnd ∈ zorder (desk w)) &&
           negb (league_hwnd =? h))
  then
    let w1 := with_desk (shown_behind h league_hwnd (desk w)) w in
    match toggle_taskbar win32con.SW_HIDE w1 with
    | (Ok _, w2) => (Ok tt, printed (ACTIVATED rect) (with_active true w2))
    | (Raise e, w2) => (Raise e, w2)
    | (Running, w2) => (Running, w2)
    end
  else (Raise (Error "SetWindowPos"), w).
Proof.
  rewrite bind_run, show_black_window_run.
  destruct (raises _ _); [done|].
  destruct (_ && _); [|done]. cbv zeta.
  rewrite bind_run, hide_taskbar_toggle.
  by destruct (toggle_taskbar _ _) as [[[]|e|] w2].
Qed.

(** Every outcome of these steps: they return with the flag set and the
    message printed, or raise with the flag and the output as they were. *)
Lemma activate_tail_outcome (h league_hwnd : Z) (rect : Rect) (w w' : World)
    (r : Res unit) :
  (show_black_window h league_hwnd;;
   hide_taskbar;;
   modify (with_active true);;
   print ("Black bars activated on monitor: " +:+ repr_rect rect)) w =
  (r, w') →
  (r = Ok tt ∧
   raises (os w) (CallSetWindowPos h league_hwnd 0 0 0 0 SHOW_FLAGS) = false ∧
   w' = printed (ACTIVATED rect)
          (with_active true
             (toggled win32con.SW_HIDE (chrome (os w))
                (with_desk (shown_behind h league_hwnd (desk w)) w)))) ∨
  ((∃ what, r = Raise (Error what)) ∧
   black_bars_active w' = black_bars_active w ∧
   stdout w' = stdout w ∧
   black_window_hwnd w' = black_window_hwnd w ∧
   windows (desk w') = windows (desk w) ∧
   (∀ k, k ∈ zorder (desk w') ↔ k ∈ zorder (desk w))).
Proof.
  rewrite activate_tail_run.
  destruct (raises _ _) eqn:Hraise.
  { intros [= <- <-]. right. split; [by eexists|done]. }
  destruct (bool_decide (h ∈ _)) eqn:Hh; cbn [andb];
    [|intros [= <- <-]; right; split; [by eexists|done]].
  destruct (bool_decide (league_hwnd ∈ _)) eqn:Hl; cbn [andb];
    [|intros [= <- <-]; right; split; [by eexists|done]].
  destruct (Z.eqb_spec league_hwnd h) as [|Hne]; cbn [negb];
    [intros [= <- <-]; right; split; [by eexists|done]|].
  apply bool_decide_eq_true in Hh, Hl. cbv zeta.
  destruct (toggle_taskbar_run win32con.SW_HIDE
              (with_desk (shown_behind h league_hwnd (desk w)) w))
    as (seen & _ & [(_ & -> & ->) | (_ & what & ->)]).
  - intros [= <- <-]. by left.
  - intros [= <- <-]. right. split; [by eexists|].
    rewrite toggled_windows, toggled_zorder.
    cbn [toggled with_desk black_bars_active stdout black_window_hwnd desk
         shown_behind windows zorder].
    repeat (split; [reflexivity|]).
    intros k. unfold Win32.restack.
    destruct (insert_behind_split h league_hwnd
                (filter (λ k, k ≠ h) (zorder (desk w))))
      as (l1 & l2 & Hl12 & ->); [by apply list_elem_of_filter|].
    assert (Hk : k ∈ filter (λ k, k ≠ h) (zorder (desk w)) ↔
                 k ∈ zorder (desk w) ∧ k ≠ h).
    { rewrite list_elem_of_filter. tauto. }
    rewrite Hl12 in Hk. clear Hl12.
    destruct (decide (k = h)) as [->|Hkh]; set_solver.
Qed.

(** [activate_black_bars] sets the flag and prints its message only when
    every step succeeded.  When it returns, either the monitor was not
    found and only the warning was printed, or the flag is set, there is an
    overlay and the message names the monitor.  When it raises, the flag
    and the output are as before; if the handle variable is still [None]
    then no window was created and nothing on the desktop changed place or
    visibility, and a handle that was stored on the way is that of a window
    of the process. *)
Theorem activation_all_or_nothing (league_hwnd : Z) (w w' : World)
    (r : Res unit) :
  activate_black_bars league_hwnd w = (r, w') →
  (r = Ok tt ∧
   match monitor_rect_of (os w) league_hwnd with
   | None => w' = printed WARNING w
   | Some rect =>
       black_bars_active w' = true ∧
       is_Some (black_window_hwnd w') ∧
       stdout w' = stdout w ++ [ACTIVATED rect]
   end) ∨
  ((∃ what, r = Raise (Error what)) ∧
   black_bars_active w' = black_bars_active w ∧
   stdout w' = stdout w ∧
   (black_window_hwnd w' = None →
    black_window_hwnd w = None ∧
    windows (desk w') = windows (desk w) ∧
    zorder (desk w') = zorder (desk w) ∧
    hidden (desk w') = hidden (desk w)) ∧
   (∀ h, black_window_hwnd w' = Some h →
         black_window_hwnd w = Some h ∨
         (black_window_hwnd w = None ∧ h = new_window (os w) ∧
          is_Some (windows (desk w') !! h)))).
Proof.
  unfold activate_black_bars.
  rewrite bind_run, get_monitor_rect_run.
  destruct (monitor_rect_of _ _) as [rect|]; [|intros [= <- <-]; by left].
  rewrite bind_run. cbv beta iota delta [gets].
  destruct (black_window_hwnd w) as [h|] eqn:Hhw.
  - rewrite bind_run. cbv beta iota delta [mret M_ret].
    intros [(-> & _ & ->) | (Hr & Ha & Hs & Hh & _)]%activate_tail_outcome.
    + left. split; [done|]. cbn. rewrite Hhw. eauto.
    + right. split; [done|]. split; [done|]. split; [done|].
      rewrite Hh, Hhw. split; [done|]. intros h' [= <-]. by left.
  - assert (Hreg : windows (registered (os w) (desk w)) = windows (desk w) ∧
                   zorder (registered (os w) (desk w)) = zorder (desk w) ∧
                   hidden (registered (os w) (desk w)) = hidden (desk w)).
    { unfold registered. by destruct (_ || _). }
    rewrite !bind_run, create_black_window_run.
    destruct (raises _ (CallGetStockObject _));
      [intros [= <- <-]; right; split; [by eexists|by rewrite Hhw]|].
    destruct (raises _ (CallLoadCursor _ _));
      [intros [= <- <-]; right; split; [by eexists|by rewrite Hhw]|].
    cbv zeta.
    destruct (_ || _).
    { intros [= <- <-]. right. split; [by eexists|].
      cbn [with_desk desk black_bars_active stdout black_window_hwnd].
      by rewrite Hhw. }
    rewrite bind_run. cbv beta iota delta [modify mret M_ret].
    intros [(-> & _ & ->) | (Hr & Ha & Hs & Hh & Hw & _)]%activate_tail_outcome.
    + left. split; [done|]. cbn. eauto.
    + right. cbn in Ha, Hs, Hh, Hw.
      split; [done|]. split; [done|]. split; [done|].
      split; [by rewrite Hh|].
      intros h'. rewrite Hh. intros [= <-]. right. split; [done|].
      split; [done|]. rewrite Hw.
      destruct rect as [[[? ?] ?] ?]. cbn [windows with_overlay].
      rewrite lookup_insert_eq. eauto.
Qed.

(** No window can be created: activation raises, the flag stays false, the
    handle stays [None] and the desktop has the windows it had. *)
Lemma activation_all_or_nothing_witness :
  let w := with_os Cases.game_uncreated Scenario.boot in
  let run := activate_black_bars Scenario.LEAGUE w in
  (∃ what, run.1 = Raise (Error what)) ∧
  black_bars_active run.2 = false ∧
  black_window_hwnd run.2 = None ∧
  windows (desk run.2) = windows (desk w).
Proof.
  cbv zeta.
  set (w := with_os Cases.game_uncreated Scenario.boot).
  set (run := activate_black_bars Scenario.LEAGUE w).
  assert (Hnone : black_window_hwnd run.2 = None) by (vm_compute; reflexivity).
  destruct (activation_all_or_nothing Scenario.LEAGUE w run.2 run.1
              (surjective_pairing run))
    as [[Hok _] | (Hr & Ha & _ & Hsame & _)].
  - vm_compute in Hok. discriminate Hok.
  - split; [exact Hr|]. split; [exact Ha|]. split; [exact Hnone|].
    exact (proj1 (proj2 (Hsame Hnone))).
Defined.

Lemma restack_again (h after : Z) (l : list Z) :
  after ∈ l → after ≠ h →
  Win32.restack h after (Win32.restack h after l) = Win32.restack h after l.
Proof.
  intros Hin Hne. unfold Win32.restack at 1.
  by rewrite restack_others.
Qed.

Lemma behind_elem_of (front back : Z) (l : list Z) :
  behind front back l → front ∈ l ∧ back ∈ l.
Proof. intros (l1 & l2 & ->). set_solver. Qed.

Lemma activate_tail_again (h league_hwnd : Z) (rect : Rect) (w w1 : World) :
  monitor_rect_of (os w) league_hwnd = Some rect →
  black_window_hwnd w = Some h →
  (show_black_window h league_hwnd;;
   hide_taskbar;;
   modify (with_active true);;
   print ("Black bars activated on monitor: " +:+ repr_rect rect)) w =
  (Ok tt, w1) →
  ∃ w2,
    activate_black_bars league_hwnd w1 = (Ok tt, w2) ∧
    observable w2 = observable w1.
Proof.
  intros Hrect Hhw Htail.
  pose proof Htail as [(_ & Hraise & _) | ([what [=]] & _)]%activate_tail_outcome.
  apply activate_tail_inv in Htail as (Hh & Hl & Hne & Hok & ->).
  set (w1 := printed _ _).
  assert (Hos : os w1 = os w) by done.
  assert (Hz : zorder (desk w1) =
               Win32.restack h league_hwnd (zorder (desk w))).
  { unfold w1. cbn [printed with_stdout with_active desk].
    by rewrite toggled_zorder. }
  assert (Hhid : hidden (desk w1) =
                 list_to_set (chrome (os w)) ∪ (hidden (desk w) ∖ {[h]})).
  { unfold w1. cbn [printed with_stdout with_active desk].
    by rewrite toggled_hidden_hide. }
  assert (Hwin : windows (desk w1) = windows (desk w)).
  { unfold w1. cbn [printed with_stdout with_active desk].
    by rewrite toggled_windows. }
  assert (Hfoc : focus (desk w1) = focus (desk w)).
  { unfold w1. cbn [printed with_stdout with_active desk].
    by rewrite toggled_focus. }
  assert (Hhw1 : black_window_hwnd w1 = Some h) by done.
  assert (Hact1 : black_bars_active w1 = true) by done.
  clearbody w1.
  destruct (behind_elem_of _ _ _ (restack_behind h league_hwnd _ Hl Hne))
    as [Hl1 Hh1].
  unfold activate_black_bars.
  rewrite bind_run, get_monitor_rect_run, Hos, Hrect.
  rewrite bind_run. cbv beta iota delta [gets]. rewrite Hhw1.
  rewrite bind_run. cbv beta iota delta [mret M_ret].
  rewrite activate_tail_run, Hos, Hraise, Hz.
  rewrite !bool_decide_eq_true_2 by done.
  destruct (Z.eqb_spec league_hwnd h) as [|_]; [done|]. cbn [andb negb].
  cbv zeta. rewrite toggle_taskbar_ok by (cbn [os with_desk]; by rewrite Hos).
  eexists. split; [reflexivity|].
  unfold observable.
  cbn [printed with_stdout with_active desk black_window_hwnd
       black_bars_active].
  rewrite toggled_windows, toggled_zorder, toggled_focus, toggled_hidden_hide,
    toggled_hwnd.
  cbn [with_desk desk os shown_behind windows zorder hidden focus
       black_window_hwnd].
  rewrite Hos, Hz, Hhid, Hhw1, Hact1, restack_again by done.
  f_equal. f_equal. f_equal. f_equal. set_solver.
Qed.

(** Activating twice in a row is like activating once: when the first call
    returns, the second returns too, and leaves the windows, their order and
    visibility, the focus and the globals as the first left them. *)
Theorem activate_twice (league_hwnd : Z) (w w1 : World) :
  activate_black_bars league_hwnd w = (Ok tt, w1) →
  ∃ w2,
    activate_black_bars league_hwnd w1 = (Ok tt, w2) ∧
    observable w2 = observable w1.
Proof.
  unfold activate_black_bars at 1.
  rewrite bind_run, get_monitor_rect_run.
  destruct (monitor_rect_of _ _) as [rect|] eqn:Hrect.
  - rewrite bind_run. cbv beta iota delta [gets].
    destruct (black_window_hwnd w) as [h|] eqn:Hhw.
    + rewrite bind_run. cbv beta iota delta [mret M_ret].
      by apply activate_tail_again.
    + rewrite !bind_run, create_black_window_run.
      destruct (raises _ (CallGetStockObject _)); [done|].
      destruct (raises _ (CallLoadCursor _ _)); [done|].
      cbv zeta. destruct (_ || _); [done|].
      rewrite bind_run. cbv beta iota delta [modify mret M_ret].
      by apply activate_tail_again.
  - intros [= <-]. eexists.
    rewrite activate_black_bars_no_rect by done. done.
Qed.

(** The first activation of the scenario, repeated. *)
Lemma activate_twice_witness :
  ∃ w2,
    activate_black_bars Scenario.LEAGUE
      (activate_black_bars Scenario.LEAGUE Cases.fresh_start).2 = (Ok tt, w2) ∧
    observable w2 =
    observable (activate_black_bars Scenario.LEAGUE Cases.fresh_start).2.
Proof.
  refine (activate_twice Scenario.LEAGUE Cases.fresh_start
            (activate_black_bars Scenario.LEAGUE Cases.fresh_start).2 _).
  vm_compute. reflexivity.
Defined.

(** ** The loop *)

(** One tick is enough: when a tick returns, a second tick on the same
    answers of the operating system returns too and changes neither the
    desktop nor the globals.  It prints nothing, except the warning, which
    is repeated as long as the game is in front and its monitor cannot be
    determined. *)
Theorem tick_settles (w w1 : World) :
  tick w = (Ok tt, w1) →
  ∃ w2,
    tick w1 = (Ok tt, w2) ∧
    desk w2 = desk w1 ∧
    black_window_hwnd w2 = black_window_hwnd w1 ∧
    black_bars_active w2 = black_bars_active w1 ∧
    (w2 = w1 ∨
     (wanted (os w) = true ∧ sample_rect (os w) = None ∧
      stdout w2 = stdout w1 ++ [WARNING])).
Proof.
  intros Htick.
  pose proof (tick_any _ _ _ Htick) as (_ & Hos & _).
  pose proof (tick_active _ _ Htick) as Hactive.
  revert Htick. rewrite !tick_run, Hos.
  destruct (raises _ _); [done|].
  destruct (wanted (os w)) eqn:Hwanted, (black_bars_active w) eqn:Hact;
    cbn [andb orb] in Hactive.
  - intros [= <-]. rewrite Hact. eexists. split; [done|]. do 3 (split; [done|]). by left.
  - unfold sample_rect in *.
    destruct (monitor_rect_of (os w) (foreground (os w))) as [rect|] eqn:Hrect.
    + rewrite bool_decide_eq_true_2 in Hactive by done. rewrite Hactive.
      intros _. eexists. split; [done|]. do 3 (split; [done|]). by left.
    + rewrite bool_decide_eq_false_2 in Hactive by (by intros [? [=]]).
      rewrite Hactive. rewrite activate_black_bars_no_rect by done.
      intros [= <-].
      rewrite activate_black_bars_no_rect by done.
      eexists. split; [done|]. do 3 (split; [done|]). by right.
  - rewrite Hactive. intros _. eexists. split; [done|].
    do 3 (split; [done|]). by left.
  - intros [= <-]. rewrite Hact. eexists. split; [done|].
    do 3 (split; [done|]). by left.
Qed.

(** The tick that activates, followed by a tick on the same sample. *)
Lemma tick_settles_witness :
  tick (tick Cases.fresh_start).2 = (Ok tt, (tick Cases.fresh_start).2).
Proof.
  destruct (tick_settles Cases.fresh_start (tick Cases.fresh_start).2)
    as (w2 & Htick & _ & _ & _ & [-> | (_ & Hrect & _)]).
  - vm_compute. reflexivity.
  - exact Htick.
  - vm_compute in Hrect. discriminate Hrect.
Defined.

(** *** What a run prints *)

Lemma overlay_hidden_stdout (w : World) :
  stdout (overlay_hidden w) = stdout w ∧
  black_bars_active (overlay_hidden w) = black_bars_active w.
Proof.
  unfold overlay_hidden. destruct (black_window_hwnd w); [|done].
  by destruct (_ || _).
Qed.

Lemma overlay_destroyed_stdout (w : World) :
  stdout (overlay_destroyed w) = stdout w ∧
  black_bars_active (overlay_destroyed w) = black_bars_active w.
Proof.
  unfold overlay_destroyed. destruct (black_window_hwnd w); [|done].
  destruct (_ =? _); [done|]. destruct (raises _ _); [done|].
  by destruct (bool_decide _).
Qed.

(** What [activate_black_bars] prints, and the flag after it. *)
Lemma activate_black_bars_output (league_hwnd : Z) (w w' : World)
    (r : Res unit) :
  activate_black_bars league_hwnd w = (r, w') →
  (r = Ok tt ∧ stdout w' = stdout w ++ [WARNING] ∧
   black_bars_active w' = black_bars_active w) ∨
  (r = Ok tt ∧ (∃ rect, stdout w' = stdout w ++ [ACTIVATED rect]) ∧
   black_bars_active w' = true) ∨
  (stdout w' = stdout w ∧ black_bars_active w' = black_bars_active w).
Proof.
  unfold activate_black_bars.
  rewrite bind_run, get_monitor_rect_run.
  destruct (monitor_rect_of _ _) as [rect|]; [|intros [= <- <-]; by left].
  rewrite bind_run. cbv beta iota delta [gets].
  destruct (black_window_hwnd w) as [h|].
  - rewrite bind_run. cbv beta iota delta [mret M_ret].
    intros [(-> & _ & ->) | (_ & Ha & Hs & _)]%activate_tail_outcome.
    + right. left. split; [done|]. split; [by exists rect|done].
    + by right; right.
  - rewrite !bind_run, create_black_window_run.
    destruct (raises _ (CallGetStockObject _));
      [intros [= <- <-]; by right; right|].
    destruct (raises _ (CallLoadCursor _ _));
      [intros [= <- <-]; by right; right|].
    cbv zeta. destruct (_ || _); [intros [= <- <-]; by right; right|].
    rewrite bind_run. cbv beta iota delta [modify mret M_ret].
    intros [(-> & _ & ->) | (_ & Ha & Hs & _)]%activate_tail_outcome.
    + right. left. split; [done|]. split; [by exists rect|done].
    + by right; right.
Qed.

(** Every outcome of a tick: it prints at most one line, and the flag
    changes exactly with the two messages that report it. *)
Lemma tick_output (w w' : World) (r : Res unit) :
  tick w = (r, w') →
  (stdout w' = stdout w ∧ black_bars_active w' = black_bars_active w) ∨
  (r = Ok tt ∧ stdout w' = stdout w ++ [WARNING] ∧
   black_bars_active w' = black_bars_active w) ∨
  (r = Ok tt ∧ (∃ rect, stdout w' = stdout w ++ [ACTIVATED rect]) ∧
   black_bars_active w = false ∧ black_bars_active w' = true) ∨
  (r = Ok tt ∧ stdout w' = stdout w ++ ["Black bars deactivated"%string] ∧
   black_bars_active w = true ∧ black_bars_active w' = false).
Proof.
  rewrite tick_run. destruct (raises _ _); [intros [= <- <-]; by left|].
  destruct (wanted (os w)), (black_bars_active w) eqn:Hact.
  - intros [= <- <-]. by left.
  - intros Hrun.
    destruct (activate_black_bars_output _ _ _ _ Hrun)
      as [(-> & Hs & Ha) | [(-> & Hs & Ha) | [Hs Ha]]].
    + right. left. split; [done|]. split; [done|]. congruence.
    + right. right. left. done.
    + left. split; [done|]. congruence.
  - destruct (chrome_ok (os w) win32con.SW_SHOW) eqn:Hok.
    + rewrite deactivate_black_bars_ok by done. intros [= <- <-].
      right. right. right.
      cbn [printed with_stdout with_active stdout black_bars_active].
      change (stdout (toggled win32con.SW_SHOW (chrome (os w))
                        (overlay_hidden w)))
        with (stdout (overlay_hidden w)).
      by rewrite (proj1 (overlay_hidden_stdout w)).
    + destruct (deactivate_black_bars_fail w Hok) as (seen & what & _ & ->).
      intros [= <- <-]. left.
      change (stdout (toggled win32con.SW_SHOW seen (overlay_hidden w)))
        with (stdout (overlay_hidden w)).
      change (black_bars_active
                (toggled win32con.SW_SHOW seen (overlay_hidden w)))
        with (black_bars_active (overlay_hidden w)).
      destruct (overlay_hidden_stdout w) as [-> ->]. done.
  - intros [= <- <-]. by left.
Qed.

Lemma cleanup_output (w w' : World) (r : Res unit) :
  cleanup w = (r, w') →
  (r = Ok tt ∧
   stdout w' = stdout w ++ [CLEANING_UP; "Cleanup complete"%string]) ∨
  ((∃ what, r = Raise (Error what)) ∧
   chrome_ok (os w) win32con.SW_SHOW = false ∧
   stdout w' = stdout w ++ [CLEANING_UP]).
Proof.
  destruct (chrome_ok (os w) win32con.SW_SHOW) eqn:Hok.
  - rewrite cleanup_ok by done. intros [= <- <-]. left. split; [done|].
    cbn [printed with_stdout stdout].
    rewrite (proj1 (overlay_destroyed_stdout _)).
    cbn [toggled with_desk printed with_stdout stdout].
    by rewrite <- app_assoc.
  - destruct (cleanup_fail w Hok) as (seen & what & _ & ->).
    intros [= <- <-]. right. split; [by eexists|done].
Qed.

Lemma tick_stdout (w w' : World) (r : Res unit) :
  tick w = (r, w') → stdout w `prefix_of` stdout w'.
Proof.
  intros [[-> _] | [(_ & -> & _) | [(_ & [rect ->] & _) | (_ & -> & _)]]]
    %tick_output; [done|by apply prefix_app_r..].
Qed.

Lemma cleanup_stdout (w w' : World) (r : Res unit) :
  cleanup w = (r, w') → stdout w `prefix_of` stdout w'.
Proof.
  intros [[_ ->] | (_ & _ & ->)]%cleanup_output; by apply prefix_app_r.
Qed.

Lemma poll_stdout (events : list Event) (w w' : World) (r : Res unit) :
  poll events w = (r, w') → stdout w `prefix_of` stdout w'.
Proof.
  revert w. induction events as [|[o|signum o] rest IH]; intros w.
  - by intros [= <- <-].
  - rewrite poll_cons_tick.
    destruct (tick _) as [r1 w1] eqn:Htick.
    apply tick_stdout in Htick. cbn [stdout with_os] in Htick.
    destruct r1 as [[]|e|]; [|by intros [= <- <-]..].
    intros Hpoll%IH. by etrans.
  - rewrite poll_cons_signal.
    destruct (cleanup _) as [r1 w1] eqn:Hcleanup.
    apply cleanup_stdout in Hcleanup. cbn [stdout with_os] in Hcleanup.
    destruct r1 as [[]|e|]; by intros [= <- <-].
Qed.

(** Whatever happens in a run, its output starts with the six lines of the
    banner: nothing of what was printed is ever taken back, and nothing is
    printed before the banner. *)
Theorem output_starts_with_banner (events : list Event) (o : OS)
    (d : Desktop) (r : Res unit) (w' : World) :
  main events (start o d) = (r, w') →
  [ "League of Legends Black Bars Script";
    "========================================";
    "Monitoring for window: 'League of Legends (TM) Client'";
    "Poll interval: 100ms";
    "Press Ctrl+C to exit";
    "========================================" ]%string
    `prefix_of` stdout w'.
Proof.
  change (main events (start o d) = (r, w') → banner `prefix_of` stdout w').
  rewrite main_run.
  destruct (poll events (booted o d)) as [r1 w1] eqn:Hpoll.
  apply poll_stdout in Hpoll. change (stdout (booted o d)) with banner in Hpoll.
  destruct r1 as [[]|[e|code]|].
  - destruct (cleanup w1) as [r2 w2] eqn:Hcleanup.
    apply cleanup_stdout in Hcleanup.
    destruct r2 as [[]|?|]; intros [= <- <-]; by etrans.
  - destruct (cleanup _) as [r2 w2] eqn:Hcleanup.
    apply cleanup_stdout in Hcleanup.
    cbn [printed with_stdout stdout] in Hcleanup.
    assert (banner `prefix_of` stdout w2).
    { etrans; [done|]. etrans; [|done]. by apply prefix_app_r. }
    by destruct r2 as [[]|?|]; intros [= <- <-].
  - destruct (cleanup w1) as [r2 w2] eqn:Hcleanup.
    apply cleanup_stdout in Hcleanup.
    destruct r2 as [[]|?|]; intros [= <- <-]; by etrans.
  - by intros [= <- <-].
Qed.

(** The run of the scenario that activates and is interrupted. *)
Lemma output_starts_with_banner_witness :
  banner `prefix_of`
  stdout (main [Tick Scenario.game; Signal SIGINT Scenario.game]
            (start Scenario.editor Scenario.desktop)).2.
Proof.
  exact (output_starts_with_banner
           [Tick Scenario.game; Signal SIGINT Scenario.game]
           Scenario.editor Scenario.desktop _ _ (surjective_pairing _)).
Defined.

(** The loop never returns: it is still going, or it was left by an error
    or by the exit of the signal handler, whose status is 0 and whose
    cleanup has then printed its two lines. *)
Lemma poll_outcome (events : list Event) (w w' : World) (r : Res unit) :
  poll events w = (r, w') →
  r = Running ∨
  (∃ what, r = Raise (Error what)) ∨
  (r = Raise (SystemExit 0) ∧
   ∃ out, stdout w' = out ++ [CLEANING_UP; "Cleanup complete"%string]).
Proof.
  revert w. induction events as [|[o|signum o] rest IH]; intros w.
  - intros [= <- <-]. by left.
  - rewrite poll_cons_tick.
    destruct (tick _) as [r1 w1] eqn:Htick.
    apply tick_any in Htick as [Htame _].
    destruct r1 as [[]|[e|code]|]; [apply IH| |done..].
    intros [= <- <-]. right. left. by eexists.
  - rewrite poll_cons_signal.
    destruct (cleanup _) as [r1 w1] eqn:Hcleanup.
    apply cleanup_output in Hcleanup as [[-> Hout] | ([what ->] & _)].
    + intros [= <- <-]. right. right. split; [done|]. by eexists.
    + intros [= <- <-]. right. left. by eexists.
Qed.

(** A process that ends with status 0 has printed the two lines of the
    cleanup last.  After a signal it ends by the exit of the handler and has
    printed them twice in a row, the handler and the [finally] clause each
    running the cleanup; after an error [main] returns, and the line of the
    error comes just before them. *)
Theorem exit_output (events : list Event) (o : OS) (d : Desktop)
    (r : Res unit) (w' : World) :
  main events (start o d) = (r, w') →
  exit_code r = Some 0 →
  (r = Raise (SystemExit 0) ∧
   ∃ out, stdout w' =
          out ++ [CLEANING_UP; "Cleanup complete"; CLEANING_UP;
                  "Cleanup complete"]%string) ∨
  (r = Ok tt ∧
   ∃ out what, stdout w' =
               out ++ ["Error: " +:+ what; CLEANING_UP;
                       "Cleanup complete"]%string).
Proof.
  rewrite main_run.
  destruct (poll events (booted o d)) as [r1 w1] eqn:Hpoll.
  apply poll_outcome in Hpoll as [-> | [[what ->] | [-> [out Hout]]]].
  - by intros [= <- <-].
  - destruct (cleanup _) as [r2 w2] eqn:Hcleanup.
    apply cleanup_output in Hcleanup as [[-> Hout] | ([what' ->] & _)];
      [|by intros [= <- <-]].
    intros [= <- <-] _. right. split; [done|].
    exists (stdout w1), what. rewrite Hout.
    cbn [printed with_stdout stdout]. by rewrite <- app_assoc.
  - destruct (cleanup w1) as [r2 w2] eqn:Hcleanup.
    apply cleanup_output in Hcleanup as [[-> Hout2] | ([what' ->] & _)];
      [|by intros [= <- <-]].
    intros [= <- <-] _. left. split; [done|].
    exists out. rewrite Hout2, Hout. by rewrite <- app_assoc.
Qed.

(** The interrupted run of the scenario ends with the lines of the cleanup,
    twice. *)
Lemma exit_output_witness :
  let run := main [Tick Scenario.game; Signal SIGINT Scenario.game]
               (start Scenario.editor Scenario.desktop) in
  ∃ out, stdout run.2 =
         out ++ [CLEANING_UP; "Cleanup complete"; CLEANING_UP;
                 "Cleanup complete"]%string.
Proof.
  cbv zeta.
  set (run := main _ _).
  assert (Hr : run.1 = Raise (SystemExit 0)) by (vm_compute; reflexivity).
  destruct (exit_output [Tick Scenario.game; Signal SIGINT Scenario.game]
              Scenario.editor Scenario.desktop run.1 run.2
              (surjective_pairing run))
    as [[_ Hout] | [Hok _]].
  - by rewrite Hr.
  - exact Hout.
  - rewrite Hr in Hok. discriminate Hok.
Defined.

Lemma count_lines_app (test : string → bool) (l1 l2 : list string) :
  count_lines test (l1 ++ l2) =
  (count_lines test l1 + count_lines test l2)%nat.
Proof. unfold count_lines. by rewrite filter_app, length_app. Qed.

Lemma count_lines_one (test : string → bool) (line : string) :
  count_lines test [line] = if test line then 1%nat else 0%nat.
Proof.
  unfold count_lines. rewrite filter_cons.
  destruct (test line); by rewrite ?decide_True, ?decide_False by done.
Qed.

Lemma string_prefix_append (s t : string) : String.prefix s (s +:+ t) = true.
Proof.
  induction s as [|a s IH].
  - by destruct t.
  - change (String.prefix (String a s) (String a (s +:+ t)) = true).
    cbn [String.prefix]. by destruct (Ascii.ascii_dec a a).
Qed.

Lemma is_activation_ACTIVATED (rect : Rect) :
  is_activation (ACTIVATED rect) = true ∧
  is_deactivation (ACTIVATED rect) = false.
Proof. split; [apply string_prefix_append|reflexivity]. Qed.

(** A tick keeps the count of the two messages in step with the flag. *)
Lemma tick_counts (w w' : World) (r : Res unit) :
  tick w = (r, w') →
  count_lines is_activation (stdout w) =
    (count_lines is_deactivation (stdout w) +
     (if black_bars_active w then 1 else 0))%nat →
  count_lines is_activation (stdout w') =
    (count_lines is_deactivation (stdout w') +
     (if black_bars_active w' then 1 else 0))%nat.
Proof.
  intros [[-> ->] | [(_ & -> & ->) | [(_ & [rect ->] & -> & ->) |
                                      (_ & -> & -> & ->)]]]%tick_output;
    [done|..]; rewrite !count_lines_app, !count_lines_one.
  - change (is_activation WARNING) with false.
    change (is_deactivation WARNING) with false. cbv iota. lia.
  - destruct (is_activation_ACTIVATED rect) as [-> ->]. lia.
  - change (is_activation "Black bars deactivated") with false.
    change (is_deactivation "Black bars deactivated") with true. cbv iota. lia.
Qed.

(** In the output of the polling loop, however far it got, the lines that
    report an activation are as many as those that report a deactivation
    when the flag is false, and one more when it is true: the two messages
    alternate, and the flag is true exactly after an activation. *)
Theorem output_follows_flag (samples : list OS) (o : OS) (d : Desktop)
    (r : Res unit) (w' : World) :
  poll (Tick <$> samples) (booted o d) = (r, w') →
  count_lines is_activation (stdout w') =
    (count_lines is_deactivation (stdout w') +
     (if black_bars_active w' then 1 else 0))%nat.
Proof.
  assert (Hstart :
    count_lines is_activation (stdout (booted o d)) =
      (count_lines is_deactivation (stdout (booted o d)) +
       (if black_bars_active (booted o d) then 1 else 0))%nat)
    by reflexivity.
  revert Hstart. generalize (booted o d).
  induction samples as [|s samples IH]; intros w Hw.
  - by intros [= <- <-].
  - rewrite fmap_cons, poll_cons_tick.
    destruct (tick _) as [r1 w1] eqn:Htick.
    apply tick_counts in Htick; [|done].
    destruct r1 as [[]|e|]; [by apply IH|by intros [= <- <-]..].
Qed.

(** The game comes to the front, loses the focus and comes back: two
    activations and one deactivation are reported, and the flag is true. *)
Lemma output_follows_flag_witness :
  let run := poll (Tick <$> [Scenario.game; Scenario.editor; Scenario.game])
               Scenario.boot in
  count_lines is_activation (stdout run.2) = 2%nat ∧
  count_lines is_deactivation (stdout run.2) = 1%nat ∧
  black_bars_active run.2 = true.
Proof.
  cbv zeta. set (run := poll _ _).
  pose proof (output_follows_flag
                [Scenario.game; Scenario.editor; Scenario.game]
                Scenario.editor Scenario.desktop run.1 run.2
                (surjective_pairing run)) as Hcount.
  assert (Hd : count_lines is_deactivation (stdout run.2) = 1%nat)
    by (vm_compute; reflexivity).
  assert (Ha : black_bars_active run.2 = true) by (vm_compute; reflexivity).
  rewrite Hd, Ha in Hcount. split; [exact Hcount|]. split; [exact Hd|exact Ha].
Defined.

(** *** What a run leaves of the desktop it started on *)

Lemma filter_ne_id (h : Z) (l : list Z) :
  h ∉ l → filter (λ k, k ≠ h) l = l.
Proof.
  induction l as [|k l IH]; [done|].
  intros [Hk Hl]%not_elem_of_cons.
  rewrite filter_cons_True by done. by rewrite IH.
Qed.

Lemma untouched_desk (C : list Z) (d : Desktop) (w w' : World) :
  untouched C d w →
  black_window_hwnd w' = black_window_hwnd w →
  windows (desk w') = windows (desk w) →
  zorder (desk w') = zorder (desk w) →
  (∀ k, k ∉ C → black_window_hwnd w ≠ Some k →
        k ∈ hidden (desk w') ↔ k ∈ hidden (desk w)) →
  untouched C d w'.
Proof.
  intros [Hhid Hrest] Hhw Hwin Hz Hh. unfold untouched.
  rewrite Hhw, Hwin, Hz. split; [|done].
  intros k Hk Hne. rewrite Hh by done. by apply Hhid.
Qed.

Lemma untouched_toggled (C : list Z) (d : Desktop) (cmd : Z) (seen : list Z)
    (w : World) :
  untouched C d w →
  (∀ t, t ∈ seen → t ∈ C) →
  untouched C d (toggled cmd seen w).
Proof.
  intros Hw Hseen.
  apply (untouched_desk C d w); [done|done|apply toggled_windows|
                                 apply toggled_zorder|].
  intros k Hk _.
  assert (k ∉ seen) by (intros ?; by apply Hk, Hseen).
  destruct (decide (cmd = win32con.SW_HIDE)) as [->|Hcmd].
  - rewrite toggled_hidden_hide. set_solver.
  - assert (Hshow : hidden (desk (toggled cmd seen w)) =
                    hidden (desk w) ∖ list_to_set seen).
    { unfold toggled. cbn [desk with_desk]. generalize (desk w).
      induction seen as [|h seen IH]; intros d0; cbn [foldl].
      - set_solver.
      - rewrite IH by set_solver. cbn [show_window_desk hidden].
        apply Z.eqb_neq in Hcmd. rewrite Hcmd. set_solver. }
    rewrite Hshow. set_solver.
Qed.

Lemma untouched_shown (C : list Z) (d : Desktop) (h league_hwnd : Z)
    (w : World) :
  untouched C d w →
  black_window_hwnd w = Some h →
  league_hwnd ∈ zorder (desk w) →
  league_hwnd ≠ h →
  untouched C d (with_desk (shown_behind h league_hwnd (desk w)) w).
Proof.
  intros [Hhid Hrest] Hhw Hl Hne. unfold untouched.
  cbn [with_desk desk black_window_hwnd shown_behind windows zorder hidden].
  rewrite Hhw in Hrest |- *. rewrite restack_others by done.
  split; [|done]. intros k Hk Hkh. rewrite <- Hhid by (by rewrite ?Hhw).
  set_solver.
Qed.

Lemma activate_tail_untouched (C : list Z) (d : Desktop) (h league_hwnd : Z)
    (rect : Rect) (w w' : World) (r : Res unit) :
  untouched C d w →
  black_window_hwnd w = Some h →
  (∀ t, t ∈ chrome (os w) → t ∈ C) →
  (show_black_window h league_hwnd;;
   hide_taskbar;;
   modify (with_active true);;
   print ("Black bars activated on monitor: " +:+ repr_rect rect)) w =
  (r, w') →
  untouched C d w'.
Proof.
  intros Hw Hhw HC. rewrite activate_tail_run.
  destruct (raises _ _); [by intros [= <- <-]|].
  destruct (bool_decide (h ∈ _)); cbn [andb]; [|by intros [= <- <-]].
  destruct (bool_decide (league_hwnd ∈ _)) eqn:Hl; cbn [andb];
    [|by intros [= <- <-]].
  destruct (Z.eqb_spec league_hwnd h) as [|Hne]; cbn [negb];
    [by intros [= <- <-]|].
  apply bool_decide_eq_true in Hl. cbv zeta.
  pose proof (untouched_shown C d h league_hwnd w Hw Hhw Hl Hne) as Hshown.
  destruct (toggle_taskbar _ _) as [r1 w1] eqn:Htoggle.
  apply toggle_taskbar_any in Htoggle as (_ & seen & Hpre & ->).
  assert (Hseen : untouched C d
            (toggled win32con.SW_HIDE seen
               (with_desk (shown_behind h league_hwnd (desk w)) w))).
  { apply untouched_toggled; [done|].
    intros t Ht. apply HC. by apply (prefix_elem_of seen). }
  destruct r1 as [[]|e|]; intros [= <- <-]; done.
Qed.

Lemma activate_black_bars_untouched (C : list Z) (d : Desktop)
    (league_hwnd : Z) (w w' : World) (r : Res unit) :
  untouched C d w →
  fresh (new_window (os w)) d →
  (∀ t, t ∈ chrome (os w) → t ∈ C) →
  activate_black_bars league_hwnd w = (r, w') →
  untouched C d w'.
Proof.
  intros Hw Hfresh HC. unfold activate_black_bars.
  rewrite bind_run, get_monitor_rect_run.
  destruct (monitor_rect_of _ _) as [rect|]; [|by intros [= <- <-]].
  rewrite bind_run. cbv beta iota delta [gets].
  destruct (black_window_hwnd w) as [h|] eqn:Hhw.
  - rewrite bind_run. cbv beta iota delta [mret M_ret].
    by apply activate_tail_untouched.
  - assert (Hreg : untouched C d (with_desk (registered (os w) (desk w)) w)).
    { apply (untouched_desk C d w); [done|done|..];
        cbn [with_desk desk]; unfold registered; by destruct (_ || _). }
    rewrite !bind_run, create_black_window_run.
    destruct (raises _ (CallGetStockObject _)); [by intros [= <- <-]|].
    destruct (raises _ (CallLoadCursor _ _)); [by intros [= <- <-]|].
    cbv zeta.
    destruct (raises _ (create_call _)); cbn [orb]; [by intros [= <- <-]|].
    destruct (Z.eqb_spec (new_window (os w)) 0) as [|Hnew];
      [by intros [= <- <-]|].
    rewrite bind_run. cbv beta iota delta [modify mret M_ret].
    apply activate_tail_untouched; [|done|done].
    destruct Hreg as [Hhid Hrest], Hfresh as (Hfw & Hfz & Hfh).
    cbn [with_desk desk black_window_hwnd] in Hhid, Hrest.
    rewrite Hhw in Hrest. destruct Hrest as [Hwin Hz].
    unfold untouched.
    cbn [with_hwnd with_desk desk black_window_hwnd].
    destruct rect as [[[? ?] ?] ?].
    cbn [with_overlay windows zorder hidden].
    split; [|split; [done|split; [done|split; [|split]]]].
    + intros k Hk Hkn. rewrite <- Hhid by (by rewrite ?Hhw). set_solver.
    + rewrite lookup_insert_eq. eauto.
    + rewrite delete_insert_eq, Hwin. by apply delete_id.
    + rewrite filter_cons_False by (intros Hn; by apply Hn).
      rewrite Hz. by apply filter_ne_id.
Qed.

Lemma untouched_overlay_hidden (C : list Z) (d : Desktop) (w : World) :
  untouched C d w → untouched C d (overlay_hidden w).
Proof.
  intros Hw.
  apply (untouched_desk C d w);
    [done|apply overlay_hidden_hwnd|apply overlay_hidden_windows|
     apply overlay_hidden_zorder|].
  intros k _ Hk. rewrite overlay_hidden_hidden.
  destruct (black_window_hwnd w) as [h|]; [|done].
  destruct (_ || _); [done|]. set_solver.
Qed.

Lemma deactivate_black_bars_untouched (C : list Z) (d : Desktop)
    (w w' : World) (r : Res unit) :
  untouched C d w →
  (∀ t, t ∈ chrome (os w) → t ∈ C) →
  deactivate_black_bars w = (r, w') →
  untouched C d w'.
Proof.
  intros Hw HC.
  destruct (chrome_ok (os w) win32con.SW_SHOW) eqn:Hok.
  - rewrite deactivate_black_bars_ok by done. intros [= <- <-].
    apply (untouched_toggled C d win32con.SW_SHOW (chrome (os w))
             (overlay_hidden w)); [|done].
    by apply untouched_overlay_hidden.
  - destruct (deactivate_black_bars_fail w Hok) as (seen & what & Hpre & ->).
    intros [= <- <-]. apply untouched_toggled.
    + by apply untouched_overlay_hidden.
    + intros t Ht. apply HC. by apply (prefix_elem_of seen).
Qed.

Lemma tick_untouched (C : list Z) (d : Desktop) (w w' : World)
    (r : Res unit) :
  untouched C d w →
  fresh (new_window (os w)) d →
  (∀ t, t ∈ chrome (os w) → t ∈ C) →
  tick w = (r, w') →
  untouched C d w'.
Proof.
  intros Hw Hfresh HC. rewrite tick_run.
  destruct (raises _ _); [by intros [= <- <-]|].
  destruct (wanted (os w)), (black_bars_active w).
  - by intros [= <- <-].
  - by apply activate_black_bars_untouched.
  - by apply deactivate_black_bars_untouched.
  - by intros [= <- <-].
Qed.

(** The cleanup takes the overlay away again when its destruction does not
    fail. *)
Lemma cleanup_untouched (C : list Z) (d : Desktop) (w w' : World)
    (r : Res unit) :
  untouched C d w →
  (∀ t, t ∈ chrome (os w) → t ∈ C) →
  (∀ h, raises (os w) (CallDestroyWindow h) = false) →
  cleanup w = (r, w') →
  untouched C d w'.
Proof.
  intros Hw HC Hdestroy.
  destruct (chrome_ok (os w) win32con.SW_SHOW) eqn:Hok.
  - rewrite cleanup_ok by done. intros [= <- <-].
    set (w0 := toggled win32con.SW_SHOW (chrome (os w)) (printed CLEANING_UP w)).
    assert (Hw0 : untouched C d w0).
    { apply untouched_toggled; [|done]. exact Hw. }
    assert (Hos0 : os w0 = os w) by done.
    clearbody w0.
    enough (untouched C d (overlay_destroyed w0)) by done.
    unfold overlay_destroyed. destruct Hw0 as [Hhid Hrest].
    destruct (black_window_hwnd w0) as [h|] eqn:Hhw; [|by split; rewrite ?Hhw].
    destruct Hrest as (Hh0 & (Hfw & Hfz & Hfh) & Hown & Hwin & Hz).
    apply Z.eqb_neq in Hh0. rewrite Hh0, Hos0, Hdestroy.
    rewrite bool_decide_eq_true_2 by done.
    unfold untouched.
    cbn [with_hwnd with_desk desk black_window_hwnd destroyed windows zorder
         hidden].
    split; [|done]. intros k Hk _.
    destruct (decide (k = h)) as [->|Hkh]; [set_solver|].
    rewrite <- Hhid by (by rewrite ?Hhw; try intros [= ->]). set_solver.
  - destruct (cleanup_fail w Hok) as (seen & what & Hpre & ->).
    intros [= <- <-].
    apply (untouched_toggled C d win32con.SW_SHOW seen (printed CLEANING_UP w));
      [exact Hw|].
    intros t Ht. apply HC. by apply (prefix_elem_of seen).
Qed.

Lemma poll_ticks_untouched (C : list Z) (d : Desktop) (samples : list OS)
    (w w' : World) (r : Res unit) :
  untouched C d w →
  (∀ o, o ∈ samples →
        fresh (new_window o) d ∧ ∀ t, t ∈ chrome o → t ∈ C) →
  poll (Tick <$> samples) w = (r, w') →
  untouched C d w'.
Proof.
  revert w. induction samples as [|o samples IH]; intros w Hw Hall.
  - by intros [= <- <-].
  - rewrite fmap_cons, poll_cons_tick.
    destruct (tick _) as [r1 w1] eqn:Htick.
    destruct (Hall o) as [Hfresh HC]; [by left|].
    apply (tick_untouched C d) in Htick; [|done..].
    destruct r1 as [[]|e|]; [|by intros [= <- <-]..].
    apply IH; [done|]. intros o' Ho'. apply Hall. by right.
Qed.

Lemma poll_untouched (C : list Z) (d : Desktop) (events : list Event)
    (w w' : World) (r : Res unit) :
  untouched C d w →
  (∀ e, e ∈ events →
        fresh (new_window (event_os e)) d ∧
        (∀ t, t ∈ chrome (event_os e) → t ∈ C) ∧
        ∀ h, raises (event_os e) (CallDestroyWindow h) = false) →
  poll events w = (r, w') →
  untouched C d w' ∧
  (r ≠ Running → ∃ e, e ∈ events ∧ os w' = event_os e).
Proof.
  revert w. induction events as [|[o|signum o] rest IH]; intros w Hw Hall.
  - by intros [= <- <-].
  - rewrite poll_cons_tick.
    destruct (tick _) as [r1 w1] eqn:Htick.
    destruct (Hall (Tick o)) as (Hfresh & HC & _); [by left|].
    pose proof (tick_any _ _ _ Htick) as (_ & Hos & _).
    apply (tick_untouched C d) in Htick; [|done..].
    destruct r1 as [[]|e|].
    + intros Hpoll.
      destruct (IH w1 Htick (λ e He, Hall e (list_elem_of_further _ _ _ He))
                  Hpoll) as [Hu He].
      split; [done|]. intros Hr. destruct (He Hr) as (e & Hin & Hose).
      exists e. split; [by right|done].
    + intros [= <- <-]. split; [done|]. intros _.
      exists (Tick o). split; [by left|done].
    + intros [= <- <-]. done.
  - rewrite poll_cons_signal.
    destruct (cleanup _) as [r1 w1] eqn:Hcleanup.
    destruct (Hall (Signal signum o)) as (Hfresh & HC & Hdestroy); [by left|].
    pose proof (cleanup_any _ _ _ Hcleanup) as (_ & Hos & _).
    apply (cleanup_untouched C d) in Hcleanup; [|done..].
    assert (∃ e, e ∈ Signal signum o :: rest ∧ os w1 = event_os e)
      by (exists (Signal signum o); split; [by left|done]).
    destruct r1 as [[]|e|]; intros [= <- <-]; done.
Qed.

(** The polling loop leaves the other windows alone.  Let the handle a new
    window would get be not in use on the desktop the process started on,
    and the task bar and Start button found at each tick be among [C].
    Then, however far the loop got and whether or not a tick failed: no
    window other than the overlay and those of [C] has changed visibility,
    and the windows and the stacking order, the overlay taken out, are
    those the process started on. *)
Theorem bystanders_untouched (C : list Z) (o0 : OS) (d : Desktop)
    (samples : list OS) (r : Res unit) (w' : World) :
  (∀ o, o ∈ samples →
        fresh (new_window o) d ∧ ∀ t, t ∈ chrome o → t ∈ C) →
  poll (Tick <$> samples) (booted o0 d) = (r, w') →
  (∀ k, k ∉ C → black_window_hwnd w' ≠ Some k →
        k ∈ hidden (desk w') ↔ k ∈ hidden d) ∧
  match black_window_hwnd w' with
  | None => windows (desk w') = windows d ∧ zorder (desk w') = zorder d
  | Some h =>
      delete h (windows (desk w')) = windows d ∧
      filter (λ k, k ≠ h) (zorder (desk w')) = zorder d
  end.
Proof.
  intros Hall Hpoll.
  assert (Hstart : untouched C d (booted o0 d)) by done.
  destruct (poll_ticks_untouched C d samples _ _ _ Hstart Hall Hpoll)
    as [Hhid Hrest].
  split; [done|]. destruct (black_window_hwnd w'); [|done].
  by destruct Hrest as (_ & _ & _ & ? & ?).
Qed.

(** The game comes to the front, loses the focus and comes back on the
    other monitor: the overlay apart, the stacking order is the one the
    process started on. *)
Lemma bystanders_untouched_witness :
  let run := poll (Tick <$> [Scenario.game; Scenario.editor;
                             Scenario.game_moved]) Scenario.boot in
  filter (λ k, k ≠ Scenario.OVERLAY) (zorder (desk run.2)) =
  zorder Scenario.desktop.
Proof.
  cbv zeta. set (run := poll _ _).
  assert (Hhw : black_window_hwnd run.2 = Some Scenario.OVERLAY)
    by (vm_compute; reflexivity).
  destruct (bystanders_untouched [Scenario.TASKBAR; Scenario.START]
              Scenario.editor Scenario.desktop
              [Scenario.game; Scenario.editor; Scenario.game_moved]
              run.1 run.2) as [_ Hrest].
  - intros o Ho.
    assert (Hfresh : fresh Scenario.OVERLAY Scenario.desktop).
    { split; [reflexivity|]. split; [|apply not_elem_of_empty].
      unfold Scenario.desktop, zorder. rewrite !not_elem_of_cons.
      repeat split; [discriminate..|apply not_elem_of_nil]. }
    apply elem_of_cons in Ho as [->|Ho]; [split; [exact Hfresh|by intros t Ht]|].
    apply elem_of_cons in Ho as [->|Ho]; [split; [exact Hfresh|by intros t Ht]|].
    apply elem_of_cons in Ho as [->|Ho]; [split; [exact Hfresh|by intros t Ht]|].
    by apply elem_of_nil in Ho.
  - apply surjective_pairing.
  - rewrite Hhw in Hrest. exact (proj2 Hrest).
Defined.

(** A process that ends with status 0 leaves the desktop as it found it.
    Let the task bar and the Start button be the same windows [C] at every
    event, shown when the process starts; let the handle a new window would
    get be not in use on the desktop the process starts on, and let no
    destruction of a window fail.  Then after a signal or an error that ends
    the process with status 0, the windows, the stacking order and the
    hidden windows are exactly those of the start, and the handle variable
    is [None]. *)
Theorem clean_exit_restores_desktop (C : list Z) (events : list Event)
    (o0 : OS) (d : Desktop) (r : Res unit) (w' : World) :
  (∀ e, e ∈ events →
        chrome (event_os e) = C ∧
        fresh (new_window (event_os e)) d ∧
        ∀ h, raises (event_os e) (CallDestroyWindow h) = false) →
  (∀ t, t ∈ C → t ∉ hidden d) →
  main events (start o0 d) = (r, w') →
  exit_code r = Some 0 →
  windows (desk w') = windows d ∧
  zorder (desk w') = zorder d ∧
  hidden (desk w') = hidden d ∧
  black_window_hwnd w' = None.
Proof.
  intros Hall Hshown.
  assert (Hall' : ∀ e, e ∈ events →
            fresh (new_window (event_os e)) d ∧
            (∀ t, t ∈ chrome (event_os e) → t ∈ C) ∧
            ∀ h, raises (event_os e) (CallDestroyWindow h) = false).
  { intros e He. destruct (Hall e He) as (-> & ? & ?). done. }
  assert (Hstart : untouched C d (booted o0 d)) by done.
  assert (Hend : ∀ w1 w2,
            untouched C d w1 →
            (∃ e, e ∈ events ∧ os w1 = event_os e) →
            cleanup w1 = (Ok tt, w2) →
            windows (desk w2) = windows d ∧ zorder (desk w2) = zorder d ∧
            hidden (desk w2) = hidden d ∧ black_window_hwnd w2 = None).
  { intros w1 w2 Hw1 (e & He & Hos) Hcleanup.
    destruct (Hall e He) as (HC & _ & Hdestroy). rewrite <- Hos in HC, Hdestroy.
    pose proof (cleanup_any _ _ _ Hcleanup) as (_ & Hos2 & _).
    assert (Hnn : black_window_hwnd w1 ≠ Some 0).
    { destruct Hw1 as [_ Hrest]. intros Hhw. rewrite Hhw in Hrest.
      by destruct Hrest as [? _]. }
    destruct (cleanup_shows _ _ Hnn Hcleanup) as [Hchrome Hnone].
    rewrite Hos2, HC in Hchrome.
    apply (cleanup_untouched C d) in Hcleanup;
      [|done|by rewrite HC|done].
    destruct Hcleanup as [Hhid Hrest]. rewrite Hnone in Hhid, Hrest.
    destruct Hrest as [Hwin Hz].
    split; [done|]. split; [done|]. split; [|done].
    apply set_eq. intros k. destruct (decide (k ∈ C)) as [Hk|Hk].
    - split; intros Hin; [by destruct (Hchrome k Hk)|by destruct (Hshown k Hk)].
    - by apply Hhid. }
  rewrite main_run.
  destruct (poll events (booted o0 d)) as [r1 w1] eqn:Hpoll.
  destruct (poll_untouched C d events _ _ _ Hstart Hall' Hpoll) as [Hw1 Hos1].
  destruct r1 as [[]|[e|code]|].
  - destruct (cleanup w1) as [r2 w2] eqn:Hcleanup.
    pose proof (cleanup_any _ _ _ Hcleanup) as [Htame _].
    destruct r2 as [[]|[?|?]|]; try done; intros [= <- <-] Hcode; try done.
    by apply (Hend w1); [|apply Hos1|].
  - destruct (cleanup _) as [r2 w2] eqn:Hcleanup.
    pose proof (cleanup_any _ _ _ Hcleanup) as [Htame _].
    destruct r2 as [[]|[?|?]|]; try done; intros [= <- <-] Hcode; try done.
    by apply (Hend (printed ("Error: " +:+ e) w1)); [|apply Hos1|].
  - destruct (cleanup w1) as [r2 w2] eqn:Hcleanup.
    pose proof (cleanup_any _ _ _ Hcleanup) as [Htame _].
    destruct r2 as [[]|[?|?]|]; try done; intros [= <- <-] Hcode; try done.
    by apply (Hend w1); [|apply Hos1|].
  - by intros [= <- <-].
Qed.

(** The game is played on one monitor, left, played on the other, and the
    process is terminated: the desktop is as the process found it. *)
Lemma clean_exit_restores_desktop_witness :
  let run := main [Tick Scenario.game; Tick Scenario.editor;
                   Tick Scenario.game_moved;
                   Signal SIGTERM Scenario.game_moved]
               (start Scenario.editor Scenario.desktop) in
  windows (desk run.2) = windows Scenario.desktop ∧
  zorder (desk run.2) = zorder Scenario.desktop ∧
  hidden (desk run.2) = hidden Scenario.desktop ∧
  black_window_hwnd run.2 = None.
Proof.
  cbv zeta. set (run := main _ _).
  apply (clean_exit_restores_desktop [Scenario.TASKBAR; Scenario.START]
           [Tick Scenario.game; Tick Scenario.editor;
            Tick Scenario.game_moved; Signal SIGTERM Scenario.game_moved]
           Scenario.editor Scenario.desktop run.1 run.2).
  - intros e He.
    assert (Hfresh : fresh Scenario.OVERLAY Scenario.desktop).
    { split; [reflexivity|]. split; [|apply not_elem_of_empty].
      unfold Scenario.desktop, zorder. rewrite !not_elem_of_cons.
      repeat split; [discriminate..|apply not_elem_of_nil]. }
    apply elem_of_cons in He as [->|He]; [by split; [|split]|].
    apply elem_of_cons in He as [->|He]; [by split; [|split]|].
    apply elem_of_cons in He as [->|He]; [by split; [|split]|].
    apply elem_of_cons in He as [->|He]; [by split; [|split]|].
    by apply elem_of_nil in He.
  - intros t _. apply not_elem_of_empty.
  - apply surjective_pairing.
  - vm_compute. reflexivity.
Defined.

(** *** How a run ends *)





(** The handle variable never holds the null handle: at every point of
    every run it is [None] or a handle that is not [0], so that the test
    [is None] of the activation and the truth test of the deactivation and
    of the cleanup always agree. *)
Theorem handle_never_null (events : list Event) (o : OS) (d : Desktop)
    (r : Res unit) (w' : World) :
  main events (start o d) = (r, w') →
  black_window_hwnd w' ≠ Some 0 ∧
  truthy (black_window_hwnd w') = bool_decide (is_Some (black_window_hwnd w')).
Proof.
  intros Hmain.
  assert (Hnn : black_window_hwnd w' ≠ Some 0).
  { revert Hmain. rewrite main_run.
    assert (Hstart : created_once (creations d) (booted o d)) by done.
    destruct (poll events (booted o d)) as [r1 w1] eqn:Hpoll.
    apply (poll_nonnull _ _ _ _ _ Hstart) in Hpoll.
    destruct r1 as [[]|[e|code]|].
    - destruct (cleanup w1) as [r2 w2] eqn:Hcleanup.
      apply cleanup_nonnull in Hcleanup; [|done].
      by destruct r2 as [[]|?|]; intros [= <- <-].
    - destruct (cleanup _) as [r2 w2] eqn:Hcleanup.
      apply cleanup_nonnull in Hcleanup; [|done].
      by destruct r2 as [[]|?|]; intros [= <- <-].
    - destruct (cleanup w1) as [r2 w2] eqn:Hcleanup.
      apply cleanup_nonnull in Hcleanup; [|done].
      by destruct r2 as [[]|?|]; intros [= <- <-].
    - by intros [= <- <-]. }
  split; [done|]. unfold truthy.
  destruct (black_window_hwnd w') as [h|]; [|done].
  rewrite bool_decide_eq_true_2 by eauto.
  destruct (Z.eqb_spec h 0) as [->|]; done.
Qed.

(** The run of the scenario that is still going holds the handle of the
    overlay. *)
Lemma handle_never_null_witness :
  let run := main [Tick Scenario.game; Tick Scenario.editor]
               (start Scenario.editor Scenario.desktop) in
  truthy (black_window_hwnd run.2) =
  bool_decide (is_Some (black_window_hwnd run.2)).
Proof.
  exact (proj2 (handle_never_null [Tick Scenario.game; Tick Scenario.editor]
                  Scenario.editor Scenario.desktop _ _
                  (surjective_pairing _))).
Defined.

(** ** Failures of the restoration *)

(** When [cleanup] raises, it has stopped before the overlay: showing the
    task bar failed, the line that opens the cleanup is printed and the one
    that closes it is not, the handle variable and the flag are as they
    were, and the overlay, if there is one, is still a window of the
    desktop, where it was in the stacking order. *)
Theorem cleanup_failure_keeps_overlay (w w' : World) (r : Res unit) :
  cleanup w = (r, w') →
  r ≠ Ok tt →
  (∃ what, r = Raise (Error what)) ∧
  chrome_ok (os w) win32con.SW_SHOW = false ∧
  stdout w' = stdout w ++ [CLEANING_UP] ∧
  black_window_hwnd w' = black_window_hwnd w ∧
  black_bars_active w' = black_bars_active w ∧
  windows (desk w') = windows (desk w) ∧
  zorder (desk w') = zorder (desk w).
Proof.
  destruct (chrome_ok (os w) win32con.SW_SHOW) eqn:Hok.
  - rewrite cleanup_ok by done. by intros [= <- <-].
  - destruct (cleanup_fail w Hok) as (seen & what & _ & ->).
    intros [= <- <-] _. split; [by eexists|].
    by rewrite toggled_windows, toggled_zorder.
Qed.

(** The program is active and the task bar refuses to be shown: the
    cleanup raises and the overlay stays. *)
Lemma cleanup_failure_keeps_overlay_witness :
  let w := with_os Cases.editor_stuck Examples.playing in
  black_window_hwnd (cleanup w).2 = Some Scenario.OVERLAY ∧
  windows (desk (cleanup w).2) = windows (desk w).
Proof.
  cbv zeta. set (w := with_os Cases.editor_stuck Examples.playing).
  destruct (cleanup_failure_keeps_overlay w (cleanup w).2 (cleanup w).1
              (surjective_pairing _))
    as (_ & _ & _ & Hhw & _ & Hwin & _).
  - vm_compute. discriminate.
  - split; [|exact Hwin]. rewrite Hhw. vm_compute. reflexivity.
Defined.

(** A failure to hide the overlay is ignored by the deactivation: with an
    overlay that is not a task bar window and refuses to be hidden, and a
    task bar that can be shown, [deactivate_black_bars] returns with the
    flag cleared and the overlay as visible as it was.  The ticks that
    follow, while another window is in front, do not try again. *)
Theorem deactivation_ignores_hide_failure (h : Z) (w : World) :
  black_window_hwnd w = Some h →
  raises (os w) (CallShowWindow h win32con.SW_HIDE) = true →
  chrome_ok (os w) win32con.SW_SHOW = true →
  h ∉ chrome (os w) →
  ∃ w',
    deactivate_black_bars w = (Ok tt, w') ∧
    black_bars_active w' = false ∧
    (h ∈ hidden (desk w') ↔ h ∈ hidden (desk w)) ∧
    (raises (os w) CallGetForegroundWindow = false →
     wanted (os w) = false →
     tick w' = (Ok tt, w')).
Proof.
  intros Hhw Hraise Hok Hh. eexists.
  rewrite deactivate_black_bars_ok by done. split; [reflexivity|].
  split; [done|].
  cbn [printed with_stdout with_active desk].
  rewrite toggled_hidden_show, overlay_hidden_hidden, Hhw, Hraise, orb_true_r.
  split; [set_solver|].
  intros Hfg Hwanted. rewrite tick_run.
  cbn [printed with_stdout with_active os black_bars_active].
  rewrite toggled_os, overlay_hidden_os, Hfg, Hwanted. reflexivity.
Qed.

(** The program is active, the editor comes to the front and the overlay
    refuses to be hidden: the program is inactive and the overlay is still
    shown. *)
Lemma deactivation_ignores_hide_failure_witness :
  let w := with_os Cases.editor_haunted Examples.playing in
  ∃ w',
    deactivate_black_bars w = (Ok tt, w') ∧
    black_bars_active w' = false ∧
    Scenario.OVERLAY ∉ hidden (desk w').
Proof.
  cbv zeta.
  destruct (deactivation_ignores_hide_failure Scenario.OVERLAY
              (with_os Cases.editor_haunted Examples.playing)
              eq_refl eq_refl eq_refl)
    as (w' & Hrun & Hact & Hhid & _).
  - change (Scenario.OVERLAY ∉ [Scenario.TASKBAR; Scenario.START]).
    rewrite !not_elem_of_cons.
    repeat split; [discriminate..|apply not_elem_of_nil].
  - exists w'. split; [exact Hrun|]. split; [exact Hact|].
    rewrite Hhid. vm_compute. intros Hin. discriminate Hin.
Defined.

(** A failure to destroy the overlay is ignored by the cleanup: when the
    task bar can be shown and the destruction fails, [cleanup] returns, the
    handle variable is cleared, and the window is still there. *)
Theorem cleanup_ignores_destroy_failure (h : Z) (w : World) :
  black_window_hwnd w = Some h →
  h ≠ 0 →
  raises (os w) (CallDestroyWindow h) = true →
  chrome_ok (os w) win32con.SW_SHOW = true →
  ∃ w',
    cleanup w = (Ok tt, w') ∧
    black_window_hwnd w' = None ∧
    windows (desk w') = windows (desk w) ∧
    zorder (desk w') = zorder (desk w) ∧
    (h ∈ hidden (desk w') ↔ h ∈ hidden (desk w) ∧ h ∉ chrome (os w)).
Proof.
  intros Hhw Hh0 Hraise Hok. eexists.
  rewrite cleanup_ok by done. split; [reflexivity|].
  set (w0 := toggled win32con.SW_SHOW (chrome (os w)) (printed CLEANING_UP w)).
  assert (Hhw0 : black_window_hwnd w0 = Some h) by done.
  assert (Hos0 : os w0 = os w) by done.
  assert (Hwin0 : windows (desk w0) = windows (desk w))
    by exact (toggled_windows _ _ (printed CLEANING_UP w)).
  assert (Hz0 : zorder (desk w0) = zorder (desk w))
    by exact (toggled_zorder _ _ (printed CLEANING_UP w)).
  assert (Hhid0 : hidden (desk w0) =
                  hidden (desk w) ∖ list_to_set (chrome (os w)))
    by exact (toggled_hidden_show _ (printed CLEANING_UP w)).
  clearbody w0.
  cbn [printed with_stdout desk black_window_hwnd].
  unfold overlay_destroyed. rewrite Hhw0, Hos0, Hraise.
  apply Z.eqb_neq in Hh0. rewrite Hh0.
  cbn [with_hwnd desk black_window_hwnd].
  rewrite Hwin0, Hz0, Hhid0. repeat split; set_solver.
Qed.

(** The program is terminated while the overlay refuses to be destroyed. *)
Lemma cleanup_ignores_destroy_failure_witness :
  let w := with_os Cases.editor_haunted Examples.playing in
  ∃ w',
    cleanup w = (Ok tt, w') ∧
    black_window_hwnd w' = None ∧
    windows (desk w') = windows (desk w).
Proof.
  cbv zeta.
  destruct (cleanup_ignores_destroy_failure Scenario.OVERLAY
              (with_os Cases.editor_haunted Examples.playing)
              eq_refl)
    as (w' & Hrun & Hnone & Hwin & _); [discriminate|reflexivity..|].
  exists w'. split; [exact Hrun|]. split; [exact Hnone|exact Hwin].
Defined.

(** ** The lookups *)

(** The three lookups of windows change nothing, and what they return is
    [None] or a handle that is not null: a null result of the native search
    is turned into [None].  The Start button is searched for only when the
    task bar was found: without a task bar the result is [None] whatever
    the search for the button would give. *)
Theorem lookups_never_null (w : World) :
  (∀ r w', find_league_window w = (Ok r, w') → w' = w ∧ r ≠ Some 0) ∧
  (∀ r w', find_taskbar w = (Ok r, w') → w' = w ∧ r ≠ Some 0) ∧
  (∀ r w', find_start_button w = (Ok r, w') → w' = w ∧ r ≠ Some 0) ∧
  (raises (os w) (CallFindWindow (Some TASKBAR_CLASS) None) = false →
   find_window (os w) (Some TASKBAR_CLASS) None = 0 →
   find_start_button w = (Ok None, w)).
Proof.
  assert (Hnn : ∀ x, or_None x ≠ Some 0).
  { intros x. unfold or_None. destruct (Z.eqb_spec x 0); [done|].
    by intros [= ->]. }
  unfold find_league_window, find_start_button, find_taskbar,
    Win32.FindWindow, Win32.FindWindowEx.
  run. split; [|split; [|split]].
  - intros r w'. destruct (raises _ _); [done|]. by intros [= <- <-].
  - intros r w'. destruct (raises _ _); [done|]. by intros [= <- <-].
  - intros r w'. destruct (raises _ (CallFindWindow _ _)); [done|].
    destruct (truthy _); [|by intros [= <- <-]].
    destruct (raises _ _); [done|]. by intros [= <- <-].
  - intros -> ->. reflexivity.
Qed.

(** On the desktop without task bar no Start button is found. *)
Lemma lookups_never_null_witness :
  find_start_button Examples.bare = (Ok None, Examples.bare).
Proof.
  exact (proj2 (proj2 (proj2 (lookups_never_null Examples.bare)))
           eq_refl eq_refl).
Defined.
